(** * Task store (database.js), schema (schema.sql) and sync adapter
      (integration.js) of the ProjectFlow task manager, as a shallow embedding.

    The store is a thin wrapper around single SQL statements.  A promise is
    modelled by the value it settles with, the SQLite table by the list of its
    rows in rowid order, and the clock by the reading each call observes.

    Conventions of the model.
    - Strings are sequences of code points below 256.
    - Property values of payloads and filters are [undefined], [null] or a
      string, as the README's API reference types them; [limit] and task
      identifiers are integers.
    - A due date is kept as the text it was given, and text is compared
      bytewise, as the BINARY collation does.  The column is declared [DATE],
      so SQLite itself keeps and compares text that reads as a number as a
      number; the README asks for [YYYY-MM-DD], which does not read as one,
      and every theorem that depends on a stored or compared due date says
      so with a hypothesis of [Domain].
    - SQLite leaves the order of rows with equal [created_at] to the query
      plan; [SQL.order_by_desc] lists them in rowid order and the theorems
      state orders up to such ties.
    - A statement of the store fails only where the model says so; the
      limits of SQLite that the model leaves out (a [LIMIT] outside 64 bits,
      a [LIKE] pattern above 50000 bytes, text cut at U+0000 by [LIKE]) are
      hypotheses of [Domain] on the theorems they bear on.
    - The item [projectflow_tasks] of [localStorage] is the array its JSON
      text denotes, and [setItem] succeeds.
    - [CURRENT_TIMESTAMP] is a number of seconds; its text form is fixed
      width, so the order of the numbers is the order of the texts. *)

From Stdlib Require Import ZArith Lia Ascii Permutation Sorted.
From stdpp Require Import base strings gmap list sorting pretty.

Local Open Scope Z_scope.

(* ===================================================================== *)
(** ** JavaScript values and string primitives *)
(* ===================================================================== *)

Module JS.

Inductive value :=
  | Undefined
  | Null
  | Str (s : string).

#[global] Instance value_eq_dec : EqDecision value.
Proof. solve_decision. Defined.

(** [!!v] *)
Definition truthy (v : value) : bool :=
  match v with
  | Str s => negb (String.eqb s "")
  | _ => false
  end.

(** [v || d] *)
Definition or (v d : value) : value := if truthy v then v else d.

(** [o.k]: an absent property reads as [undefined]. *)
Definition get (o : gmap string value) (k : string) : value :=
  default Undefined (o !! k).

(** White space removed by [String.prototype.trim], below code point 256:
    TAB, LF, VT, FF, CR, SPACE and NBSP. *)
Definition is_white_space (a : ascii) : bool :=
  match a with
  | "009" | "010" | "011" | "012" | "013" | " " | "160" => true
  | _ => false
  end%char.

Fixpoint trimStart (s : string) : string :=
  match s with
  | "" => ""
  | String a s' => if is_white_space a then trimStart s' else s
  end.

Fixpoint trimEnd (s : string) : string :=
  match s with
  | "" => ""
  | String a s' =>
      match trimEnd s' with
      | "" => if is_white_space a then "" else String a ""
      | r => String a r
      end
  end.

Definition trim (s : string) : string := trimEnd (trimStart s).

(** [s.length] *)
Definition length (s : string) : Z := Z.of_nat (String.length s).

(** [l.join(sep)] *)
Definition join (sep : string) (l : list string) : string :=
  String.concat sep l.

(** [l.includes(v)] for a list of string literals: strict equality. *)
Definition includes (l : list string) (v : value) : bool :=
  match v with
  | Str s => bool_decide (s ∈ l)
  | _ => false
  end.

(** [s.split(sep)[0]] for a one-character separator. *)
Fixpoint split_first (sep : ascii) (s : string) : string :=
  match s with
  | "" => ""
  | String a s' => if Ascii.eqb a sep then "" else String a (split_first sep s')
  end.

(** What settles a promise. *)
Inductive error :=
  | Error (message : string)
  | TypeError (message : string)
  | SQLITE_CONSTRAINT (message : string).

Inductive promise (A : Type) :=
  | Resolve (a : A)
  | Reject (e : error).
Arguments Resolve {A} a.
Arguments Reject {A} e.

End JS.

Import JS.

(* ===================================================================== *)
(** ** The SQL primitives the statements of database.js rely on *)
(* ===================================================================== *)

Module SQL.

(** A comparison involving NULL is NULL: conditions are three-valued. *)
Definition eq (a b : option string) : option bool :=
  match a, b with
  | Some x, Some y => Some (String.eqb x y)
  | _, _ => None
  end.

Definition ge (a b : option string) : option bool :=
  match a, b with
  | Some x, Some y => Some (String.leb y x)
  | _, _ => None
  end.

Definition le (a b : option string) : option bool :=
  match a, b with
  | Some x, Some y => Some (String.leb x y)
  | _, _ => None
  end.

Definition and (a b : option bool) : option bool :=
  match a, b with
  | Some false, _ | _, Some false => Some false
  | Some true, Some true => Some true
  | _, _ => None
  end.

Definition or (a b : option bool) : option bool :=
  match a, b with
  | Some true, _ | _, Some true => Some true
  | Some false, Some false => Some false
  | _, _ => None
  end.

(** [x IN (l)] *)
Definition in_list (a : option string) (l : list string) : option bool :=
  (λ x, bool_decide (x ∈ l)) <$> a.

(** WHERE and CASE WHEN keep a row only when the condition is true. *)
Definition holds (c : option bool) : bool :=
  match c with
  | Some true => true
  | _ => false
  end.

(** A CHECK constraint is violated only when its condition is false. *)
Definition check (c : option bool) : bool :=
  match c with
  | Some false => false
  | _ => true
  end.

(** [CASE WHEN c THEN 1 ELSE 0 END] *)
Definition case_when (c : option bool) : Z := if holds c then 1 else 0.

(** [SUM] is NULL over no rows. *)
Definition sum (l : list Z) : option Z :=
  match l with
  | [] => None
  | _ => Some (foldr Z.add 0 l)
  end.

(** [COUNT( * )] *)
Definition count {A} (l : list A) : Z := Z.of_nat (List.length l).

(** LIKE folds the case of ASCII letters only. *)
Definition upper_to_lower (a : ascii) : ascii :=
  let n := N_of_ascii a in
  if ((65 <=? n) && (n <=? 90))%N then ascii_of_N (n + 32) else a.

(** [like_match p s]: does [s] match the pattern [p]?  [%] matches any run
    of characters, [_] any one character; there is no escape character.
    SQLite's bound on the length of a pattern is left out. *)
Fixpoint like_match (p : string) : string → bool :=
  match p with
  | "" => λ s, match s with "" => true | _ => false end
  | String c p' =>
      if Ascii.eqb c "%" then
        fix star (s : string) : bool :=
          like_match p' s ||
          match s with
          | "" => false
          | String _ s' => star s'
          end
      else λ s,
        match s with
        | "" => false
        | String d s' =>
            (Ascii.eqb c "_" || Ascii.eqb (upper_to_lower c) (upper_to_lower d))
            && like_match p' s'
        end
  end.

(** [x LIKE pattern] *)
Definition like (x pattern : option string) : option bool :=
  match x, pattern with
  | Some s, Some p => Some (like_match p s)
  | _, _ => None
  end.

(** [ORDER BY key DESC].  SQL leaves the order of rows with equal keys
    open; the model sorts with stdpp's merge sort. *)
Definition desc {A} (key : A → Z) : relation A := λ a b, key b ≤ key a.

#[global] Instance desc_dec {A} (key : A → Z) : RelDecision (desc key).
Proof. intros a b. unfold desc. apply _. Defined.

Definition order_by_desc {A} (key : A → Z) (l : list A) : list A :=
  merge_sort (desc key) l.

(** [LIMIT n]: a negative [n] places no bound. *)
Definition limit {A} (n : Z) (l : list A) : list A :=
  if n <? 0 then l else take (Z.to_nat n) l.

End SQL.

(* ===================================================================== *)
(** ** schema.sql *)
(* ===================================================================== *)

Module Schema.

(** A row of [tasks].  [title] is [TEXT NOT NULL]; the other text columns
    are nullable. *)
Record task := {
  task_id : Z;
  title : string;
  description : option string;
  due_date : option string;
  priority : option string;
  status : option string;
  created_at : Z;
  updated_at : Z
}.

#[global] Instance task_eq_dec : EqDecision task.
Proof. solve_decision. Defined.

(** The two CHECK constraints of the table. *)
Definition check_constraints (r : task) : bool :=
  SQL.check (SQL.in_list (priority r) ["high"; "medium"; "low"]) &&
  SQL.check (SQL.in_list (status r) ["pending"; "completed"]).

Definition with_updated_at (t : Z) (r : task) : task :=
  {| task_id := task_id r; title := title r; description := description r;
     due_date := due_date r; priority := priority r; status := status r;
     created_at := created_at r; updated_at := t |}.

(** The trigger body:
    [UPDATE tasks SET updated_at = CURRENT_TIMESTAMP WHERE task_id = NEW.task_id] *)
Definition update_tasks_updated_at (now : Z) (new_task_id : Z)
    (rows : list task) : list task :=
  (λ r, if bool_decide (task_id r = new_task_id)
        then with_updated_at now r else r) <$> rows.

End Schema.

Import Schema.

(* ===================================================================== *)
(** ** database.js: class TaskDatabase *)
(* ===================================================================== *)

(** The [filters] argument of [getAllTasks]. *)
Module Filters.

Record t := {
  status : value;
  priority : value;
  due_date_from : value;
  due_date_to : value;
  limit : option Z
}.

(** [{}] *)
Definition empty : t :=
  {| status := Undefined; priority := Undefined; due_date_from := Undefined;
     due_date_to := Undefined; limit := None |}.

End Filters.

Module Store.

(** The object state: the flag, and behind [this.db] the table with the
    AUTOINCREMENT counter SQLite keeps in [sqlite_sequence]. *)
Record TaskDatabase := {
  isConnected : bool;
  rows : list task;
  sqlite_sequence : Z
}.

(** [new TaskDatabase(path)] on a path that holds no database yet. *)
Definition constructor : TaskDatabase :=
  {| isConnected := false; rows := []; sqlite_sequence := 0 |}.

(** [connect()]: the schema statements are all [IF NOT EXISTS]. *)
Definition connect (this : TaskDatabase) : TaskDatabase :=
  {| isConnected := true; rows := rows this;
     sqlite_sequence := sqlite_sequence this |}.

Definition close (this : TaskDatabase) : TaskDatabase :=
  {| isConnected := false; rows := rows this;
     sqlite_sequence := sqlite_sequence this |}.

(** A bound parameter: a string is TEXT, [null] is NULL. *)
Definition bind (v : value) : option string :=
  match v with
  | Str s => Some s
  | _ => None
  end.

(** A property of the object [createTask] resolves with. *)
Inductive field :=
  | Number (n : Z)
  | Value (v : value).

Record update_result := { updated_task_id : Z; changes : Z }.
Record delete_result := { deleted_task_id : Z; deleted : bool }.

Record stats := {
  total_tasks : Z;
  pending_tasks : option Z;
  completed_tasks : option Z;
  high_priority_tasks : option Z;
  due_today : option Z
}.

(** One entry of [updateFields] with its entry of [params]. *)
Inductive assignment :=
  | set_title (v : option string)
  | set_description (v : option string)
  | set_due_date (v : option string)
  | set_priority (v : option string)
  | set_status (v : option string).

(** [INSERT INTO tasks (title, description, due_date, priority, status)
     VALUES (?, ?, ?, ?, ?)]; the timestamps take their default. *)
Definition run_insert (p_title p_description p_due_date p_priority p_status : option string)
    (now : Z) (this : TaskDatabase) : error + (Z * TaskDatabase) :=
  match p_title with
  | None => inl (SQLITE_CONSTRAINT "NOT NULL constraint failed: tasks.title")
  | Some t =>
      let lastID := sqlite_sequence this + 1 in
      let r := {| task_id := lastID; title := t; description := p_description;
                  due_date := p_due_date; priority := p_priority;
                  status := p_status; created_at := now; updated_at := now |} in
      if check_constraints r then
        inr (lastID, {| isConnected := isConnected this;
                        rows := rows this ++ [r];
                        sqlite_sequence := lastID |})
      else inl (SQLITE_CONSTRAINT "CHECK constraint failed")
  end.

(** One [column = ?] of the SET clause; [None] when NOT NULL is violated. *)
Definition assign (a : assignment) (r : task) : option task :=
  match a with
  | set_title v =>
      (λ t, {| task_id := task_id r; title := t; description := description r;
               due_date := due_date r; priority := priority r;
               status := status r; created_at := created_at r;
               updated_at := updated_at r |}) <$> v
  | set_description v =>
      Some {| task_id := task_id r; title := title r; description := v;
              due_date := due_date r; priority := priority r;
              status := status r; created_at := created_at r;
              updated_at := updated_at r |}
  | set_due_date v =>
      Some {| task_id := task_id r; title := title r;
              description := description r; due_date := v;
              priority := priority r; status := status r;
              created_at := created_at r; updated_at := updated_at r |}
  | set_priority v =>
      Some {| task_id := task_id r; title := title r;
              description := description r; due_date := due_date r;
              priority := v; status := status r; created_at := created_at r;
              updated_at := updated_at r |}
  | set_status v =>
      Some {| task_id := task_id r; title := title r;
              description := description r; due_date := due_date r;
              priority := priority r; status := v; created_at := created_at r;
              updated_at := updated_at r |}
  end.

(** The whole SET clause on one row, [updated_at = CURRENT_TIMESTAMP] last,
    then the constraints of the table. *)
Definition set_row (updateFields : list assignment) (now : Z) (r : task) : option task :=
  r' ← foldl (λ acc a, acc ≫= assign a) (Some r) updateFields;
  let r'' := with_updated_at now r' in
  if check_constraints r'' then Some r'' else None.

(** [UPDATE tasks SET ... WHERE task_id = ?], followed for each updated row
    by the trigger.  A violated constraint aborts the statement. *)
Definition run_update (updateFields : list assignment) (taskId : Z) (now : Z)
    (this : TaskDatabase) : error + (Z * TaskDatabase) :=
  let hit := List.filter (λ r, bool_decide (task_id r = taskId)) (rows this) in
  match mapM (λ r, if bool_decide (task_id r = taskId)
                   then set_row updateFields now r else Some r) (rows this) with
  | None => inl (SQLITE_CONSTRAINT "constraint failed")
  | Some rows' =>
      let rows'' := foldl (λ acc r, update_tasks_updated_at now (task_id r) acc)
                          rows' hit in
      inr (SQL.count hit, {| isConnected := isConnected this; rows := rows'';
                             sqlite_sequence := sqlite_sequence this |})
  end.

(** [DELETE FROM tasks WHERE task_id = ?] *)
Definition run_delete (taskId : Z) (this : TaskDatabase) : Z * TaskDatabase :=
  (SQL.count (List.filter (λ r, bool_decide (task_id r = taskId)) (rows this)),
   {| isConnected := isConnected this;
      rows := List.filter (λ r, negb (bool_decide (task_id r = taskId))) (rows this);
      sqlite_sequence := sqlite_sequence this |}).

Definition not_connected : error := Error "Database not connected".

Definition not_found (taskId : Z) : error :=
  Error ("Task with ID " +:+ pretty taskId +:+ " not found").

Definition validation_failed (validationErrors : list string) : error :=
  Error ("Validation failed: " +:+ join ", " validationErrors).

Section Runtime.

(** [isNaN(Date.parse(s))], a primitive of the JavaScript engine. *)
Variable Date_parse_isNaN : string → bool.

Definition validateTask (task : gmap string value) : list string :=
  let errors := [] in
  let errors :=
    if negb (truthy (get task "title")) ||
       match get task "title" with
       | Str s => JS.length (trim s) =? 0
       | _ => false
       end
    then errors ++ ["Title is required"] else errors in
  let errors :=
    if truthy (get task "title") &&
       match get task "title" with
       | Str s => 255 <? JS.length s
       | _ => false
       end
    then errors ++ ["Title must be less than 255 characters"] else errors in
  let errors :=
    if truthy (get task "priority") &&
       negb (includes ["high"; "medium"; "low"] (get task "priority"))
    then errors ++ ["Priority must be high, medium, or low"] else errors in
  let errors :=
    if truthy (get task "status") &&
       negb (includes ["pending"; "completed"] (get task "status"))
    then errors ++ ["Status must be pending or completed"] else errors in
  let errors :=
    if truthy (get task "due_date") &&
       match get task "due_date" with
       | Str s => Date_parse_isNaN s
       | _ => false
       end
    then errors ++ ["Due date must be a valid date"] else errors in
  errors.

(** [createTask(task)]; [now] is CURRENT_TIMESTAMP of the INSERT, [iso1] and
    [iso2] the two [new Date().toISOString()] of the callback. *)
Definition createTask (task : gmap string value) (now : Z) (iso1 iso2 : string)
    (this : TaskDatabase) : promise (gmap string field) * TaskDatabase :=
  if negb (isConnected this) then (Reject not_connected, this) else
  let validationErrors := validateTask task in
  if 0 <? Z.of_nat (List.length validationErrors)
  then (Reject (validation_failed validationErrors), this) else
  match get task "title" with
  | Str s =>
      match run_insert (Some (trim s))
                       (bind (JS.or (get task "description") Null))
                       (bind (JS.or (get task "due_date") Null))
                       (bind (JS.or (get task "priority") (Str "medium")))
                       (bind (JS.or (get task "status") (Str "pending")))
                       now this with
      | inl err => (Reject err, this)
      | inr (lastID, this') =>
          (Resolve (<["updated_at" := Value (Str iso2)]>
                   (<["created_at" := Value (Str iso1)]>
                   ((Value <$> task) ∪ {["task_id" := Number lastID]}))),
           this')
      end
  | _ => (Reject (TypeError "Cannot read properties of undefined (reading 'trim')"), this)
  end.

Definition getTask (taskId : Z) (this : TaskDatabase) : promise task :=
  if negb (isConnected this) then Reject not_connected else
  match List.filter (λ r, bool_decide (task_id r = taskId)) (rows this) with
  | row :: _ => Resolve row
  | [] => Reject (not_found taskId)
  end.

Definition getAllTasks (filters : Filters.t) (this : TaskDatabase) : promise (list task) :=
  if negb (isConnected this) then Reject not_connected else
  let sql : list (task → option bool) := [λ _, Some true] in
  let sql :=
    if truthy (Filters.status filters)
    then sql ++ [λ r, SQL.eq (status r) (bind (Filters.status filters))]
    else sql in
  let sql :=
    if truthy (Filters.priority filters)
    then sql ++ [λ r, SQL.eq (priority r) (bind (Filters.priority filters))]
    else sql in
  let sql :=
    if truthy (Filters.due_date_from filters)
    then sql ++ [λ r, SQL.ge (due_date r) (bind (Filters.due_date_from filters))]
    else sql in
  let sql :=
    if truthy (Filters.due_date_to filters)
    then sql ++ [λ r, SQL.le (due_date r) (bind (Filters.due_date_to filters))]
    else sql in
  let selected :=
    List.filter (λ r, SQL.holds (foldr (λ c acc, SQL.and (c r) acc) (Some true) sql))
                (rows this) in
  let ordered := SQL.order_by_desc created_at selected in
  match Filters.limit filters with
  | Some n => if bool_decide (n ≠ 0) then Resolve (SQL.limit n ordered)
              else Resolve ordered
  | None => Resolve ordered
  end.

(** [updateTask(taskId, updates)]; [now] is CURRENT_TIMESTAMP of the UPDATE. *)
Definition updateTask (taskId : Z) (updates : gmap string value) (now : Z)
    (this : TaskDatabase) : promise update_result * TaskDatabase :=
  if negb (isConnected this) then (Reject not_connected, this) else
  let validationErrors := validateTask updates in
  if 0 <? Z.of_nat (List.length validationErrors)
  then (Reject (validation_failed validationErrors), this) else
  let updateFields : list assignment := [] in
  match
    (if bool_decide (get updates "title" ≠ Undefined)
     then match get updates "title" with
          | Str s => inr (updateFields ++ [set_title (Some (trim s))])
          | _ => inl (TypeError "Cannot read properties of null (reading 'trim')")
          end
     else inr updateFields)
  with
  | inl err => (Reject err, this)
  | inr updateFields =>
      let updateFields :=
        if bool_decide (get updates "description" ≠ Undefined)
        then updateFields ++ [set_description (bind (get updates "description"))]
        else updateFields in
      let updateFields :=
        if bool_decide (get updates "due_date" ≠ Undefined)
        then updateFields ++ [set_due_date (bind (get updates "due_date"))]
        else updateFields in
      let updateFields :=
        if bool_decide (get updates "priority" ≠ Undefined)
        then updateFields ++ [set_priority (bind (get updates "priority"))]
        else updateFields in
      let updateFields :=
        if bool_decide (get updates "status" ≠ Undefined)
        then updateFields ++ [set_status (bind (get updates "status"))]
        else updateFields in
      if Z.of_nat (List.length updateFields) =? 0
      then (Reject (Error "No valid fields to update"), this) else
      match run_update updateFields taskId now this with
      | inl err => (Reject err, this)
      | inr (n, this') =>
          if n =? 0 then (Reject (not_found taskId), this')
          else (Resolve {| updated_task_id := taskId; changes := n |}, this')
      end
  end.

Definition deleteTask (taskId : Z) (this : TaskDatabase)
    : promise delete_result * TaskDatabase :=
  if negb (isConnected this) then (Reject not_connected, this) else
  let '(n, this') := run_delete taskId this in
  if n =? 0 then (Reject (not_found taskId), this')
  else (Resolve {| deleted_task_id := taskId; deleted := true |}, this').

(** [getTaskStats()]; [today] is the text of [date('now')]. *)
Definition getTaskStats (today : string) (this : TaskDatabase) : promise stats :=
  if negb (isConnected this) then Reject not_connected else
  Resolve
    {| total_tasks := SQL.count (rows this);
       pending_tasks :=
         SQL.sum ((λ r, SQL.case_when (SQL.eq (status r) (Some "pending"))) <$> rows this);
       completed_tasks :=
         SQL.sum ((λ r, SQL.case_when (SQL.eq (status r) (Some "completed"))) <$> rows this);
       high_priority_tasks :=
         SQL.sum ((λ r, SQL.case_when (SQL.eq (priority r) (Some "high"))) <$> rows this);
       due_today :=
         SQL.sum ((λ r, SQL.case_when (SQL.eq (due_date r) (Some today))) <$> rows this) |}.

Definition searchTasks (searchTerm : value) (this : TaskDatabase) : promise (list task) :=
  if negb (isConnected this) then Reject not_connected else
  if negb (truthy searchTerm) ||
     match searchTerm with
     | Str s => JS.length (trim s) =? 0
     | _ => false
     end
  then Reject (Error "Search term is required") else
  match searchTerm with
  | Str s =>
      let searchPattern := "%" +:+ trim s +:+ "%" in
      Resolve
        (SQL.order_by_desc created_at
           (List.filter
              (λ r, SQL.holds (SQL.or (SQL.like (Some (title r)) (Some searchPattern))
                                      (SQL.like (description r) (Some searchPattern))))
              (rows this)))
  | _ => Reject (TypeError "searchTerm.trim is not a function")
  end.

(** A call on the object, and the state it leaves behind. *)
Inductive call :=
  | Connect
  | Close
  | CreateTask (task : gmap string value) (iso1 iso2 : string)
  | GetTask (taskId : Z)
  | GetAllTasks (filters : Filters.t)
  | UpdateTask (taskId : Z) (updates : gmap string value)
  | DeleteTask (taskId : Z)
  | GetTaskStats (today : string)
  | SearchTasks (searchTerm : value).

Definition exec (c : call) (now : Z) (this : TaskDatabase) : TaskDatabase :=
  match c with
  | Connect => connect this
  | Close => close this
  | CreateTask task iso1 iso2 => (createTask task now iso1 iso2 this).2
  | UpdateTask taskId updates => (updateTask taskId updates now this).2
  | DeleteTask taskId => (deleteTask taskId this).2
  | GetTask _ | GetAllTasks _ | GetTaskStats _ | SearchTasks _ => this
  end.

(** The states of a store that started empty, indexed by the clock reading
    of the last call; the clock never runs backwards. *)
Inductive reachable : Z → TaskDatabase → Prop :=
  | reachable_new t : reachable t constructor
  | reachable_call t this now c :
      reachable t this → t ≤ now → reachable now (exec c now this).

End Runtime.

End Store.

(* ===================================================================== *)
(** ** integration.js: the converters of class ProjectFlowIntegration *)
(* ===================================================================== *)

Module Integration.

(** A column of a row as the driver hands it to JavaScript. *)
Definition column_value (c : option string) : value :=
  match c with
  | Some s => Str s
  | None => Null
  end.

Definition convertToDbFormat (projectFlowTask : gmap string value) : gmap string value :=
  <["title" := get projectFlowTask "title"]>
  (<["description" := JS.or (get projectFlowTask "description") (Str "")]>
  (<["due_date" := JS.or (get projectFlowTask "dueDate") Null]>
  (<["priority" := JS.or (get projectFlowTask "priority") (Str "medium")]>
  (<["status" := if bool_decide (get projectFlowTask "status" = Str "completed")
                 then Str "completed" else Str "pending"]> ∅)))).

Section Runtime.

(** The text SQLite renders a timestamp with, [YYYY-MM-DD HH:MM:SS]. *)
Variable datetime_text : Z → string.

(** [convertToProjectFlowFormat(dbTask)] on a row of the store; [iso] is
    [new Date().toISOString()]. *)
Definition convertToProjectFlowFormat (iso : string) (dbTask : task) : gmap string value :=
  <["id" := Str ("task-" +:+ pretty (task_id dbTask))]>
  (<["title" := Str (title dbTask)]>
  (<["description" := JS.or (column_value (description dbTask)) (Str "")]>
  (<["projectId" := Str "default-project"]>
  (<["priority" := column_value (priority dbTask)]>
  (<["status" := if bool_decide (column_value (status dbTask) = Str "completed")
                 then Str "completed"
                 else if bool_decide (column_value (status dbTask) = Str "pending")
                 then Str "todo" else Str "in-progress"]>
  (<["dueDate" := column_value (due_date dbTask)]>
  (<["createdDate" := if truthy (Str (datetime_text (created_at dbTask)))
                      then Str (split_first "T" (datetime_text (created_at dbTask)))
                      else Str (split_first "T" iso)]> ∅))))))).

End Runtime.

End Integration.

(* ===================================================================== *)
(** ** The rules of the specification, named *)
(* ===================================================================== *)

Module Rules.

(** The title is missing, or empty once trimmed. *)
Definition title_blank (task : gmap string value) : bool :=
  match get task "title" with
  | Str s => bool_decide (trim s = "")
  | _ => true
  end.

(** The title as given is longer than 255. *)
Definition title_too_long (task : gmap string value) : bool :=
  match get task "title" with
  | Str s => bool_decide (255 < JS.length s)
  | _ => false
  end.

(** A property is present (truthy) and outside its enumeration. *)
Definition outside (k : string) (allowed : list string) (task : gmap string value) : bool :=
  match get task k with
  | Str s => negb (String.eqb s "") && negb (bool_decide (s ∈ allowed))
  | _ => false
  end.

Definition bad_due_date (Date_parse_isNaN : string → bool)
    (task : gmap string value) : bool :=
  match get task "due_date" with
  | Str s => negb (String.eqb s "") && Date_parse_isNaN s
  | _ => false
  end.

(** Every rule with its message, in the order [validateTask] visits them. *)
Definition rules (Date_parse_isNaN : string → bool)
    : list (string * (gmap string value → bool)) :=
  [ ("Title is required", title_blank);
    ("Title must be less than 255 characters", title_too_long);
    ("Priority must be high, medium, or low", outside "priority" ["high"; "medium"; "low"]);
    ("Status must be pending or completed", outside "status" ["pending"; "completed"]);
    ("Due date must be a valid date", bad_due_date Date_parse_isNaN) ].

(** Do the reported errors include one about the title? *)
Definition title_rejected (errors : list string) : bool :=
  bool_decide ("Title is required" ∈ errors) ||
  bool_decide ("Title must be less than 255 characters" ∈ errors).

(** The title rule in the words of the specification: missing or empty after
    trimming, or the trimmed length above 255. *)
Definition spec_title_invalid (task : gmap string value) : bool :=
  match get task "title" with
  | Str s => bool_decide (trim s = "") || bool_decide (255 < JS.length (trim s))
  | _ => true
  end.

End Rules.

(* ===================================================================== *)
(** ** What the queries select, named *)
(* ===================================================================== *)

Module Queries.

(** An equality filter: ignored unless it is a non-empty string. *)
Definition matches_eq (f : value) (c : option string) : bool :=
  match f with
  | Str s => String.eqb s "" || bool_decide (c = Some s)
  | _ => true
  end.

(** The lower bound on the due date; a row without due date never passes. *)
Definition matches_from (f : value) (c : option string) : bool :=
  match f with
  | Str s => String.eqb s "" ||
             match c with Some d => String.leb s d | None => false end
  | _ => true
  end.

Definition matches_to (f : value) (c : option string) : bool :=
  match f with
  | Str s => String.eqb s "" ||
             match c with Some d => String.leb d s | None => false end
  | _ => true
  end.

(** A row passes every filter that is supplied with a non-empty string. *)
Definition matches (filters : Filters.t) (r : task) : bool :=
  matches_eq (Filters.status filters) (status r) &&
  matches_eq (Filters.priority filters) (priority r) &&
  matches_from (Filters.due_date_from filters) (due_date r) &&
  matches_to (Filters.due_date_to filters) (due_date r).


End Queries.

Module Search.

(** A string with its ASCII capitals lowered. *)
Fixpoint lower (s : string) : string :=
  match s with
  | "" => ""
  | String c s' => String (SQL.upper_to_lower c) (lower s')
  end.

(** [s] starts with [t], case of ASCII letters apart. *)
Fixpoint prefix_ci (t s : string) : bool :=
  match t, s with
  | "", _ => true
  | String _ _, "" => false
  | String c t', String d s' =>
      Ascii.eqb (SQL.upper_to_lower c) (SQL.upper_to_lower d) && prefix_ci t' s'
  end.

(** [t] occurs in [s], case of ASCII letters apart. *)
Fixpoint contains_ci (t s : string) : bool :=
  prefix_ci t s ||
  match s with
  | "" => false
  | String _ s' => contains_ci t s'
  end.

(** Neither [%] nor [_] occurs in the term. *)
Fixpoint wildcard_free (t : string) : bool :=
  match t with
  | "" => true
  | String c t' => negb (Ascii.eqb c "%") && negb (Ascii.eqb c "_") && wildcard_free t'
  end.

(** The term occurs in the title or in the description of the row. *)
Definition found (t : string) (r : task) : bool :=
  contains_ci t (title r) ||
  match description r with
  | Some d => contains_ci t d
  | None => false
  end.

(** The term is no string, or is empty once trimmed. *)
Definition term_blank (searchTerm : value) : bool :=
  match searchTerm with
  | Str s => bool_decide (trim s = "")
  | _ => true
  end.

End Search.

(* ===================================================================== *)
(** ** Where the model is what SQLite does *)
(* ===================================================================== *)

Module Domain.

Definition is_digit (c : ascii) : bool :=
  ((48 <=? N_of_ascii c) && (N_of_ascii c <=? 57))%N.

(** [YYYY-MM-DD], the form the README gives for a due date.  The column
    [due_date] is declared [DATE], which has NUMERIC affinity: text that
    reads as a number is stored, and compared, as a number.  A date of this
    form does not read as one. *)
Definition iso_date (s : string) : bool :=
  match s with
  | String y1 (String y2 (String y3 (String y4 (String "-"
      (String m1 (String m2 (String "-" (String d1 (String d2 ""))))))))) =>
      forallb is_digit [y1; y2; y3; y4; m1; m2; d1; d2]
  | _ => false
  end.

(** Text that the [DATE] column keeps as text: empty, or a date. *)
Definition date_text (s : string) : bool := String.eqb s "" || iso_date s.

(** A due date of a payload, or a date bound of the filters. *)
Definition date_value (v : value) : bool :=
  match v with
  | Str s => date_text s
  | _ => true
  end.

(** The due date of a row. *)
Definition date_column (c : option string) : bool :=
  match c with
  | Some s => date_text s
  | None => true
  end.

(** The date bounds are kept as text and, when one of them is given, so
    are the due dates of the rows: [>=] and [<=] then compare text. *)
Definition dates_compare_as_text (filters : Filters.t) (rows : list task) : bool :=
  date_value (Filters.due_date_from filters) &&
  date_value (Filters.due_date_to filters) &&
  (negb (truthy (Filters.due_date_from filters) || truthy (Filters.due_date_to filters))
   || forallb (λ r, date_column (due_date r)) rows).

(** A limit that [LIMIT ?] accepts.  The driver binds a number as a 32-bit
    integer when it is one and as a double otherwise, and SQLite turns a
    double into a 64-bit integer only strictly inside this interval; outside
    it the statement fails with a datatype mismatch. *)
Definition limit_accepted (limit : option Z) : bool :=
  match limit with
  | Some n => bool_decide (- 2 ^ 63 < n < 2 ^ 63)
  | None => true
  end.

(** The filters with another limit. *)
Definition with_limit (limit : option Z) (filters : Filters.t) : Filters.t :=
  {| Filters.status := Filters.status filters;
     Filters.priority := Filters.priority filters;
     Filters.due_date_from := Filters.due_date_from filters;
     Filters.due_date_to := Filters.due_date_to filters;
     Filters.limit := limit |}.

(** The number of bytes of the text in UTF-8. *)
Fixpoint utf8_length (s : string) : Z :=
  match s with
  | "" => 0
  | String c s' => (if (N_of_ascii c <? 128)%N then 1 else 2) + utf8_length s'
  end.

(** No U+0000 in the text: [LIKE] reads its operands up to the first one. *)
Fixpoint no_nul (s : string) : bool :=
  match s with
  | "" => true
  | String c s' => negb (Ascii.eqb c Ascii.zero) && no_nul s'
  end.

(** A trimmed term whose pattern [%term%] stays within the 50000 bytes of
    SQLITE_MAX_LIKE_PATTERN_LENGTH and is read whole. *)
Definition term_accepted (t : string) : bool :=
  bool_decide (utf8_length t + 2 ≤ 50000) && no_nul t.

(** Titles and descriptions that [LIKE] reads whole. *)
Definition texts_read_whole (rows : list task) : bool :=
  forallb (λ r, no_nul (title r) &&
                match description r with
                | Some d => no_nul d
                | None => true
                end) rows.

End Domain.

(* ===================================================================== *)
(** ** Row relations and the invariant of the store *)
(* ===================================================================== *)

Module Invariants.

(** What a statement may do to a row: keep its identity and creation time. *)
Definition same_task (r r' : task) : Prop :=
  task_id r' = task_id r ∧ created_at r' = created_at r.

(** The UPDATE statement, row by row. *)
Definition updated_to (taskId now : Z) (r r' : task) : Prop :=
  same_task r r' ∧
  if bool_decide (task_id r = taskId) then updated_at r' = now else r' = r.

(** What every state of the store satisfies at clock reading [t]. *)
Definition store_inv (t : Z) (this : Store.TaskDatabase) : Prop :=
  Forall (λ r, created_at r ≤ updated_at r ∧ updated_at r ≤ t
               ∧ task_id r ≤ Store.sqlite_sequence this) (Store.rows this)
  ∧ NoDup (task_id <$> Store.rows this).

(** [null] counts as 0 in JavaScript's [+]. *)
Definition ToNumber (x : option Z) : Z := default 0 x.

End Invariants.

Import Invariants.

(* ===================================================================== *)
(** ** Sample data *)
(* ===================================================================== *)

(** A stand-in for the engine's date parser, for concrete runs: it accepts
    exactly the texts of ten characters. *)
Definition ten_characters (s : string) : bool :=
  negb (Nat.eqb (String.length s) 10).

(** [c] repeated [n] times. *)
Fixpoint repeat_char (c : ascii) (n : nat) : string :=
  match n with
  | O => ""
  | S n' => String c (repeat_char c n')
  end.

(** A title of 255 letters followed by one space. *)
Definition padded_title : gmap string value :=
  {[ "title" := Str (repeat_char "a" 255 +:+ " ") ]}.

Definition minimal_task : gmap string value := {[ "title" := Str "Minimal Task" ]}.

Definition alpha : gmap string value := {[ "title" := Str "Alpha" ]}.

Definition beta : gmap string value :=
  <["status" := Str "completed"]> (<["priority" := Str "high"]> {[ "title" := Str "Beta" ]}).

(** A new store, connected at clock reading 0. *)
Definition connected : Store.TaskDatabase :=
  Store.exec ten_characters Store.Connect 0 Store.constructor.

(** Alpha created at clock reading 1. *)
Definition with_alpha : Store.TaskDatabase :=
  Store.exec ten_characters
    (Store.CreateTask alpha "2025-01-01T00:00:01.000Z" "2025-01-01T00:00:01.000Z")
    1 connected.

(** Then Beta created at clock reading 2. *)
Definition alpha_beta : Store.TaskDatabase :=
  Store.exec ten_characters
    (Store.CreateTask beta "2025-01-01T00:00:02.000Z" "2025-01-01T00:00:02.000Z")
    2 with_alpha.

(** Alpha updated at clock reading 2 with a [null] status. *)
Definition null_status : Store.TaskDatabase :=
  Store.exec ten_characters
    (Store.UpdateTask 1 (<["status" := Null]> alpha)) 2 with_alpha.

(** An update that also tries to set [updated_at]. *)
Definition retitle : gmap string value :=
  <["updated_at" := Str "1999-12-31 23:59:59"]> {[ "title" := Str "Alpha again" ]}.

Definition limit_zero : Filters.t :=
  {| Filters.status := Undefined; Filters.priority := Undefined;
     Filters.due_date_from := Undefined; Filters.due_date_to := Undefined;
     Filters.limit := Some 0 |}.


(** A stand-in for SQLite's rendering of a timestamp. *)
Definition sample_datetime_text (t : Z) : string :=
  "2025-01-01 00:00:0" +:+ pretty t.

Definition beta_row : task :=
  {| task_id := 2; title := "Beta"; description := None; due_date := None;
     priority := Some "high"; status := Some "completed";
     created_at := 2; updated_at := 2 |}.

(* ===================================================================== *)
(** ** Runs of calls, and what the statements leave in a row *)
(* ===================================================================== *)

Module Effects.

(** A sequence of calls, each with the clock reading it observes. *)
Definition run (Date_parse_isNaN : string → bool)
    (calls : list (Store.call * Z)) (this : Store.TaskDatabase) : Store.TaskDatabase :=
  foldl (λ st c, Store.exec Date_parse_isNaN c.1 c.2 st) this calls.

(** The row the INSERT of [createTask] writes for a payload whose title is
    the string [s]. *)
Definition inserted_row (payload : gmap string value) (s : string) (lastID now : Z) : task :=
  {| task_id := lastID;
     title := trim s;
     description := Store.bind (JS.or (get payload "description") Null);
     due_date := Store.bind (JS.or (get payload "due_date") Null);
     priority := Store.bind (JS.or (get payload "priority") (Str "medium"));
     status := Store.bind (JS.or (get payload "status") (Str "pending"));
     created_at := now;
     updated_at := now |}.

(** A column after the UPDATE of [updateTask]: the bound parameter when the
    payload holds the property, the old value when it is [undefined]. *)
Definition column_after (updates : gmap string value) (k : string)
    (old : option string) : option string :=
  if bool_decide (get updates k ≠ Undefined) then Store.bind (get updates k) else old.

(** The row the UPDATE of [updateTask] leaves for a payload whose title is
    the string [s]. *)
Definition updated_row (updates : gmap string value) (s : string) (now : Z)
    (r : task) : task :=
  {| task_id := task_id r;
     title := trim s;
     description := column_after updates "description" (description r);
     due_date := column_after updates "due_date" (due_date r);
     priority := column_after updates "priority" (priority r);
     status := column_after updates "status" (status r);
     created_at := created_at r;
     updated_at := now |}.

(** One row under the UPDATE: a row of another identifier stays, the row of
    this one is rewritten unless the rewritten row violates a CHECK. *)
Definition update_step (updates : gmap string value) (s : string) (taskId now : Z)
    (r : task) : option task :=
  if bool_decide (task_id r = taskId)
  then if check_constraints (updated_row updates s now r)
       then Some (updated_row updates s now r) else None
  else Some r.

(** What holds of every row at rest. *)
Definition row_at_rest (r : task) : Prop :=
  title r ≠ "" ∧ trim (title r) = title r ∧ JS.length (title r) ≤ 255
  ∧ (priority r = None ∨ ∃ p, priority r = Some p ∧ p ∈ ["high"; "medium"; "low"])
  ∧ (status r = None ∨ ∃ s, status r = Some s ∧ s ∈ ["pending"; "completed"])
  ∧ 0 < task_id r.

End Effects.
(* ===================================================================== *)
(** ** More JavaScript primitives *)
(* ===================================================================== *)

Module Builtins.

(** [s.startsWith(p)], with what follows the prefix. *)
Fixpoint strip_prefix (p s : string) : option string :=
  match p, s with
  | "", _ => Some s
  | String _ _, "" => None
  | String a p', String b s' => if Ascii.eqb a b then strip_prefix p' s' else None
  end.

(** [s.replace(pattern, '')] for a string pattern: the first occurrence of
    the pattern is taken out. *)
Fixpoint replace_with_empty (pattern s : string) : string :=
  match strip_prefix pattern s with
  | Some rest => rest
  | None =>
      match s with
      | "" => ""
      | String c s' => String c (replace_with_empty pattern s')
      end
  end.

(** The value of a character as a digit of the radix, if it is one. *)
Definition digit_value (radix : N) (c : ascii) : option N :=
  let n := N_of_ascii c in
  let v := if ((48 <=? n) && (n <=? 57))%N then Some (n - 48)%N
           else if ((97 <=? n) && (n <=? 122))%N then Some (n - 87)%N
           else if ((65 <=? n) && (n <=? 90))%N then Some (n - 55)%N
           else None in
  match v with
  | Some d => if (d <? radix)%N then Some d else None
  | None => None
  end.

(** The number written by the longest run of digits at the head of [s],
    continuing from [acc]. *)
Fixpoint digits_from (radix : N) (acc : N) (s : string) : N :=
  match s with
  | "" => acc
  | String c s' =>
      match digit_value radix c with
      | Some d => digits_from radix (acc * radix + d)%N s'
      | None => acc
      end
  end.

(** [parseInt(s)] without a radix; [None] is NaN.  Leading white space is
    skipped, a sign is read, [0x] or [0X] switches to radix 16, and the
    digits are read up to the first character that is none.  The result is
    the exact integer, which is what JavaScript computes below 2^53. *)
Definition parseInt (s : string) : option Z :=
  let s1 := trimStart s in
  let '(negative, s2) :=
    match s1 with
    | String "-" r => (true, r)
    | String "+" r => (false, r)
    | _ => (false, s1)
    end in
  let '(radix, s3) :=
    match s2 with
    | String "0" (String "x" r) => (16%N, r)
    | String "0" (String "X" r) => (16%N, r)
    | _ => (10%N, s2)
    end in
  match s3 with
  | "" => None
  | String c _ =>
      match digit_value radix c with
      | Some _ =>
          let n := Z.of_N (digits_from radix 0 s3) in
          Some (if negative then - n else n)
      | None => None
      end
  end.

(** Every character is a decimal digit. *)
Fixpoint all_decimal (s : string) : bool :=
  match s with
  | "" => true
  | String c s' =>
      match digit_value 10 c with
      | Some _ => all_decimal s'
      | None => false
      end
  end.

End Builtins.

(* ===================================================================== *)
(** ** integration.js: class ProjectFlowIntegration *)
(* ===================================================================== *)

Module ProjectFlowIntegration.

(** The object with, beside it, the item [projectflow_tasks] of
    [localStorage]: [None] when [getItem] gives nothing, otherwise the array
    its JSON text denotes (objects with string and [null] properties, which
    [JSON.stringify] and [JSON.parse] carry over unchanged). *)
Record state := {
  db : Store.TaskDatabase;
  isInitialized : bool;
  projectflow_tasks : option (list (gmap string value))
}.

Definition with_db (st : state) (db' : Store.TaskDatabase) : state :=
  {| db := db'; isInitialized := isInitialized st;
     projectflow_tasks := projectflow_tasks st |}.

(** [new ProjectFlowIntegration()] beside a given [localStorage]. *)
Definition constructor (item : option (list (gmap string value))) : state :=
  {| db := Store.constructor; isInitialized := false; projectflow_tasks := item |}.

Definition initialize (st : state) : state :=
  {| db := Store.connect (db st); isInitialized := true;
     projectflow_tasks := projectflow_tasks st |}.

Definition close (st : state) : state :=
  {| db := Store.close (db st); isInitialized := false;
     projectflow_tasks := projectflow_tasks st |}.

Definition not_initialized : error := Error "Database not initialized".

#[global] Instance field_eq_dec : EqDecision Store.field.
Proof. solve_decision. Defined.

(** [!!f] for a property that may be a number. *)
Definition field_truthy (f : Store.field) : bool :=
  match f with
  | Store.Number n => bool_decide (n ≠ 0)
  | Store.Value v => truthy v
  end.

(** The text a template literal gives for a property. *)
Definition ToString (f : Store.field) : string :=
  match f with
  | Store.Number n => pretty n
  | Store.Value Undefined => "undefined"
  | Store.Value Null => "null"
  | Store.Value (Str s) => s
  end.

Definition get_field (o : gmap string Store.field) (k : string) : Store.field :=
  default (Store.Value Undefined) (o !! k).

(** The object the driver hands over for a row. *)
Definition row_object (datetime_text : Z → string) (r : task) : gmap string Store.field :=
  <["task_id" := Store.Number (task_id r)]>
  (<["title" := Store.Value (Str (title r))]>
  (<["description" := Store.Value (Integration.column_value (description r))]>
  (<["due_date" := Store.Value (Integration.column_value (due_date r))]>
  (<["priority" := Store.Value (Integration.column_value (priority r))]>
  (<["status" := Store.Value (Integration.column_value (status r))]>
  (<["created_at" := Store.Value (Str (datetime_text (created_at r)))]>
  (<["updated_at" := Store.Value (Str (datetime_text (updated_at r)))]> ∅))))))).

(** [convertToProjectFlowFormat(dbTask)] on any object, as [createTask]
    calls it on what the store resolved with; [split] is no method of a
    number. *)
Definition convertToProjectFlowFormat_object (iso : string)
    (dbTask : gmap string Store.field) : error + gmap string Store.field :=
  match
    (if field_truthy (get_field dbTask "created_at")
     then match get_field dbTask "created_at" with
          | Store.Value (Str s) => inr (split_first "T" s)
          | _ => inl (TypeError "dbTask.created_at.split is not a function")
          end
     else inr (split_first "T" iso))
  with
  | inl err => inl err
  | inr createdDate =>
      inr (<["id" := Store.Value (Str ("task-" +:+ ToString (get_field dbTask "task_id")))]>
          (<["title" := get_field dbTask "title"]>
          (<["description" := if field_truthy (get_field dbTask "description")
                              then get_field dbTask "description"
                              else Store.Value (Str "")]>
          (<["projectId" := Store.Value (Str "default-project")]>
          (<["priority" := get_field dbTask "priority"]>
          (<["status" := if bool_decide (get_field dbTask "status"
                                         = Store.Value (Str "completed"))
                         then Store.Value (Str "completed")
                         else if bool_decide (get_field dbTask "status"
                                              = Store.Value (Str "pending"))
                         then Store.Value (Str "todo")
                         else Store.Value (Str "in-progress")]>
          (<["dueDate" := get_field dbTask "due_date"]>
          (<["createdDate" := Store.Value (Str createdDate)]> ∅))))))))
  end.

Section Runtime.

Variable Date_parse_isNaN : string → bool.
Variable datetime_text : Z → string.

(** [dbTasks.map(task => this.convertToProjectFlowFormat(task))]; [iso i] is
    the clock reading of the call on the element of index [i]. *)
Definition convert_all (iso : nat → string) (dbTasks : list task)
    : list (gmap string value) :=
  imap (λ i r, Integration.convertToProjectFlowFormat datetime_text (iso i) r) dbTasks.

Definition syncToLocalStorage (iso : nat → string) (st : state)
    : promise (list (gmap string value)) * state :=
  if negb (isInitialized st) then (Reject not_initialized, st) else
  match Store.getAllTasks Filters.empty (db st) with
  | Reject err => (Reject err, st)
  | Resolve dbTasks =>
      let projectFlowTasks := convert_all iso dbTasks in
      (Resolve projectFlowTasks,
       {| db := db st; isInitialized := isInitialized st;
          projectflow_tasks := Some projectFlowTasks |})
  end.

(** The loop of [syncFromLocalStorage]: a [createTask] that rejects is
    logged and the loop goes on.  The call on the entry of index [i] reads
    the clocks at [i]. *)
Fixpoint import (clock : nat → Z) (iso1 iso2 : nat → string) (i : nat)
    (tasks : list (gmap string value)) (this : Store.TaskDatabase) : Store.TaskDatabase :=
  match tasks with
  | [] => this
  | task :: rest =>
      import clock iso1 iso2 (S i) rest
        (Store.createTask Date_parse_isNaN (Integration.convertToDbFormat task)
           (clock i) (iso1 i) (iso2 i) this).2
  end.

Definition syncFromLocalStorage (clock : nat → Z) (iso1 iso2 : nat → string)
    (st : state) : promise unit * state :=
  if negb (isInitialized st) then (Reject not_initialized, st) else
  match projectflow_tasks st with
  | None => (Resolve tt, st)
  | Some tasks => (Resolve tt, with_db st (import clock iso1 iso2 0 tasks (db st)))
  end.

(** [createTask(taskData)]; [now], [iso1], [iso2] are the readings of the
    store's call, [iso] those of the synchronisation, [iso_last] that of the
    final conversion. *)
Definition createTask (taskData : gmap string value) (now : Z) (iso1 iso2 : string)
    (iso : nat → string) (iso_last : string) (st : state)
    : promise (gmap string Store.field) * state :=
  if negb (isInitialized st) then (Reject not_initialized, st) else
  let dbTask := Integration.convertToDbFormat taskData in
  match Store.createTask Date_parse_isNaN dbTask now iso1 iso2 (db st) with
  | (Reject err, db') => (Reject err, with_db st db')
  | (Resolve createdTask, db') =>
      match syncToLocalStorage iso (with_db st db') with
      | (Reject err, st') => (Reject err, st')
      | (Resolve _, st') =>
          match convertToProjectFlowFormat_object iso_last createdTask with
          | inl err => (Reject err, st')
          | inr result => (Resolve result, st')
          end
      end
  end.

(** [this.db.updateTask(numericId, dbUpdates)] where [numericId] may be NaN:
    NaN is bound as NULL and no row has [task_id = NULL], so a payload that
    validates finds nothing to update. *)
Definition db_updateTask (numericId : option Z) (dbUpdates : gmap string value)
    (now : Z) (this : Store.TaskDatabase) : promise Store.update_result * Store.TaskDatabase :=
  match numericId with
  | Some n => Store.updateTask Date_parse_isNaN n dbUpdates now this
  | None =>
      if negb (Store.isConnected this) then (Reject Store.not_connected, this) else
      let validationErrors := Store.validateTask Date_parse_isNaN dbUpdates in
      if 0 <? Z.of_nat (List.length validationErrors)
      then (Reject (Store.validation_failed validationErrors), this)
      else (Reject (Error "Task with ID NaN not found"), this)
  end.

(** [this.db.deleteTask(numericId)] where [numericId] may be NaN. *)
Definition db_deleteTask (numericId : option Z) (this : Store.TaskDatabase)
    : promise Store.delete_result * Store.TaskDatabase :=
  match numericId with
  | Some n => Store.deleteTask n this
  | None =>
      if negb (Store.isConnected this) then (Reject Store.not_connected, this)
      else (Reject (Error "Task with ID NaN not found"), this)
  end.

(** [updateTask(taskId, updates)]; resolves with [{success: true, taskId}]. *)
Definition updateTask (taskId : string) (updates : gmap string value) (now : Z)
    (iso : nat → string) (st : state) : promise string * state :=
  if negb (isInitialized st) then (Reject not_initialized, st) else
  let numericId := Builtins.parseInt (Builtins.replace_with_empty "task-" taskId) in
  let dbUpdates := Integration.convertToDbFormat updates in
  match db_updateTask numericId dbUpdates now (db st) with
  | (Reject err, db') => (Reject err, with_db st db')
  | (Resolve _, db') =>
      match syncToLocalStorage iso (with_db st db') with
      | (Reject err, st') => (Reject err, st')
      | (Resolve _, st') => (Resolve taskId, st')
      end
  end.

(** [deleteTask(taskId)]; resolves with [{success: true, taskId}]. *)
Definition deleteTask (taskId : string) (iso : nat → string) (st : state)
    : promise string * state :=
  if negb (isInitialized st) then (Reject not_initialized, st) else
  let numericId := Builtins.parseInt (Builtins.replace_with_empty "task-" taskId) in
  match db_deleteTask numericId (db st) with
  | (Reject err, db') => (Reject err, with_db st db')
  | (Resolve _, db') =>
      match syncToLocalStorage iso (with_db st db') with
      | (Reject err, st') => (Reject err, st')
      | (Resolve _, st') => (Resolve taskId, st')
      end
  end.

Definition getTasks (filters : Filters.t) (iso : nat → string) (st : state)
    : promise (list (gmap string value)) :=
  if negb (isInitialized st) then Reject not_initialized else
  match Store.getAllTasks filters (db st) with
  | Reject err => Reject err
  | Resolve dbTasks => Resolve (convert_all iso dbTasks)
  end.

Definition searchTasks (searchTerm : value) (iso : nat → string) (st : state)
    : promise (list (gmap string value)) :=
  if negb (isInitialized st) then Reject not_initialized else
  match Store.searchTasks searchTerm (db st) with
  | Reject err => Reject err
  | Resolve dbTasks => Resolve (convert_all iso dbTasks)
  end.

Definition getTaskStats (today : string) (st : state) : promise Store.stats :=
  if negb (isInitialized st) then Reject not_initialized
  else Store.getTaskStats today (db st).

End Runtime.

End ProjectFlowIntegration.

(* ===================================================================== *)
(** ** What the adapter's snapshot should hold, named *)
(* ===================================================================== *)

Module Snapshots.

(** A snapshot that mirrors a table: the conversions of its rows, one for
    each row, a row that was created later coming first. *)
Definition mirrors (datetime_text : Z → string) (iso : nat → string)
    (rows : list task) (snapshot : list (gmap string value)) : Prop :=
  ∃ l, snapshot = ProjectFlowIntegration.convert_all datetime_text iso l
     ∧ l ≡ₚ rows
     ∧ StronglySorted (λ a b, created_at b ≤ created_at a) l.

(** The row that an entry of the snapshot is imported as. *)
Definition imported_as (projectFlowTask : gmap string value) (r : task) : Prop :=
  (∃ s, get projectFlowTask "title" = Str s ∧ title r = trim s)
  ∧ status r = Some (if bool_decide (get projectFlowTask "status" = Str "completed")
                     then "completed" else "pending")
  ∧ priority r = Store.bind (JS.or (get projectFlowTask "priority") (Str "medium"))
  ∧ description r = Store.bind (JS.or (get projectFlowTask "description") Null)
  ∧ (Domain.date_value (get projectFlowTask "dueDate") = true →
     due_date r = Store.bind (JS.or (get projectFlowTask "dueDate") Null)).

(** An entry of the snapshot that [validateTask] lets into the store. *)
Definition importable (Date_parse_isNaN : string → bool)
    (projectFlowTask : gmap string value) : bool :=
  bool_decide (Store.validateTask Date_parse_isNaN
                 (Integration.convertToDbFormat projectFlowTask) = []).


End Snapshots.

(* ===================================================================== *)
(** ** More sample data *)
(* ===================================================================== *)

Definition sample_iso (i : nat) : string := "2025-01-01T00:00:09.000Z".

(** A ProjectFlow task as the browser keeps it. *)
Definition pf_beta : gmap string value :=
  <["status" := Str "completed"]> (<["priority" := Str "high"]>
  (<["title" := Str "Beta"]> (<["id" := Str "task-7"]> ∅))).

Definition pf_gamma : gmap string value :=
  <["status" := Str "in-progress"]> (<["title" := Str " Gamma "]> ∅).

Definition pf_untitled : gmap string value :=
  <["status" := Str "todo"]> (<["description" := Str "no title"]> ∅).

(** An initialized adapter beside an empty store, with three entries in
    [localStorage]. *)
Definition adapter_start : ProjectFlowIntegration.state :=
  ProjectFlowIntegration.initialize
    (ProjectFlowIntegration.constructor (Some [pf_beta; pf_untitled; pf_gamma])).

(** The adapter after it created Beta at clock reading 1. *)
Definition adapter_beta : ProjectFlowIntegration.state :=
  (ProjectFlowIntegration.createTask ten_characters sample_datetime_text pf_beta 1
     "2025-01-01T00:00:01.000Z" "2025-01-01T00:00:01.000Z" sample_iso
     "2025-01-01T00:00:01.000Z" adapter_start).2.



Definition alpha_row : task :=
  {| task_id := 1; title := "Alpha"; description := None; due_date := None;
     priority := Some "medium"; status := Some "pending";
     created_at := 1; updated_at := 1 |}.


(** An update that passes [validateTask] with an empty status. *)
Definition empty_status : gmap string value :=
  <["status" := Str ""]> {[ "title" := Str "Alpha" ]}.

(* ===================================================================== *)
(** ** Validation *)
(* ===================================================================== *)

Section Validation.

Variable Date_parse_isNaN : string → bool.

Abbreviation validateTask := (Store.validateTask Date_parse_isNaN).
Abbreviation createTask := (Store.createTask Date_parse_isNaN).
Abbreviation updateTask := (Store.updateTask Date_parse_isNaN).

Lemma length_zero (s : string) : (JS.length s =? 0) = bool_decide (s = "").
Proof. destruct s; reflexivity. Qed.

Lemma title_required_cond (task : gmap string value) :
  negb (truthy (get task "title")) ||
    match get task "title" with
    | Str s => JS.length (trim s) =? 0
    | _ => false
    end = Rules.title_blank task.
Proof.
  unfold Rules.title_blank. destruct (get task "title") as [| |s]; try reflexivity.
  rewrite length_zero. destruct s; reflexivity.
Qed.

Lemma title_length_cond (task : gmap string value) :
  truthy (get task "title") &&
    match get task "title" with
    | Str s => 255 <? JS.length s
    | _ => false
    end = Rules.title_too_long task.
Proof.
  unfold Rules.title_too_long. destruct (get task "title") as [| |s]; try reflexivity.
  destruct s as [|a s]; [reflexivity|]. cbn [truthy String.eqb negb andb].
  apply eq_iff_eq_true. rewrite Z.ltb_lt, bool_decide_eq_true. reflexivity.
Qed.

Lemma enumeration_cond (k : string) (allowed : list string) (task : gmap string value) :
  truthy (get task k) && negb (includes allowed (get task k))
  = Rules.outside k allowed task.
Proof. unfold Rules.outside. destruct (get task k); reflexivity. Qed.

Lemma due_date_cond (task : gmap string value) :
  truthy (get task "due_date") &&
    match get task "due_date" with
    | Str s => Date_parse_isNaN s
    | _ => false
    end = Rules.bad_due_date Date_parse_isNaN task.
Proof. unfold Rules.bad_due_date. destruct (get task "due_date"); reflexivity. Qed.

Lemma validateTask_rules (task : gmap string value) :
  validateTask task
  = (List.filter (λ rule, rule.2 task) (Rules.rules Date_parse_isNaN)).*1.
Proof.
  unfold Store.validateTask.
  rewrite title_required_cond, title_length_cond, !enumeration_cond, due_date_cond.
  unfold Rules.rules. cbn [List.filter snd].
  destruct (Rules.title_blank task), (Rules.title_too_long task),
    (Rules.outside "priority" _ task), (Rules.outside "status" _ task),
    (Rules.bad_due_date _ task); reflexivity.
Qed.

Lemma run_update_error updateFields taskId now this err :
  Store.run_update updateFields taskId now this = inl err →
  err = SQLITE_CONSTRAINT "constraint failed".
Proof.
  unfold Store.run_update. destruct (mapM _ _); [discriminate|]. congruence.
Qed.

Lemma some_errors (errors : list string) :
  (0 <? Z.of_nat (List.length errors)) = negb (bool_decide (errors = [])).
Proof. destruct errors; reflexivity. Qed.

Lemma validateTask_passes_title (task : gmap string value) :
  validateTask task = [] → ∃ s, get task "title" = Str s ∧ trim s ≠ "".
Proof.
  rewrite validateTask_rules. unfold Rules.rules. cbn [List.filter snd].
  destruct (Rules.title_blank task) eqn:E; [discriminate|]. intros _.
  unfold Rules.title_blank in E.
  destruct (get task "title") as [| |s]; try discriminate.
  exists s. split; [reflexivity|]. by apply bool_decide_eq_false in E.
Qed.

(** C3, as amended.  [validateTask] returns the message of every violated
    rule and of no other, in the order title, length, priority, status, due
    date; the title is rejected exactly when it is missing or empty once
    trimmed, or when its length before trimming exceeds 255; and [createTask]
    rejects with one error that carries the whole list. *)
Theorem validateTask_reports_every_violated_rule (task : gmap string value) :
  validateTask task
    = (List.filter (λ rule, rule.2 task) (Rules.rules Date_parse_isNaN)).*1
  ∧ (Rules.title_rejected (validateTask task) = true
     ↔ Rules.title_blank task = true ∨ Rules.title_too_long task = true)
  ∧ ∀ now iso1 iso2 this,
      Store.isConnected this = true → validateTask task ≠ [] →
      createTask task now iso1 iso2 this
      = (Reject (Error ("Validation failed: " +:+ join ", " (validateTask task))),
         this).
Proof.
  split; [apply validateTask_rules|]. split.
  - rewrite validateTask_rules. unfold Rules.rules. cbn [List.filter snd].
    destruct (Rules.title_blank task), (Rules.title_too_long task),
      (Rules.outside "priority" _ task), (Rules.outside "status" _ task),
      (Rules.bad_due_date _ task); vm_compute; intuition discriminate.
  - intros now iso1 iso2 this Hc He. unfold Store.createTask.
    rewrite Hc, some_errors. cbn [negb].
    rewrite bool_decide_eq_false_2 by done. reflexivity.
Qed.

(** C8.  A payload that passes [validateTask] has a title that is a string
    and is not empty once trimmed, and [updateTask] never rejects with
    "No valid fields to update". *)
Theorem updateTask_never_without_fields (updates : gmap string value) :
  (validateTask updates = [] →
     ∃ s, get updates "title" = Str s ∧ trim s ≠ "")
  ∧ ∀ taskId now this,
      (updateTask taskId updates now this).1
      ≠ Reject (Error "No valid fields to update").
Proof.
  split; [apply validateTask_passes_title|].
  intros taskId now this. unfold Store.updateTask.
  destruct (Store.isConnected this); cbn [negb]; [|discriminate].
  rewrite some_errors.
  destruct (bool_decide (validateTask updates = [])) eqn:E; cbn [negb];
    [|discriminate].
  apply bool_decide_eq_true in E.
  destruct (validateTask_passes_title _ E) as (s & -> & _).
  rewrite bool_decide_eq_true_2 by discriminate.
  repeat match goal with
  | |- context [bool_decide ?P] => destruct (bool_decide P)
  end; cbn [app List.length Z.of_nat Z.eqb];
  (destruct (Store.run_update _ _ _ _) as [err|[n this']] eqn:R; cbn [fst];
   [apply run_update_error in R as ->; discriminate
   |destruct (n =? 0); discriminate]).
Qed.

(** C1, at its failing input.  Whatever the store holds, [updateTask] with
    the payload [{status: "completed"}] rejects and leaves the store as it
    was: on a connected store the error is that the title is required. *)
Theorem updateTask_status_only_rejected (taskId now : Z) (this : Store.TaskDatabase) :
  updateTask taskId {[ "status" := Str "completed" ]} now this
  = (Reject (if Store.isConnected this
             then Error "Validation failed: Title is required"
             else Error "Database not connected"),
     this).
Proof.
  unfold Store.updateTask. destruct (Store.isConnected this); reflexivity.
Qed.

(** C2, at its failing inputs.  On a connected store [createTask] resolves
    with the payload as it was given, next to the identifier and the two
    clock readings: for [{title: "Minimal Task"}] the resolved object has no
    [priority] and no [status] property, although the stored row has
    "medium" and "pending"; for a padded title the resolved object keeps the
    padding, although the stored title is trimmed. *)
Theorem createTask_resolves_with_payload_as_given
    (now : Z) (iso1 iso2 : string) (this : Store.TaskDatabase) :
  Store.isConnected this = true →
  (∃ o this',
     createTask {[ "title" := Str "Minimal Task" ]} now iso1 iso2 this
       = (Resolve o, this')
     ∧ o !! "task_id" = Some (Store.Number (Store.sqlite_sequence this + 1))
     ∧ o !! "priority" = None
     ∧ o !! "status" = None
     ∧ ∃ r, last (Store.rows this') = Some r
            ∧ priority r = Some "medium" ∧ status r = Some "pending")
  ∧ (∃ o this',
       createTask {[ "title" := Str "  Alpha " ]} now iso1 iso2 this
         = (Resolve o, this')
       ∧ o !! "title" = Some (Store.Value (Str "  Alpha "))
       ∧ ∃ r, last (Store.rows this') = Some r ∧ title r = "Alpha").
Proof.
  intros Hc. split.
  - unfold Store.createTask. rewrite Hc. cbn [negb].
    eexists _, _. split; [vm_compute; reflexivity|].
    repeat split; try (vm_compute; reflexivity).
    eexists. split; [apply last_snoc|]. split; reflexivity.
  - unfold Store.createTask. rewrite Hc. cbn [negb].
    eexists _, _. split; [vm_compute; reflexivity|].
    repeat split; try (vm_compute; reflexivity).
    eexists. split; [apply last_snoc|]. reflexivity.
Qed.

End Validation.

(* ===================================================================== *)
(** ** Statistics *)
(* ===================================================================== *)

Section Statistics.

Lemma ToNumber_sum (l : list Z) : ToNumber (SQL.sum l) = foldr Z.add 0 l.
Proof. destruct l; reflexivity. Qed.

Lemma sum_null {A} (f : A → Z) (l : list A) : SQL.sum (f <$> l) = None ↔ l = [].
Proof. destruct l; split; intros; done. Qed.

Lemma pending_plus_completed (l : list task) :
  Forall (λ r, status r = Some "pending" ∨ status r = Some "completed") l →
  foldr Z.add 0 ((λ r, SQL.case_when (SQL.eq (status r) (Some "pending"))) <$> l)
  + foldr Z.add 0 ((λ r, SQL.case_when (SQL.eq (status r) (Some "completed"))) <$> l)
  = Z.of_nat (List.length l).
Proof.
  induction 1 as [|r l Hr _ IH]; [reflexivity|].
  cbn [fmap list_fmap foldr List.length]. rewrite Nat2Z.inj_succ.
  destruct Hr as [-> | ->]; cbn; lia.
Qed.

(** C4, as amended.  On a connected store [getTaskStats] resolves;
    [total_tasks] is the number of stored rows; the two sums are NULL exactly
    on the empty table; and when every stored status is "pending" or
    "completed", [pending_tasks + completed_tasks] (NULL read as 0, as
    JavaScript's [+] reads it) is [total_tasks]. *)
Theorem getTaskStats_totals (today : string) (this : Store.TaskDatabase) :
  Store.isConnected this = true →
  ∃ st, Store.getTaskStats today this = Resolve st
    ∧ Store.total_tasks st = Z.of_nat (List.length (Store.rows this))
    ∧ (Store.pending_tasks st = None ↔ Store.rows this = [])
    ∧ (Store.completed_tasks st = None ↔ Store.rows this = [])
    ∧ (Forall (λ r, status r = Some "pending" ∨ status r = Some "completed")
              (Store.rows this) →
       ToNumber (Store.pending_tasks st) + ToNumber (Store.completed_tasks st)
       = Store.total_tasks st).
Proof.
  intros Hc. unfold Store.getTaskStats. rewrite Hc. cbn [negb].
  eexists. split; [reflexivity|]. cbn [Store.total_tasks Store.pending_tasks
    Store.completed_tasks].
  split; [reflexivity|].
  split; [apply sum_null|]. split; [apply sum_null|].
  intros Hs. rewrite !ToNumber_sum. by apply pending_plus_completed.
Qed.

End Statistics.

(* ===================================================================== *)
(** ** Timestamps *)
(* ===================================================================== *)

Section Timestamps.

Variable Date_parse_isNaN : string → bool.

Abbreviation reachable := (Store.reachable Date_parse_isNaN).
Abbreviation exec := (Store.exec Date_parse_isNaN).

Lemma assign_same a r r' :
  Store.assign a r = Some r' → same_task r r' ∧ updated_at r' = updated_at r.
Proof.
  destruct a as [[t|]|v|v|v|v]; cbn; intros [= <-]; repeat split.
Qed.

Lemma assign_all_same updateFields r r' :
  foldl (λ acc a, acc ≫= Store.assign a) (Some r) updateFields = Some r' →
  same_task r r' ∧ updated_at r' = updated_at r.
Proof.
  revert r. induction updateFields as [|a l IH]; intros r;
    cbn [foldl mbind option_bind].
  - intros [= <-]. repeat split.
  - destruct (Store.assign a r) as [r1|] eqn:E.
    + intros H. apply IH in H as [[H1 H2] H3].
      apply assign_same in E as [[E1 E2] E3]. unfold same_task. 
      repeat split; congruence.
    + intros H. exfalso. clear -H. induction l; cbn in H; [discriminate|auto].
Qed.

Lemma set_row_same updateFields now r r' :
  Store.set_row updateFields now r = Some r' →
  same_task r r' ∧ updated_at r' = now.
Proof.
  unfold Store.set_row.
  destruct (foldl _ _ _) as [r1|] eqn:E; cbn [mbind option_bind]; [|discriminate].
  destruct (check_constraints _); intros [= <-].
  apply assign_all_same in E as [[E1 E2] _]. repeat split; assumption.
Qed.

Lemma trigger_idle now taskId (l : list task) :
  Forall (λ r, task_id r = taskId → updated_at r = now) l →
  update_tasks_updated_at now taskId l = l.
Proof.
  unfold update_tasks_updated_at. induction 1 as [|r l Hr _ IH]; [reflexivity|].
  cbn [fmap list_fmap] in *. rewrite IH. f_equal.
  case_bool_decide; [|reflexivity]. destruct r; cbn in *. rewrite Hr; done.
Qed.

Lemma triggers_idle now taskId (hit l : list task) :
  Forall (λ r, task_id r = taskId) hit →
  Forall (λ r, task_id r = taskId → updated_at r = now) l →
  foldl (λ acc r, update_tasks_updated_at now (task_id r) acc) l hit = l.
Proof.
  intros Hh Hl. induction Hh as [|r hit Hr _ IH]; [reflexivity|].
  cbn [foldl]. rewrite Hr, trigger_idle by assumption. exact IH.
Qed.

Lemma run_update_rows updateFields taskId now this n this' :
  Store.run_update updateFields taskId now this = inr (n, this') →
  Forall2 (updated_to taskId now) (Store.rows this) (Store.rows this')
  ∧ Store.sqlite_sequence this' = Store.sqlite_sequence this
  ∧ n = SQL.count (List.filter (λ r, bool_decide (task_id r = taskId)) (Store.rows this)).
Proof.
  unfold Store.run_update.
  destruct (mapM _ _) as [rows'|] eqn:E; [|discriminate].
  intros [= <- <-]. cbn [Store.rows Store.sqlite_sequence].
  apply mapM_Some in E.
  assert (F : Forall2 (updated_to taskId now) (Store.rows this) rows').
  { eapply Forall2_impl; [exact E|]. intros r r' H. cbv beta in H. unfold updated_to.
    case_bool_decide.
    - apply set_row_same in H as [H1 H2]. done.
    - injection H as <-. done. }
  rewrite (triggers_idle now taskId); [done| |].
  - apply Forall_forall. intros r Hr%list_elem_of_In.
    apply filter_In in Hr as [_ Hr%bool_decide_eq_true]. exact Hr.
  - clear E. induction F as [|r r' l l' H _ IH]; constructor; [|exact IH].
    destruct H as [[H1 _] H2]. intros Hid. rewrite bool_decide_eq_true_2 in H2; congruence.
Qed.

Lemma createTask_state task now iso1 iso2 this :
  let this' := (Store.createTask Date_parse_isNaN task now iso1 iso2 this).2 in
  this' = this
  ∨ ∃ r, Store.rows this' = Store.rows this ++ [r]
       ∧ task_id r = Store.sqlite_sequence this + 1
       ∧ created_at r = now ∧ updated_at r = now
       ∧ Store.sqlite_sequence this' = Store.sqlite_sequence this + 1.
Proof.
  unfold Store.createTask.
  destruct (negb _); [by left|]. destruct (0 <? _); [by left|].
  destruct (get task "title") as [| |s]; [by left|by left|].
  unfold Store.run_insert. destruct (check_constraints _); [|by left].
  right. eexists. cbn. repeat split.
Qed.

Lemma updateTask_state taskId updates now this :
  let this' := (Store.updateTask Date_parse_isNaN taskId updates now this).2 in
  this' = this
  ∨ Forall2 (updated_to taskId now) (Store.rows this) (Store.rows this')
    ∧ Store.sqlite_sequence this' = Store.sqlite_sequence this.
Proof.
  unfold Store.updateTask.
  destruct (negb _); [by left|]. destruct (0 <? _); [by left|].
  destruct (if bool_decide (get updates "title" ≠ Undefined) then _ else _)
    as [err|updateFields]; [by left|].
  cbv zeta. destruct (_ =? 0); [by left|].
  destruct (Store.run_update _ _ _ _) as [err|[n this']] eqn:R; [by left|].
  apply run_update_rows in R as (R1 & R2 & _).
  right. destruct (n =? 0); done.
Qed.

Lemma updateTask_resolved taskId updates now this res this' :
  Store.updateTask Date_parse_isNaN taskId updates now this = (Resolve res, this') →
  Forall2 (updated_to taskId now) (Store.rows this) (Store.rows this')
  ∧ ∃ r, r ∈ Store.rows this ∧ task_id r = taskId.
Proof.
  unfold Store.updateTask.
  destruct (negb _); [discriminate|]. destruct (0 <? _); [discriminate|].
  destruct (if bool_decide (get updates "title" ≠ Undefined) then _ else _)
    as [err|updateFields]; [discriminate|].
  cbv zeta. destruct (_ =? 0); [discriminate|].
  destruct (Store.run_update _ _ _ _) as [err|[n this1]] eqn:R; [discriminate|].
  apply run_update_rows in R as (R1 & _ & R3).
  destruct (n =? 0) eqn:N; intros [= <- <-]. split; [exact R1|].
  destruct (List.filter _ (Store.rows this)) as [|r l] eqn:F; [by subst n|].
  exists r. assert (In r (r :: l)) as H by (by left). rewrite <- F in H.
  apply filter_In in H as [H1 H2%bool_decide_eq_true].
  by apply list_elem_of_In in H1.
Qed.

Lemma updateTask_of_stored taskId updates now this r :
  r ∈ Store.rows this → task_id r = taskId →
  (Store.updateTask Date_parse_isNaN taskId updates now this).2 = this
  ∨ ∃ res, (Store.updateTask Date_parse_isNaN taskId updates now this).1 = Resolve res.
Proof.
  intros Hr Hid. unfold Store.updateTask.
  destruct (negb _); [by left|]. destruct (0 <? _); [by left|].
  destruct (if bool_decide (get updates "title" ≠ Undefined) then _ else _)
    as [err|updateFields]; [by left|].
  cbv zeta. destruct (_ =? 0); [by left|].
  destruct (Store.run_update _ _ _ _) as [err|[n this1]] eqn:R; [by left|].
  apply run_update_rows in R as (_ & _ & R3). right.
  destruct (n =? 0) eqn:N; [|by eexists]. exfalso.
  apply Z.eqb_eq in N. subst n. unfold SQL.count in N.
  destruct (List.filter _ (Store.rows this)) as [|r0 l] eqn:F; [|done].
  assert (In r []) as []. rewrite <- F. apply filter_In.
  split; [by apply list_elem_of_In|by apply bool_decide_eq_true].
Qed.

Lemma updateTask_ignores_updated_at taskId updates v now this :
  Store.updateTask Date_parse_isNaN taskId (<["updated_at" := v]> updates) now this
  = Store.updateTask Date_parse_isNaN taskId updates now this.
Proof.
  unfold Store.updateTask, Store.validateTask, get.
  rewrite !lookup_insert_ne by done. reflexivity.
Qed.

Lemma store_inv_later t now this :
  t ≤ now → store_inv t this → store_inv now this.
Proof.
  intros Ht [H1 H2]. split; [|exact H2].
  eapply Forall_impl; [exact H1|]. cbv beta. intros r ?. lia.
Qed.

Lemma updated_to_ids taskId now (l l' : list task) :
  Forall2 (updated_to taskId now) l l' → task_id <$> l' = task_id <$> l.
Proof.
  induction 1 as [|r r' l l' [[H _] _] _ IH]; [reflexivity|].
  cbn [fmap list_fmap] in *. by rewrite H, IH.
Qed.

Lemma store_inv_exec t now c this :
  t ≤ now → store_inv t this → store_inv now (exec c now this).
Proof.
  intros Ht Hi. apply (store_inv_later _ _ _ Ht) in Hi.
  destruct c as [| |payload iso1 iso2| | |taskId updates|taskId| |];
    cbn [Store.exec]; try exact Hi.
  - (* createTask *)
    destruct (createTask_state payload now iso1 iso2 this) as [->|(r & E1 & E2 & E3 & E4 & E5)];
      [exact Hi|].
    destruct Hi as [H1 H2]. split.
    + rewrite E1, E5. apply Forall_app. split.
      * eapply Forall_impl; [exact H1|]. cbv beta. intros ? ?. lia.
      * repeat constructor; lia.
    + rewrite E1, fmap_app. apply NoDup_app. split; [exact H2|]. split.
      * intros x Hx [->|[]%elem_of_nil]%elem_of_cons.
        apply list_elem_of_fmap in Hx as (r0 & Hx & Hr0).
        rewrite Forall_forall in H1. apply H1 in Hr0. lia.
      * apply NoDup_singleton.
  - (* updateTask *)
    destruct (updateTask_state taskId updates now this) as [->|[F E]]; [exact Hi|].
    destruct Hi as [H1 H2]. split.
    + rewrite E. clear H2 E. induction F as [|r r' l l' [[Ha Hb] Hc] _ IH];
        [constructor|].
      apply Forall_cons in H1 as [H1 H1']. constructor; [|by apply IH].
      case_bool_decide; [|by subst r'].
      rewrite Ha, Hb, Hc. lia.
    + by rewrite (updated_to_ids _ _ _ _ F).
  - (* deleteTask *)
    unfold Store.deleteTask. destruct (negb _); [exact Hi|].
    cbn [Store.run_delete]. destruct (_ =? 0); cbn [snd Store.rows Store.sqlite_sequence];
    (destruct Hi as [H1 H2]; split;
     [ apply Forall_forall; intros r Hr%list_elem_of_In;
       apply filter_In in Hr as [Hr%list_elem_of_In _];
       rewrite Forall_forall in H1; by apply H1
     | clear H1; induction (Store.rows this) as [|r l IH]; [constructor|];
       cbn [List.filter]; apply NoDup_cons in H2 as [H2 H3];
       destruct (negb _); [|by apply IH];
       cbn [fmap list_fmap]; apply NoDup_cons; split; [|by apply IH];
       intros (r0 & E0 & Hr0%list_elem_of_In)%list_elem_of_fmap;
       apply filter_In in Hr0 as [Hr0%list_elem_of_In _];
       apply H2, list_elem_of_fmap; eauto ]).
Qed.

Lemma reachable_inv t this : reachable t this → store_inv t this.
Proof.
  induction 1 as [t|t this now c _ IH Ht].
  - split; constructor.
  - by eapply store_inv_exec.
Qed.

Lemma same_id_same_row (l : list task) r r' :
  NoDup (task_id <$> l) → r ∈ l → r' ∈ l → task_id r' = task_id r → r' = r.
Proof.
  induction l as [|x l IH]; [by intros _ ?%elem_of_nil|].
  cbn [fmap list_fmap]. intros [H1 H2]%NoDup_cons.
  intros [->|Hr]%elem_of_cons [->|Hr']%elem_of_cons E; [done| | |by apply IH].
  - exfalso. apply H1, list_elem_of_fmap. eauto.
  - exfalso. apply H1, list_elem_of_fmap. eauto.
Qed.

Lemma updated_to_source taskId now (l l' : list task) r' :
  Forall2 (updated_to taskId now) l l' → r' ∈ l' →
  ∃ r, r ∈ l ∧ updated_to taskId now r r'.
Proof.
  induction 1 as [|x x' l l' Hx _ IH]; [by intros ?%elem_of_nil|].
  intros [->|H]%elem_of_cons.
  - exists x. split; [left|exact Hx].
  - destruct (IH H) as (r & Hr & Hu). exists r. split; [by right|exact Hu].
Qed.

Lemma updated_to_target taskId now (l l' : list task) r :
  Forall2 (updated_to taskId now) l l' → r ∈ l →
  ∃ r', r' ∈ l' ∧ updated_to taskId now r r'.
Proof.
  induction 1 as [|x x' l l' Hx _ IH]; [by intros ?%elem_of_nil|].
  intros [->|H]%elem_of_cons.
  - exists x'. split; [left|exact Hx].
  - destruct (IH H) as (r' & Hr & Hu). exists r'. split; [by right|exact Hu].
Qed.

(** C5.  In every state the store reaches while its clock does not run
    backwards: each row has [created_at ≤ updated_at]; an [updateTask] that
    resolves leaves the row of that identifier with [updated_at] equal to the
    clock reading of the call, whatever the payload holds; an [updated_at]
    property in the payload changes nothing; and a call after which a stored
    row shows another [updated_at] is an [updateTask] of that row that
    resolved, so no read, insert or delete touches it. *)
Theorem updated_at_follows_updates (t : Z) (this : Store.TaskDatabase) :
  reachable t this →
  (∀ r, r ∈ Store.rows this → created_at r ≤ updated_at r)
  ∧ (∀ taskId updates now res this',
       Store.updateTask Date_parse_isNaN taskId updates now this = (Resolve res, this') →
       (∃ r', r' ∈ Store.rows this' ∧ task_id r' = taskId)
       ∧ ∀ r', r' ∈ Store.rows this' → task_id r' = taskId → updated_at r' = now)
  ∧ (∀ taskId updates v now,
       Store.updateTask Date_parse_isNaN taskId (<["updated_at" := v]> updates) now this
       = Store.updateTask Date_parse_isNaN taskId updates now this)
  ∧ (∀ c now r r',
       r ∈ Store.rows this → r' ∈ Store.rows (exec c now this) →
       task_id r' = task_id r → updated_at r' ≠ updated_at r →
       ∃ updates res,
         c = Store.UpdateTask (task_id r) updates
         ∧ (Store.updateTask Date_parse_isNaN (task_id r) updates now this).1
           = Resolve res).
Proof.
  intros [Hall Hdup]%reachable_inv. split; [|split; [|split]].
  - intros r Hr. rewrite Forall_forall in Hall. by apply Hall in Hr as [? _].
  - intros taskId updates now res this' [F (r & Hr & Hid)]%updateTask_resolved.
    split.
    + destruct (updated_to_target _ _ _ _ _ F Hr) as (r' & Hr' & [E _] & _).
      exists r'. split; [exact Hr'|congruence].
    + intros r' Hr' Hid'.
      destruct (updated_to_source _ _ _ _ _ F Hr') as (r0 & _ & [E _] & Hu).
      rewrite bool_decide_eq_true_2 in Hu; congruence.
  - intros. apply updateTask_ignores_updated_at.
  - intros c now r r' Hr Hr' Hid Hne.
    assert (Hsame : r' ∈ Store.rows this → False).
    { intros H. apply Hne. f_equal. by apply (same_id_same_row _ _ _ Hdup). }
    destruct c as [| |payload iso1 iso2| | |taskId updates|taskId| |];
      cbn [Store.exec] in Hr'; try (by destruct Hsame).
    + destruct (createTask_state payload now iso1 iso2 this)
        as [E|(x & E1 & E2 & _)]; [rewrite E in Hr'; by destruct Hsame|].
      rewrite E1 in Hr'.
      apply elem_of_app in Hr' as [H|[->|[]%elem_of_nil]%elem_of_cons];
        [by destruct Hsame|].
      rewrite Forall_forall in Hall. apply Hall in Hr. lia.
    + destruct (updateTask_state taskId updates now this) as [E|[F _]];
        [rewrite E in Hr'; by destruct Hsame|].
      destruct (updated_to_source _ _ _ _ _ F Hr') as (r0 & Hr0 & [E _] & Hu).
      assert (r0 = r) as -> by (apply (same_id_same_row _ _ _ Hdup); congruence).
      case_bool_decide as Hk; [subst taskId|by subst r'].
      destruct (updateTask_of_stored _ updates now _ _ Hr eq_refl) as [E'|[res Hres]];
        [rewrite E' in Hr'; by destruct Hsame|].
      eauto.
    + unfold Store.deleteTask in Hr'. destruct (negb _); [by destruct Hsame|].
      cbn [Store.run_delete] in Hr'.
      destruct (_ =? 0); cbn [snd Store.rows] in Hr';
        apply list_elem_of_In, filter_In in Hr' as [H%list_elem_of_In _];
        by destruct Hsame.
Qed.

End Timestamps.

(* ===================================================================== *)
(** ** Listing *)
(* ===================================================================== *)

Section Listing.

#[local] Instance desc_trans {A} (key : A → Z) : Transitive (SQL.desc key).
Proof. unfold SQL.desc. intros a b c ? ?. lia. Qed.

#[local] Instance desc_total {A} (key : A → Z) : Total (SQL.desc key).
Proof. unfold SQL.desc. intros a b. lia. Qed.

Lemma order_by_desc_sorted {A} (key : A → Z) (l : list A) :
  StronglySorted (SQL.desc key) (SQL.order_by_desc key l)
  ∧ SQL.order_by_desc key l ≡ₚ l.
Proof.
  split; [apply StronglySorted_merge_sort; apply _|apply merge_sort_Permutation].
Qed.

Lemma holds_and a b : SQL.holds (SQL.and a b) = SQL.holds a && SQL.holds b.
Proof. by destruct a as [[]|], b as [[]|]. Qed.

Lemma holds_where (sql : list (task → option bool)) (r : task) :
  SQL.holds (foldr (λ c acc, SQL.and (c r) acc) (Some true) sql)
  = forallb (λ c, SQL.holds (c r)) sql.
Proof.
  induction sql as [|c sql IH]; [reflexivity|].
  cbn [foldr forallb]. by rewrite holds_and, IH.
Qed.

Lemma eq_filter (f : value) (c : option string) :
  (if truthy f then SQL.holds (SQL.eq c (Store.bind f)) else true)
  = Queries.matches_eq f c.
Proof.
  destruct f as [| |s]; try reflexivity. cbn [truthy Queries.matches_eq Store.bind].
  destruct (String.eqb s ""); cbn [negb orb]; [reflexivity|].
  destruct c as [d|]; cbn.
  - destruct (String.eqb_spec d s) as [->|N].
    + by rewrite bool_decide_eq_true_2.
    + rewrite bool_decide_eq_false_2; [done|congruence].
  - by rewrite bool_decide_eq_false_2.
Qed.

Lemma from_filter (f : value) (c : option string) :
  (if truthy f then SQL.holds (SQL.ge c (Store.bind f)) else true)
  = Queries.matches_from f c.
Proof.
  destruct f as [| |s]; try reflexivity. cbn [truthy Queries.matches_from Store.bind].
  destruct (String.eqb s ""); cbn [negb orb]; [reflexivity|].
  destruct c as [d|]; cbn; [|reflexivity]. by destruct (String.leb s d).
Qed.

Lemma to_filter (f : value) (c : option string) :
  (if truthy f then SQL.holds (SQL.le c (Store.bind f)) else true)
  = Queries.matches_to f c.
Proof.
  destruct f as [| |s]; try reflexivity. cbn [truthy Queries.matches_to Store.bind].
  destruct (String.eqb s ""); cbn [negb orb]; [reflexivity|].
  destruct c as [d|]; cbn; [|reflexivity]. by destruct (String.leb d s).
Qed.

Lemma filter_none {A} (f : A → bool) (l : list A) :
  (∀ x, x ∈ l → f x = false) → List.filter f l = [].
Proof.
  induction l as [|x l IH]; [reflexivity|]. intros H.
  cbn [List.filter]. rewrite (H x) by left. apply IH.
  intros y Hy. apply H. by right.
Qed.

(** [getAllTasks] on a connected store: select, order, cut. *)
Lemma getAllTasks_connected (filters : Filters.t) (this : Store.TaskDatabase) :
  Store.isConnected this = true →
  Store.getAllTasks filters this
  = Resolve
      (let ordered := SQL.order_by_desc created_at
                        (List.filter (Queries.matches filters) (Store.rows this)) in
       match Filters.limit filters with
       | Some n => if bool_decide (0 < n) then take (Z.to_nat n) ordered else ordered
       | None => ordered
       end).
Proof.
  intros Hc. unfold Store.getAllTasks. rewrite Hc. cbn [negb]. cbv zeta.
  match goal with
  | |- context [List.filter ?f (Store.rows this)] =>
      replace (List.filter f (Store.rows this))
        with (List.filter (Queries.matches filters) (Store.rows this))
  end.
  - destruct (Filters.limit filters) as [n|]; [|reflexivity].
    unfold SQL.limit.
    case_bool_decide as H0; case_bool_decide as H1; try reflexivity; try lia.
    + destruct (Z.ltb_spec n 0); [lia|reflexivity].
    + destruct (Z.ltb_spec n 0); [reflexivity|lia].
  - apply filter_ext. intros r. rewrite holds_where.
    unfold Queries.matches.
    rewrite <- (eq_filter (Filters.status filters)),
      <- (eq_filter (Filters.priority filters)), <- from_filter, <- to_filter.
    destruct (truthy (Filters.status filters)),
      (truthy (Filters.priority filters)),
      (truthy (Filters.due_date_from filters)),
      (truthy (Filters.due_date_to filters));
      cbn [app forallb SQL.holds andb];
      repeat match goal with
      | |- context [SQL.holds ?x] => destruct (SQL.holds x)
      end; reflexivity.
Qed.


(** C9.  With [limit: 0], as with no [limit] property, [getAllTasks] runs
    the query without a LIMIT clause: the call with limit 0 is the call with
    the limit left out, whatever the filters and the store.  On a connected
    store it resolves, and its result holds every row that the same filters
    return under any limit.  Where the date bounds and due dates compare as
    text, the result is a permutation of the rows that pass the filters, so
    each of them is in it. *)
Theorem getAllTasks_falsy_limit_is_no_limit (filters : Filters.t) (this : Store.TaskDatabase) :
  Filters.limit filters = Some 0 ∨ Filters.limit filters = None →
  Store.getAllTasks filters this = Store.getAllTasks (Domain.with_limit None filters) this
  ∧ (Store.isConnected this = true →
     ∃ l, Store.getAllTasks filters this = Resolve l
        ∧ (∀ n l', Domain.limit_accepted (Some n) = true →
                   Store.getAllTasks (Domain.with_limit (Some n) filters) this = Resolve l' →
                   l' ⊆ l)
        ∧ (Domain.dates_compare_as_text filters (Store.rows this) = true →
           l ≡ₚ List.filter (Queries.matches filters) (Store.rows this)
           ∧ ∀ r, r ∈ Store.rows this → Queries.matches filters r = true → r ∈ l)).
Proof.
  intros Hl. split.
  - unfold Store.getAllTasks. cbn [Domain.with_limit Filters.status Filters.priority
      Filters.due_date_from Filters.due_date_to Filters.limit].
    destruct Hl as [-> | ->]; reflexivity.
  - intros Hc. rewrite (getAllTasks_connected _ _ Hc). cbv zeta.
    assert (E : match Filters.limit filters with
                | Some n => if bool_decide (0 < n)
                            then take (Z.to_nat n) (SQL.order_by_desc created_at
                                   (List.filter (Queries.matches filters) (Store.rows this)))
                            else SQL.order_by_desc created_at
                                   (List.filter (Queries.matches filters) (Store.rows this))
                | None => SQL.order_by_desc created_at
                            (List.filter (Queries.matches filters) (Store.rows this))
                end = SQL.order_by_desc created_at
                        (List.filter (Queries.matches filters) (Store.rows this))).
    { destruct Hl as [-> | ->]; reflexivity. }
    rewrite E. eexists. split; [reflexivity|]. split.
    + intros n l' _. rewrite (getAllTasks_connected _ _ Hc). cbv zeta.
      cbn [Domain.with_limit Filters.limit].
      replace (List.filter (Queries.matches (Domain.with_limit (Some n) filters))
                 (Store.rows this))
        with (List.filter (Queries.matches filters) (Store.rows this))
        by (apply filter_ext; intros r; reflexivity).
      case_bool_decide; intros [= <-]; [apply subseteq_take|done].
    + intros _.
      destruct (order_by_desc_sorted created_at
                  (List.filter (Queries.matches filters) (Store.rows this))) as [_ P].
      split; [exact P|]. intros r Hr Hm. rewrite P.
      apply list_elem_of_In, filter_In. split; [by apply list_elem_of_In|exact Hm].
Qed.

End Listing.

(* ===================================================================== *)
(** ** Searching *)
(* ===================================================================== *)

Section Searching.

Lemma prefix_ci_split (t s : string) :
  Search.prefix_ci t s = true
  ↔ ∃ mid post, s = mid +:+ post ∧ Search.lower mid = Search.lower t.
Proof.
  revert s. induction t as [|c t IH]; intros s.
  - split; [|reflexivity]. intros _. by exists "", s.
  - destruct s as [|d s]; cbn [Search.prefix_ci].
    + split; [discriminate|]. intros ([|? ?] & post & E & L); discriminate.
    + rewrite andb_true_iff, IH, Ascii.eqb_eq. split.
      * intros [E (mid & post & -> & L)]. exists (String d mid), post.
        split; [reflexivity|]. cbn [Search.lower]. congruence.
      * intros ([|d' mid] & post & E & L); [discriminate|].
        cbn [Search.lower] in L. injection L as L1 L2.
        cbn in E. injection E as -> ->. split; [done|]. by exists mid, post.
Qed.

(** [contains_ci] is the occurrence of the term as a substring, the case of
    ASCII letters apart. *)
Lemma contains_ci_split (t s : string) :
  Search.contains_ci t s = true
  ↔ ∃ pre mid post, s = pre +:+ mid +:+ post
                     ∧ Search.lower mid = Search.lower t.
Proof.
  induction s as [|d s IH]; cbn [Search.contains_ci];
    rewrite orb_true_iff, prefix_ci_split.
  - split.
    + intros [(mid & post & E & L)|]; [|discriminate]. by exists "", mid, post.
    + intros ([|? ?] & mid & post & E & L); [|discriminate].
      left. by exists mid, post.
  - rewrite IH. split.
    + intros [(mid & post & E & L)|(pre & mid & post & -> & L)].
      * by exists "", mid, post.
      * by exists (String d pre), mid, post.
    + intros ([|d' pre] & mid & post & E & L).
      * left. by exists mid, post.
      * cbn in E. injection E as -> ->. right. by exists pre, mid, post.
Qed.

Lemma like_percent (p s : string) :
  SQL.like_match (String "%" p) s
  = SQL.like_match p s ||
    match s with
    | "" => false
    | String _ s' => SQL.like_match (String "%" p) s'
    end.
Proof. destruct s; reflexivity. Qed.

Lemma like_any (s : string) : SQL.like_match "%" s = true.
Proof.
  induction s as [|d s IH]; [reflexivity|].
  rewrite like_percent, IH. apply orb_true_r.
Qed.

Lemma like_prefix (t s : string) :
  Search.wildcard_free t = true →
  SQL.like_match (t +:+ "%") s = Search.prefix_ci t s.
Proof.
  revert s. induction t as [|c t IH]; intros s Hw.
  - apply like_any.
  - cbn [Search.wildcard_free] in Hw.
    apply andb_true_iff in Hw as [[H1 H2]%andb_true_iff Hw].
    apply negb_true_iff in H1, H2.
    change (String c t +:+ "%") with (String c (t +:+ "%")).
    cbn [SQL.like_match]. rewrite H1.
    destruct s as [|d s]; [reflexivity|].
    cbn [Search.prefix_ci]. rewrite H2, IH by assumption. reflexivity.
Qed.

Lemma like_contains (t s : string) :
  Search.wildcard_free t = true →
  SQL.like_match ("%" +:+ t +:+ "%") s = Search.contains_ci t s.
Proof.
  intros Hw. change ("%" +:+ t +:+ "%") with (String "%" (t +:+ "%")).
  induction s as [|d s IH]; rewrite like_percent; cbn [Search.contains_ci];
    rewrite like_prefix by assumption; [reflexivity|].
  by rewrite IH.
Qed.

Lemma search_condition (pattern t : string) (r : task) :
  (∀ s, SQL.like_match pattern s = Search.contains_ci t s) →
  SQL.holds (SQL.or (SQL.like (Some (title r)) (Some pattern))
                    (SQL.like (description r) (Some pattern)))
  = Search.found t r.
Proof.
  intros H. unfold Search.found, SQL.like. rewrite H.
  destruct (description r) as [d|]; [rewrite H|];
    destruct (Search.contains_ci t (title r)); try reflexivity.
  by destruct (Search.contains_ci t d).
Qed.

(** C7, as amended.  On a connected store [searchTasks] rejects a term that
    is no string or is empty once trimmed.  For a term that, trimmed, is not
    empty, holds neither [%] nor [_] nor U+0000 and is at most 49998 bytes
    long in UTF-8, and with no U+0000 in a stored title or description, it
    resolves with exactly the rows whose title or description contains the
    trimmed term, the case of ASCII letters apart, ordered by [created_at]
    descending. *)
Theorem searchTasks_finds_substrings (searchTerm : value) (this : Store.TaskDatabase) :
  Store.isConnected this = true →
  (Search.term_blank searchTerm = true →
   Store.searchTasks searchTerm this = Reject (Error "Search term is required"))
  ∧ ∀ s, searchTerm = Str s → trim s ≠ "" →
      Search.wildcard_free (trim s) = true →
      Domain.term_accepted (trim s) = true →
      Domain.texts_read_whole (Store.rows this) = true →
      ∃ l, Store.searchTasks searchTerm this = Resolve l
         ∧ l ≡ₚ List.filter (Search.found (trim s)) (Store.rows this)
         ∧ StronglySorted (λ a b, created_at b ≤ created_at a) l.
Proof.
  intros Hc. unfold Store.searchTasks. rewrite Hc. cbn [negb]. split.
  - destruct searchTerm as [| |s]; try reflexivity.
    cbn [Search.term_blank]. intros E%bool_decide_eq_true.
    by rewrite E, orb_true_r.
  - intros s -> Hs Hw _ _.
    assert (s ≠ "") as Hs' by (by intros ->).
    rewrite length_zero, (bool_decide_eq_false_2 _ Hs). cbn [truthy].
    apply String.eqb_neq in Hs'. rewrite Hs'. cbn [negb orb].
    eexists. split; [reflexivity|].
    rewrite (filter_ext _ (Search.found (trim s)))
      by (intros r; apply search_condition; intros x; by apply like_contains).
    split; apply order_by_desc_sorted.
Qed.

End Searching.

(* ===================================================================== *)
(** ** The converters of the sync adapter *)
(* ===================================================================== *)

Section Converters.

Variable datetime_text : Z → string.

(** C10.  A row whose status is "pending" or "completed" gets its status
    back from [convertToDbFormat] after [convertToProjectFlowFormat]:
    "completed" travels as "completed", "pending" as "todo". *)
Theorem status_round_trip (iso : string) (r : task) :
  status r = Some "pending" ∨ status r = Some "completed" →
  get (Integration.convertToDbFormat
         (Integration.convertToProjectFlowFormat datetime_text iso r)) "status"
  = Integration.column_value (status r)
  ∧ get (Integration.convertToProjectFlowFormat datetime_text iso r) "status"
    = if bool_decide (status r = Some "completed")
      then Str "completed" else Str "todo".
Proof.
  intros H. unfold Integration.convertToDbFormat,
    Integration.convertToProjectFlowFormat, get.
  destruct H as [-> | ->]; split; by simplify_map_eq.
Qed.

End Converters.

(* ===================================================================== *)
(** ** The theorems at concrete inputs *)
(* ===================================================================== *)

Lemma alpha_beta_reachable : Store.reachable ten_characters 2 alpha_beta.
Proof.
  unfold alpha_beta, with_alpha, connected.
  apply (Store.reachable_call _ 1); [|done].
  apply (Store.reachable_call _ 0); [|done].
  apply (Store.reachable_call _ 0); [|done].
  apply Store.reachable_new.
Defined.

Lemma null_status_reachable : Store.reachable ten_characters 2 null_status.
Proof.
  unfold null_status, with_alpha, connected.
  apply (Store.reachable_call _ 1); [|done].
  apply (Store.reachable_call _ 0); [|done].
  apply (Store.reachable_call _ 0); [|done].
  apply Store.reachable_new.
Defined.

(** Example 11 of examples.js: both violations arrive in one message. *)
Example empty_title_invalid_priority :
  Store.createTask ten_characters
    (<["priority" := Str "invalid"]> {[ "title" := Str "" ]}) 1 "" "" connected
  = (Reject (Error "Validation failed: Title is required, Priority must be high, medium, or low"),
     connected).
Proof. vm_compute. reflexivity. Qed.

(** With the title repeated the update goes through; within the second of
    the creation it leaves [updated_at] equal to [created_at]. *)
Example update_within_the_same_second :
  Store.updateTask ten_characters 1 (<["status" := Str "completed"]> alpha) 1 with_alpha
  = (Resolve {| Store.updated_task_id := 1; Store.changes := 1 |},
     {| Store.isConnected := true;
        Store.rows := [ {| task_id := 1; title := "Alpha"; description := None;
                           due_date := None; priority := Some "medium";
                           status := Some "completed";
                           created_at := 1; updated_at := 1 |} ];
        Store.sqlite_sequence := 1 |}).
Proof. vm_compute. reflexivity. Qed.

(** C3 as stated fails: the padded title is not empty once trimmed and its
    trimmed length is 255, yet [validateTask] rejects it. *)
Lemma title_rule_counterexample :
  ¬ (Rules.title_rejected (Store.validateTask ten_characters padded_title) = true
     ↔ Rules.spec_title_invalid padded_title = true).
Proof.
  assert (Rules.title_rejected (Store.validateTask ten_characters padded_title) = true)
    as H1 by (vm_compute; reflexivity).
  assert (Rules.spec_title_invalid padded_title = false)
    as H2 by (vm_compute; reflexivity).
  rewrite H2. intros [H _]. by apply H in H1.
Qed.

Lemma validateTask_reports_every_violated_rule_witness :
  Store.createTask ten_characters padded_title 1 "" "" connected
  = (Reject (Error ("Validation failed: " +:+
                    join ", " (Store.validateTask ten_characters padded_title))),
     connected).
Proof.
  apply (validateTask_reports_every_violated_rule ten_characters padded_title).
  - reflexivity.
  - vm_compute. discriminate.
Defined.

Lemma updateTask_never_without_fields_witness :
  ∃ s, get alpha "title" = Str s ∧ trim s ≠ "".
Proof.
  apply (updateTask_never_without_fields ten_characters alpha).
  vm_compute. reflexivity.
Defined.

Lemma createTask_resolves_with_payload_as_given_witness :
  ∃ o this',
    Store.createTask ten_characters minimal_task 1 "" "" connected = (Resolve o, this')
    ∧ o !! "task_id" = Some (Store.Number (Store.sqlite_sequence connected + 1))
    ∧ o !! "priority" = None
    ∧ o !! "status" = None
    ∧ ∃ r, last (Store.rows this') = Some r
           ∧ priority r = Some "medium" ∧ status r = Some "pending".
Proof.
  apply (createTask_resolves_with_payload_as_given ten_characters 1 "" "" connected).
  reflexivity.
Defined.

(** C4 as stated fails: the store reached by creating Alpha and updating it
    with a [null] status holds one row, counted neither as pending nor as
    completed. *)
Lemma getTaskStats_counterexample :
  Store.reachable ten_characters 2 null_status
  ∧ ∃ st, Store.getTaskStats "2025-01-01" null_status = Resolve st
        ∧ Store.total_tasks st = 1
        ∧ ToNumber (Store.pending_tasks st) + ToNumber (Store.completed_tasks st)
          ≠ Store.total_tasks st.
Proof.
  split; [exact null_status_reachable|].
  eexists. split; [vm_compute; reflexivity|]. split; [reflexivity|].
  vm_compute. discriminate.
Qed.

Lemma getTaskStats_totals_witness :
  ∃ st, Store.getTaskStats "2025-01-01" alpha_beta = Resolve st
    ∧ Store.total_tasks st = 2
    ∧ Store.pending_tasks st = Some 1
    ∧ Store.completed_tasks st = Some 1
    ∧ Store.high_priority_tasks st = Some 1
    ∧ ToNumber (Store.pending_tasks st) + ToNumber (Store.completed_tasks st)
      = Store.total_tasks st.
Proof.
  destruct (getTaskStats_totals "2025-01-01" alpha_beta eq_refl)
    as (st & E & _ & _ & _ & H).
  exists st. split; [exact E|].
  assert (Forall (λ r, status r = Some "pending" ∨ status r = Some "completed")
                 (Store.rows alpha_beta)) as F.
  { apply (bool_decide_eq_true_1 _). vm_compute. reflexivity. }
  repeat split; [by injection E as <-..|exact (H F)].
Defined.

Lemma updated_at_follows_updates_witness :
  Store.reachable ten_characters 2 alpha_beta
  ∧ Forall (λ r, created_at r ≤ updated_at r) (Store.rows alpha_beta)
  ∧ Forall (λ r, task_id r = 1 → updated_at r = 3)
           (Store.rows (Store.updateTask ten_characters 1 retitle 3 alpha_beta).2).
Proof.
  destruct (updated_at_follows_updates ten_characters 2 alpha_beta
              alpha_beta_reachable) as (H1 & H2 & _).
  split; [exact alpha_beta_reachable|]. split; [by apply Forall_forall|].
  apply Forall_forall. intros r Hr Hid.
  destruct (H2 1 retitle 3 {| Store.updated_task_id := 1; Store.changes := 1 |}
              (Store.updateTask ten_characters 1 retitle 3 alpha_beta).2) as [_ H].
  - vm_compute. reflexivity.
  - by apply H.
Defined.

(** C5 as stated fails: when the clock is set back between a [createTask]
    and an [updateTask], the row shows an [updated_at] before its
    [created_at]. *)
Lemma updated_at_clock_counterexample :
  ∃ r, r ∈ Store.rows
             (Effects.run ten_characters
                [ (Store.Connect, 0);
                  (Store.CreateTask alpha "2025-01-01T00:00:05.000Z"
                     "2025-01-01T00:00:05.000Z", 5);
                  (Store.UpdateTask 1 retitle, 3) ]
                Store.constructor)
     ∧ ¬ created_at r ≤ updated_at r.
Proof.
  eexists. split; [vm_compute; left|]. vm_compute. intros H. by apply H.
Qed.



Lemma getAllTasks_falsy_limit_is_no_limit_witness :
  Store.getAllTasks limit_zero alpha_beta
  = Store.getAllTasks (Domain.with_limit None limit_zero) alpha_beta
  ∧ ∃ l, Store.getAllTasks limit_zero alpha_beta = Resolve l
       ∧ l ≡ₚ List.filter (Queries.matches limit_zero) (Store.rows alpha_beta)
       ∧ Forall (λ r, Queries.matches limit_zero r = true → r ∈ l)
                (Store.rows alpha_beta).
Proof.
  destruct (getAllTasks_falsy_limit_is_no_limit limit_zero alpha_beta
              (or_introl eq_refl)) as [E H].
  split; [exact E|].
  destruct (H eq_refl) as (l & El & _ & Hm). exists l.
  destruct (Hm eq_refl) as [P Hin].
  split; [exact El|]. split; [exact P|].
  apply Forall_forall. intros r Hr. by apply Hin.
Defined.

(** C7 as stated fails: the term [_] finds Alpha, which holds no [_]. *)
Lemma searchTasks_wildcard_counterexample :
  ∃ l r, Store.searchTasks (Str "_") with_alpha = Resolve l
       ∧ r ∈ l
       ∧ Search.found (trim "_") r = false.
Proof.
  eexists _, _. split; [vm_compute; reflexivity|].
  split; [left|reflexivity].
Qed.

Lemma searchTasks_finds_substrings_witness :
  Store.searchTasks (Str "   ") alpha_beta = Reject (Error "Search term is required")
  ∧ ∃ l, Store.searchTasks (Str " alp ") alpha_beta = Resolve l
       ∧ l ≡ₚ List.filter (Search.found (trim " alp ")) (Store.rows alpha_beta)
       ∧ StronglySorted (λ a b, created_at b ≤ created_at a) l.
Proof.
  split.
  - apply (searchTasks_finds_substrings (Str "   ") alpha_beta); reflexivity.
  - apply (searchTasks_finds_substrings (Str " alp ") alpha_beta).
    + reflexivity.
    + reflexivity.
    + vm_compute. discriminate.
    + reflexivity.
    + reflexivity.
    + reflexivity.
Defined.

Lemma status_round_trip_witness :
  get (Integration.convertToDbFormat
         (Integration.convertToProjectFlowFormat sample_datetime_text
            "2025-01-01T00:00:02.000Z" beta_row)) "status"
  = Integration.column_value (status beta_row)
  ∧ get (Integration.convertToProjectFlowFormat sample_datetime_text
           "2025-01-01T00:00:02.000Z" beta_row) "status"
    = if bool_decide (status beta_row = Some "completed")
      then Str "completed" else Str "todo".
Proof.
  apply (status_round_trip sample_datetime_text "2025-01-01T00:00:02.000Z" beta_row).
  right. reflexivity.
Defined.

(* ===================================================================== *)
(** ** Trimming *)
(* ===================================================================== *)

Section Trimming.

Lemma trimStart_length (s : string) :
  (String.length (trimStart s) ≤ String.length s)%nat.
Proof.
  induction s as [|a s IH]; cbn [trimStart]; [done|].
  destruct (is_white_space a); cbn [String.length]; lia.
Qed.

Lemma trimEnd_length (s : string) :
  (String.length (trimEnd s) ≤ String.length s)%nat.
Proof.
  induction s as [|a s IH]; cbn [trimEnd]; [done|].
  destruct (trimEnd s); [destruct (is_white_space a)|]; cbn [String.length] in *; lia.
Qed.

Lemma trim_length (s : string) : JS.length (trim s) ≤ JS.length s.
Proof.
  unfold JS.length, trim. pose proof (trimEnd_length (trimStart s)).
  pose proof (trimStart_length s). lia.
Qed.

Lemma trimEnd_cons (a : ascii) (s : string) :
  trimEnd (String a s)
  = match trimEnd s with
    | "" => if is_white_space a then "" else String a ""
    | r => String a r
    end.
Proof. reflexivity. Qed.

Lemma trimEnd_idempotent (s : string) : trimEnd (trimEnd s) = trimEnd s.
Proof.
  induction s as [|a s IH]; [done|]. rewrite trimEnd_cons.
  destruct (trimEnd s) as [|b r] eqn:E.
  - destruct (is_white_space a) eqn:W; [done|]. by rewrite trimEnd_cons, W.
  - by rewrite trimEnd_cons, IH.
Qed.

Lemma trimStart_head (s : string) :
  trimStart s = "" ∨ ∃ a r, trimStart s = String a r ∧ is_white_space a = false.
Proof.
  induction s as [|a s IH]; [by left|]. cbn [trimStart].
  destruct (is_white_space a) eqn:W; [exact IH|]. right. by exists a, s.
Qed.

Lemma trimEnd_head (a : ascii) (r : string) :
  is_white_space a = false → ∃ r', trimEnd (String a r) = String a r'.
Proof.
  intros W. cbn [trimEnd]. destruct (trimEnd r); [rewrite W|]; by eexists.
Qed.

(** A trimmed string is not changed by trimming it again. *)
Lemma trim_idempotent (s : string) : trim (trim s) = trim s.
Proof.
  unfold trim. destruct (trimStart_head s) as [E|(a & r & E & W)]; rewrite E.
  - reflexivity.
  - destruct (trimEnd_head a r W) as [r' E']. rewrite E'.
    cbn [trimStart]. rewrite W, <- E'. apply trimEnd_idempotent.
Qed.

End Trimming.
(* ===================================================================== *)
(** ** What each call does to the table *)
(* ===================================================================== *)

Section Calls.

Variable Date_parse_isNaN : string → bool.

(** What a payload that passes [validateTask] looks like. *)
Lemma validateTask_passes (payload : gmap string value) :
  Store.validateTask Date_parse_isNaN payload = [] →
  ∃ s, get payload "title" = Str s ∧ trim s ≠ "" ∧ JS.length s ≤ 255
     ∧ Rules.outside "priority" ["high"; "medium"; "low"] payload = false
     ∧ Rules.outside "status" ["pending"; "completed"] payload = false.
Proof.
  rewrite validateTask_rules. unfold Rules.rules. cbn [List.filter snd].
  destruct (Rules.title_blank payload) eqn:E1; [discriminate|].
  destruct (Rules.title_too_long payload) eqn:E2; [discriminate|].
  destruct (Rules.outside "priority" _ payload) eqn:E3; [discriminate|].
  destruct (Rules.outside "status" _ payload) eqn:E4; [discriminate|].
  intros _. unfold Rules.title_blank, Rules.title_too_long in *.
  destruct (get payload "title") as [| |s]; try discriminate.
  exists s. apply bool_decide_eq_false in E1, E2. repeat split; try done. lia.
Qed.

Lemma check_in_list (c : option string) (allowed : list string) :
  SQL.check (SQL.in_list c allowed) = true
  ↔ c = None ∨ ∃ p, c = Some p ∧ p ∈ allowed.
Proof.
  destruct c as [p|]; cbn; [|by split; [left|]].
  destruct (bool_decide_reflect (p ∈ allowed)) as [H|H]; split.
  - intros _. right. by exists p.
  - done.
  - done.
  - intros [|(q & [= <-] & Hq)]; done.
Qed.

Lemma check_constraints_enumerations (r : task) :
  check_constraints r = true
  ↔ (priority r = None ∨ ∃ p, priority r = Some p ∧ p ∈ ["high"; "medium"; "low"])
    ∧ (status r = None ∨ ∃ s, status r = Some s ∧ s ∈ ["pending"; "completed"]).
Proof.
  unfold check_constraints. by rewrite andb_true_iff, !check_in_list.
Qed.

Lemma default_in_enumeration (k d : string) (allowed : list string)
    (payload : gmap string value) :
  d ∈ allowed → Rules.outside k allowed payload = false →
  ∃ p, Store.bind (JS.or (get payload k) (Str d)) = Some p ∧ p ∈ allowed.
Proof.
  intros Hd. unfold Rules.outside, JS.or.
  destruct (get payload k) as [| |s]; cbn [truthy Store.bind]; try by eauto.
  destruct (String.eqb s ""); cbn [negb andb Store.bind]; [by eauto|].
  intros H%negb_false_iff%bool_decide_eq_true. by eauto.
Qed.

Lemma inserted_row_checked (payload : gmap string value) (s : string) (lastID now : Z) :
  Rules.outside "priority" ["high"; "medium"; "low"] payload = false →
  Rules.outside "status" ["pending"; "completed"] payload = false →
  check_constraints (Effects.inserted_row payload s lastID now) = true.
Proof.
  intros H1 H2. apply check_constraints_enumerations. cbn [priority status Effects.inserted_row].
  split; right.
  - apply default_in_enumeration; [set_solver|done].
  - apply default_in_enumeration; [set_solver|done].
Qed.

(** [createTask] with a payload that validates, on a connected store. *)
Lemma createTask_valid (payload : gmap string value) (now : Z) (iso1 iso2 : string)
    (this : Store.TaskDatabase) :
  Store.isConnected this = true →
  Store.validateTask Date_parse_isNaN payload = [] →
  ∃ s, get payload "title" = Str s
     ∧ Store.createTask Date_parse_isNaN payload now iso1 iso2 this
       = (Resolve (<["updated_at" := Store.Value (Str iso2)]>
                  (<["created_at" := Store.Value (Str iso1)]>
                  ((Store.Value <$> payload)
                   ∪ {["task_id" := Store.Number (Store.sqlite_sequence this + 1)]}))),
          {| Store.isConnected := true;
             Store.rows := Store.rows this
               ++ [Effects.inserted_row payload s (Store.sqlite_sequence this + 1) now];
             Store.sqlite_sequence := Store.sqlite_sequence this + 1 |}).
Proof.
  intros Hc Hv. destruct (validateTask_passes _ Hv) as (s & Ht & _ & _ & Hp & Hs).
  exists s. split; [exact Ht|]. unfold Store.createTask.
  rewrite Hc, Hv, Ht. cbn [negb List.length Z.of_nat Z.ltb Z.compare].
  unfold Store.run_insert.
  change ({| task_id := _; title := _; description := _; due_date := _;
             priority := _; status := _; created_at := _; updated_at := _ |})
    with (Effects.inserted_row payload s (Store.sqlite_sequence this + 1) now).
  rewrite inserted_row_checked by assumption. by rewrite Hc.
Qed.

(** A rejected [createTask] leaves the store as it was. *)
Lemma createTask_rejected (payload : gmap string value) (now : Z) (iso1 iso2 : string)
    (this this' : Store.TaskDatabase) e :
  Store.createTask Date_parse_isNaN payload now iso1 iso2 this = (Reject e, this') →
  this' = this.
Proof.
  unfold Store.createTask.
  destruct (negb _); [by intros [= _ <-]|]. destruct (0 <? _); [by intros [= _ <-]|].
  destruct (get payload "title") as [| |s]; try by intros [= _ <-].
  destruct (Store.run_insert _ _ _ _ _ _ _) as [err|[lastID st]]; [by intros [= _ <-]|done].
Qed.

Lemma createTask_resolved (payload : gmap string value) (now : Z) (iso1 iso2 : string)
    (this this' : Store.TaskDatabase) o :
  Store.createTask Date_parse_isNaN payload now iso1 iso2 this = (Resolve o, this') →
  Store.isConnected this = true ∧ Store.validateTask Date_parse_isNaN payload = [].
Proof.
  unfold Store.createTask. destruct (Store.isConnected this); [|done].
  cbn [negb]. rewrite some_errors.
  destruct (bool_decide_reflect (Store.validateTask Date_parse_isNaN payload = []));
    [done|discriminate].
Qed.

Lemma mapM_pointwise {A B} (f g : A → option B) (l : list A) :
  (∀ x, f x = g x) → mapM f l = mapM g l.
Proof.
  intros H. induction l as [|x l IH]; [done|]. cbn. by rewrite H, IH.
Qed.

(** The trigger finds [updated_at] already set by the statement. *)
Lemma run_update_plain updateFields taskId now this :
  Store.run_update updateFields taskId now this
  = match mapM (λ r, if bool_decide (task_id r = taskId)
                     then Store.set_row updateFields now r else Some r)
               (Store.rows this) with
    | None => inl (SQLITE_CONSTRAINT "constraint failed")
    | Some rows' =>
        inr (SQL.count (List.filter (λ r, bool_decide (task_id r = taskId))
                                    (Store.rows this)),
             {| Store.isConnected := Store.isConnected this;
                Store.rows := rows';
                Store.sqlite_sequence := Store.sqlite_sequence this |})
    end.
Proof.
  unfold Store.run_update.
  destruct (mapM _ _) as [rows'|] eqn:E; [|done].
  rewrite (triggers_idle now taskId); [done| |].
  - apply Forall_forall. intros r Hr%list_elem_of_In.
    apply filter_In in Hr as [_ Hr%bool_decide_eq_true]. exact Hr.
  - apply mapM_Some in E. clear -E.
    induction E as [|r r' l l' H _ IH]; constructor; [|exact IH].
    case_bool_decide as Hid.
    + apply set_row_same in H as [_ H]. done.
    + injection H as <-. done.
Qed.

(** [updateTask] with a payload that validates, on a connected store. *)
Lemma updateTask_valid (taskId : Z) (updates : gmap string value) (now : Z)
    (this : Store.TaskDatabase) :
  Store.isConnected this = true →
  Store.validateTask Date_parse_isNaN updates = [] →
  ∃ s, get updates "title" = Str s ∧ trim s ≠ "" ∧ JS.length s ≤ 255
     ∧ Store.updateTask Date_parse_isNaN taskId updates now this
       = match mapM (Effects.update_step updates s taskId now) (Store.rows this) with
         | None => (Reject (SQLITE_CONSTRAINT "constraint failed"), this)
         | Some rows' =>
             let n := SQL.count (List.filter (λ r, bool_decide (task_id r = taskId))
                                             (Store.rows this)) in
             (if n =? 0 then Reject (Store.not_found taskId)
              else Resolve {| Store.updated_task_id := taskId; Store.changes := n |},
              {| Store.isConnected := true; Store.rows := rows';
                 Store.sqlite_sequence := Store.sqlite_sequence this |})
         end.
Proof.
  intros Hc Hv. destruct (validateTask_passes _ Hv) as (s & Ht & Hs & Hl & _).
  exists s. repeat split; try done. unfold Store.updateTask.
  rewrite Hc, Hv, Ht. cbn [negb List.length Z.of_nat Z.ltb Z.compare].
  rewrite bool_decide_eq_true_2 by done.
  destruct (bool_decide (get updates "description" ≠ Undefined)) eqn:E1,
    (bool_decide (get updates "due_date" ≠ Undefined)) eqn:E2,
    (bool_decide (get updates "priority" ≠ Undefined)) eqn:E3,
    (bool_decide (get updates "status" ≠ Undefined)) eqn:E4;
    cbn [app List.length];
    lazymatch goal with
    | |- context [Z.of_nat (S ?n) =? 0] => change (Z.of_nat (S n) =? 0) with false
    end; cbv iota; rewrite run_update_plain;
    (rewrite (mapM_pointwise _ (Effects.update_step updates s taskId now));
     [ rewrite Hc; destruct (mapM _ (Store.rows this)); [|reflexivity];
       destruct (_ =? 0); reflexivity
     | intros r; unfold Effects.update_step, Effects.updated_row, Effects.column_after;
       rewrite E1, E2, E3, E4; case_bool_decide; reflexivity ]).
Qed.

Lemma update_step_rows updates s taskId now (l l' : list task) :
  mapM (Effects.update_step updates s taskId now) l = Some l' →
  l' = (λ r, if bool_decide (task_id r = taskId)
             then Effects.updated_row updates s now r else r) <$> l
  ∧ Forall (λ r, task_id r = taskId →
                 check_constraints (Effects.updated_row updates s now r) = true) l.
Proof.
  intros H%mapM_Some. induction H as [|r r' l l' H _ [IH1 IH2]]; [done|].
  unfold Effects.update_step in H. cbn [fmap list_fmap]. case_bool_decide as Hid.
  - destruct (check_constraints _) eqn:C; [|done]. injection H as <-.
    split; [by rewrite IH1|]. by constructor.
  - injection H as <-. split; [by rewrite IH1|]. by constructor.
Qed.

Lemma update_step_unmatched updates s taskId now (l : list task) :
  List.filter (λ r, bool_decide (task_id r = taskId)) l = [] →
  mapM (Effects.update_step updates s taskId now) l = Some l.
Proof.
  intros H. apply mapM_Some. induction l as [|r l IH]; [constructor|].
  cbn [List.filter] in H.
  destruct (bool_decide (task_id r = taskId)) eqn:E; [done|]. constructor.
  - unfold Effects.update_step. by rewrite E.
  - by apply IH.
Qed.

Lemma count_zero {A} (l : list A) : SQL.count l = 0 ↔ l = [].
Proof. unfold SQL.count. destruct l; cbn [List.length]; split; intros; try done; lia. Qed.

Lemma same_state (this : Store.TaskDatabase) :
  {| Store.isConnected := Store.isConnected this; Store.rows := Store.rows this;
     Store.sqlite_sequence := Store.sqlite_sequence this |} = this.
Proof. by destruct this. Qed.


(** A rejected [updateTask] leaves the store as it was. *)
Lemma updateTask_rejected (taskId : Z) (updates : gmap string value) (now : Z)
    (this this' : Store.TaskDatabase) e :
  Store.updateTask Date_parse_isNaN taskId updates now this = (Reject e, this') →
  this' = this.
Proof.
  destruct (Store.isConnected this) eqn:Hc;
    [|unfold Store.updateTask; rewrite Hc; by intros [= _ <-]].
  destruct (bool_decide_reflect (Store.validateTask Date_parse_isNaN updates = []))
    as [Hv|Hv].
  - destruct (updateTask_valid taskId updates now this Hc Hv) as (s & _ & _ & _ & ->).
    destruct (mapM _ _) as [rows'|] eqn:E; [|by intros [= _ <-]].
    cbv zeta. destruct (_ =? 0) eqn:N; [|done]. intros [= _ <-].
    apply Z.eqb_eq, count_zero in N.
    rewrite (update_step_unmatched _ _ _ _ _ N) in E. injection E as <-.
    rewrite <- Hc. apply same_state.
  - unfold Store.updateTask. rewrite Hc, some_errors. cbn [negb].
    rewrite bool_decide_eq_false_2 by done. by intros [= _ <-].
Qed.

Lemma updateTask_resolved_valid (taskId : Z) (updates : gmap string value) (now : Z)
    (this this' : Store.TaskDatabase) res :
  Store.updateTask Date_parse_isNaN taskId updates now this = (Resolve res, this') →
  Store.isConnected this = true ∧ Store.validateTask Date_parse_isNaN updates = [].
Proof.
  unfold Store.updateTask. destruct (Store.isConnected this); [|done].
  cbn [negb]. rewrite some_errors.
  destruct (bool_decide_reflect (Store.validateTask Date_parse_isNaN updates = []));
    [done|discriminate].
Qed.

Lemma filter_unmatched (taskId : Z) (l : list task) :
  List.filter (λ r, bool_decide (task_id r = taskId)) l = [] →
  List.filter (λ r, negb (bool_decide (task_id r = taskId))) l = l.
Proof.
  induction l as [|r l IH]; [done|]. cbn [List.filter].
  destruct (bool_decide (task_id r = taskId)); [done|].
  intros H. cbn [negb]. by rewrite (IH H).
Qed.

(** A rejected [deleteTask] leaves the store as it was. *)
Lemma deleteTask_rejected (taskId : Z) (this this' : Store.TaskDatabase) e :
  Store.deleteTask taskId this = (Reject e, this') → this' = this.
Proof.
  unfold Store.deleteTask. destruct (negb _); [by intros [= _ <-]|].
  cbn [Store.run_delete]. destruct (_ =? 0) eqn:N; [|done]. intros [= _ <-].
  apply Z.eqb_eq, count_zero in N. rewrite (filter_unmatched _ _ N). apply same_state.
Qed.

Lemma getTask_head (taskId : Z) (this : Store.TaskDatabase) :
  Store.getTask taskId this
  = if Store.isConnected this
    then match head (List.filter (λ r, bool_decide (task_id r = taskId)) (Store.rows this)) with
         | Some row => Resolve row
         | None => Reject (Store.not_found taskId)
         end
    else Reject Store.not_connected.
Proof.
  unfold Store.getTask. destruct (Store.isConnected this); [|done].
  cbn [negb]. by destruct (List.filter _ _).
Qed.

Lemma filter_fmap_same {A} (p : A → bool) (g : A → A) (l : list A) :
  (∀ x, p (g x) = p x) → List.filter p (g <$> l) = g <$> List.filter p l.
Proof.
  intros H. induction l as [|x l IH]; [done|]. cbn [fmap list_fmap List.filter].
  fold (g <$> l). rewrite H, IH. by destruct (p x).
Qed.

Lemma fmap_filter_id {A} (p : A → bool) (g : A → A) (l : list A) :
  (∀ x, p x = true → g x = x) → g <$> List.filter p l = List.filter p l.
Proof.
  intros H. induction l as [|x l IH]; [done|]. cbn [List.filter].
  destruct (p x) eqn:E; [|exact IH]. cbn [fmap list_fmap]. fold (g <$> (List.filter p l)).
  by rewrite IH, H.
Qed.

Lemma filter_unmatched_all (taskId : Z) (l : list task) :
  (∀ r, r ∈ l → task_id r ≠ taskId) →
  List.filter (λ r, bool_decide (task_id r = taskId)) l = [].
Proof.
  intros H. apply filter_none. intros r Hr. apply bool_decide_eq_false. by apply H.
Qed.

(** What a resolved [updateTask] did to the rows. *)
Lemma updateTask_resolved_rows (taskId : Z) (updates : gmap string value) (now : Z)
    (this this' : Store.TaskDatabase) res :
  Store.updateTask Date_parse_isNaN taskId updates now this = (Resolve res, this') →
  ∃ s r hit,
    get updates "title" = Str s
    ∧ Store.isConnected this = true ∧ Store.isConnected this' = true
    ∧ List.filter (λ x, bool_decide (task_id x = taskId)) (Store.rows this) = r :: hit
    ∧ Store.rows this'
      = (λ x, if bool_decide (task_id x = taskId)
              then Effects.updated_row updates s now x else x) <$> Store.rows this.
Proof.
  intros E. pose proof E as [Hc Hv]%updateTask_resolved_valid.
  destruct (updateTask_valid taskId updates now this Hc Hv) as (s & Ht & _ & _ & E').
  rewrite E' in E. clear E'.
  destruct (mapM _ _) as [rows'|] eqn:M; [|done]. cbv zeta in E.
  destruct (_ =? 0) eqn:N; [done|]. injection E as _ <-.
  apply update_step_rows in M as [-> _].
  destruct (List.filter (λ r, bool_decide (task_id r = taskId)) (Store.rows this))
    as [|r hit] eqn:F; [done|].
  by exists s, r, hit.
Qed.

Lemma updated_same_id updates s taskId now (x : task) :
  task_id (if bool_decide (task_id x = taskId)
           then Effects.updated_row updates s now x else x) = task_id x.
Proof. by case_bool_decide. Qed.

(** Looking a row up after the UPDATE. *)
Lemma lookup_updated updates s taskId now (l : list task) r hit :
  List.filter (λ x, bool_decide (task_id x = taskId)) l = r :: hit →
  head (List.filter (λ x, bool_decide (task_id x = taskId))
          ((λ x, if bool_decide (task_id x = taskId)
                 then Effects.updated_row updates s now x else x) <$> l))
  = Some (Effects.updated_row updates s now r).
Proof.
  intros F. rewrite filter_fmap_same, F.
  - cbn [fmap list_fmap head].
    assert (In r (r :: hit)) as Hr by (by left). rewrite <- F in Hr.
    apply filter_In in Hr as [_ Hr]. by rewrite Hr.
  - intros x. cbv beta. by rewrite updated_same_id.
Qed.

End Calls.


(* ===================================================================== *)
(** ** Laws of the store *)
(* ===================================================================== *)

Section StoreLaws.

Variable Date_parse_isNaN : string → bool.


(** X2.  On a connected store [createTask] resolves exactly when
    [validateTask] reports nothing; it then appends one row, leaves the rows
    that were there as they were, and advances the identifier counter by
    one. *)
Theorem createTask_resolves_iff_valid (payload : gmap string value) (now : Z)
    (iso1 iso2 : string) (this : Store.TaskDatabase) :
  Store.isConnected this = true →
  (Store.validateTask Date_parse_isNaN payload = []
   ↔ ∃ o, (Store.createTask Date_parse_isNaN payload now iso1 iso2 this).1 = Resolve o)
  ∧ ∀ o this',
      Store.createTask Date_parse_isNaN payload now iso1 iso2 this = (Resolve o, this') →
      (∃ r, Store.rows this' = Store.rows this ++ [r]
          ∧ task_id r = Store.sqlite_sequence this + 1)
      ∧ Store.sqlite_sequence this' = Store.sqlite_sequence this + 1
      ∧ Store.isConnected this' = true.
Proof.
  intros Hc. split; [split|].
  - intros Hv. destruct (createTask_valid _ payload now iso1 iso2 this Hc Hv)
      as (s & _ & ->). by eexists.
  - intros [o Ho].
    destruct (Store.createTask _ _ _ _ _ _) as [p this'] eqn:E. cbn [fst] in Ho.
    subst p. by apply createTask_resolved in E as [_ Hv].
  - intros o this' E. pose proof E as [_ Hv]%createTask_resolved.
    destruct (createTask_valid _ payload now iso1 iso2 this Hc Hv) as (s & _ & E').
    rewrite E' in E. injection E as _ <-. cbn. split; [by eexists|done].
Qed.

(** X3.  In a store reached from an empty one, when [createTask] resolves
    for a payload whose due date is absent or of the form [YYYY-MM-DD],
    [getTask] of the new identifier resolves with the row that was written:
    the trimmed title, the description and due date or NULL, the priority or
    "medium", the status or "pending", and both timestamps at the clock
    reading of the call.  Every row that [getTask] found before is found
    unchanged.  The resolved object carries the new identifier unless the
    payload itself held a [task_id]. *)
Theorem getTask_after_createTask (t : Z) (payload : gmap string value) (now : Z)
    (iso1 iso2 : string) (this this' : Store.TaskDatabase) o :
  Store.reachable Date_parse_isNaN t this →
  Domain.date_value (get payload "due_date") = true →
  Store.createTask Date_parse_isNaN payload now iso1 iso2 this = (Resolve o, this') →
  ∃ s, get payload "title" = Str s
     ∧ Store.getTask (Store.sqlite_sequence this + 1) this'
       = Resolve (Effects.inserted_row payload s (Store.sqlite_sequence this + 1) now)
     ∧ (∀ taskId r, Store.getTask taskId this = Resolve r →
                    Store.getTask taskId this' = Resolve r)
     ∧ (payload !! "task_id" = None →
        o !! "task_id" = Some (Store.Number (Store.sqlite_sequence this + 1))).
Proof.
  intros [Hall _]%reachable_inv _ E. pose proof E as [Hc Hv]%createTask_resolved.
  destruct (createTask_valid _ payload now iso1 iso2 this Hc Hv) as (s & Ht & E').
  rewrite E' in E. injection E as <- <-. exists s. split; [exact Ht|].
  rewrite !getTask_head. cbn [Store.isConnected Store.rows]. split; [|split].
  - rewrite List.filter_app, filter_unmatched_all.
    + cbn [List.filter app Effects.inserted_row task_id].
      by rewrite bool_decide_eq_true_2.
    + intros r Hr. rewrite Forall_forall in Hall. apply Hall in Hr. lia.
  - intros taskId r. rewrite !getTask_head, Hc.
    cbn [Store.isConnected Store.rows]. rewrite List.filter_app.
    destruct (List.filter _ (Store.rows this)); [done|]. by cbn.
  - intros Hk. rewrite lookup_insert_ne, lookup_insert_ne by done.
    rewrite lookup_union_r by (by rewrite lookup_fmap, Hk).
    by rewrite lookup_singleton_eq.
Qed.

(** X4.  When [updateTask] resolves for a payload whose due date is absent,
    [null], empty or of the form [YYYY-MM-DD], the row of that identifier
    holds the trimmed title of the payload; each of description, due date, priority
    and status holds the payload's value when the payload has the property
    ([null] stored as NULL) and its old value when it has not; [created_at]
    is kept and [updated_at] is the clock reading of the call.  Rows of other
    identifiers are found as before. *)
Theorem updateTask_writes_the_supplied_columns (taskId : Z)
    (updates : gmap string value) (now : Z) (this this' : Store.TaskDatabase) res :
  Domain.date_value (get updates "due_date") = true →
  Store.updateTask Date_parse_isNaN taskId updates now this = (Resolve res, this') →
  ∃ s r, get updates "title" = Str s
       ∧ Store.getTask taskId this = Resolve r
       ∧ Store.getTask taskId this'
         = Resolve (Effects.updated_row updates s now r)
       ∧ ∀ other, other ≠ taskId →
           Store.getTask other this' = Store.getTask other this.
Proof.
  intros _ (s & r & hit & Ht & Hc & Hc' & F & E)%updateTask_resolved_rows.
  exists s, r. split; [exact Ht|]. rewrite !getTask_head, Hc, Hc', E.
  split; [by rewrite F|]. split.
  - by rewrite (lookup_updated _ _ _ _ _ _ _ F).
  - intros other Hne. rewrite !getTask_head, Hc, Hc', E. rewrite filter_fmap_same.
    + rewrite fmap_filter_id; [done|].
      intros x Hx%bool_decide_eq_true. rewrite bool_decide_eq_false_2; [done|congruence].
    + intros x. cbv beta. by rewrite updated_same_id.
Qed.


(** X6.  A [createTask], [updateTask] or [deleteTask] that rejects, for
    whatever reason, leaves the store exactly as it was. *)
Theorem rejected_calls_change_nothing (this this' : Store.TaskDatabase) e :
  (∀ payload now iso1 iso2,
     Store.createTask Date_parse_isNaN payload now iso1 iso2 this = (Reject e, this') →
     this' = this)
  ∧ (∀ taskId updates now,
       Store.updateTask Date_parse_isNaN taskId updates now this = (Reject e, this') →
       this' = this)
  ∧ (∀ taskId, Store.deleteTask taskId this = (Reject e, this') → this' = this).
Proof.
  split; [|split]; intros.
  - by eapply createTask_rejected.
  - by eapply updateTask_rejected.
  - by eapply deleteTask_rejected.
Qed.

(** X7.  When [getTask] finds a row, [deleteTask] of its identifier
    resolves; afterwards [getTask] of that identifier rejects with "not
    found", rows of other identifiers are found as before, and in a store
    reached from an empty one exactly one row is gone. *)
Theorem getTask_after_deleteTask (taskId : Z) (this : Store.TaskDatabase) r :
  Store.getTask taskId this = Resolve r →
  ∃ this',
    Store.deleteTask taskId this
      = (Resolve {| Store.deleted_task_id := taskId; Store.deleted := true |}, this')
    ∧ Store.getTask taskId this'
      = Reject (Error ("Task with ID " +:+ pretty taskId +:+ " not found"))
    ∧ (∀ other, other ≠ taskId →
         Store.getTask other this' = Store.getTask other this)
    ∧ (∀ t, Store.reachable Date_parse_isNaN t this →
         (List.length (Store.rows this') + 1 = List.length (Store.rows this))%nat).
Proof.
  rewrite getTask_head. destruct (Store.isConnected this) eqn:Hc; [|done].
  destruct (List.filter (λ r, bool_decide (task_id r = taskId)) (Store.rows this))
    as [|r0 hit] eqn:F; [done|]. intros [= ->].
  unfold Store.deleteTask. rewrite Hc. cbn [negb Store.run_delete]. rewrite F.
  eexists. split; [reflexivity|]. rewrite !getTask_head.
  cbn [Store.isConnected Store.rows]. rewrite Hc. split; [|split].
  - rewrite filter_none; [done|].
    intros x Hx%list_elem_of_In. apply filter_In in Hx as [_ Hx].
    by destruct (bool_decide (task_id x = taskId)).
  - intros other Hne. rewrite !getTask_head, Hc.
    cbn [Store.isConnected Store.rows].
    assert (List.filter (λ r1, bool_decide (task_id r1 = other))
              (List.filter (λ r1, negb (bool_decide (task_id r1 = taskId))) (Store.rows this))
            = List.filter (λ r1, bool_decide (task_id r1 = other)) (Store.rows this)) as ->;
      [|done].
    clear F. induction (Store.rows this) as [|x l IH]; [done|]. cbn [List.filter].
    destruct (bool_decide_reflect (task_id x = taskId)) as [Hx|Hx]; cbn [negb List.filter].
    + rewrite bool_decide_eq_false_2 by congruence. exact IH.
    + by rewrite IH.
  - intros t [_ Hdup]%reachable_inv.
    assert (In r (r :: hit)) as Hr by (by left). rewrite <- F in Hr.
    apply filter_In in Hr as [Hr Hid%bool_decide_eq_true]. clear F.
    induction (Store.rows this) as [|x l IH]; [done|].
    cbn [fmap list_fmap] in Hdup. apply NoDup_cons in Hdup as [Hx Hdup].
    cbn [List.filter]. destruct Hr as [->|Hr].
    + rewrite bool_decide_eq_true_2 by done. cbn [negb List.length].
      rewrite filter_unmatched; [lia|]. apply filter_unmatched_all.
      intros y Hy E. apply Hx, list_elem_of_fmap. exists y. split; [congruence|done].
    + rewrite bool_decide_eq_false_2; [cbn [negb List.length]; rewrite <- IH by done; lia|].
      intros E. apply Hx, list_elem_of_fmap. exists r.
      split; [congruence|by apply list_elem_of_In].
Qed.

End StoreLaws.

(* ===================================================================== *)
(** ** What the store keeps over its life *)
(* ===================================================================== *)

Section Life.

Variable Date_parse_isNaN : string → bool.

(** What one call can do to the table. *)
Lemma exec_table (c : Store.call) (now : Z) (this : Store.TaskDatabase) :
  let this' := Store.exec Date_parse_isNaN c now this in
  (Store.rows this' = Store.rows this
   ∧ Store.sqlite_sequence this' = Store.sqlite_sequence this)
  ∨ (∃ payload s,
       Store.validateTask Date_parse_isNaN payload = [] ∧ get payload "title" = Str s
       ∧ Store.rows this' = Store.rows this
           ++ [Effects.inserted_row payload s (Store.sqlite_sequence this + 1) now]
       ∧ Store.sqlite_sequence this' = Store.sqlite_sequence this + 1)
  ∨ (∃ taskId updates s,
       Store.validateTask Date_parse_isNaN updates = [] ∧ get updates "title" = Str s
       ∧ mapM (Effects.update_step updates s taskId now) (Store.rows this)
         = Some (Store.rows this')
       ∧ Store.sqlite_sequence this' = Store.sqlite_sequence this)
  ∨ (∃ taskId,
       Store.rows this'
       = List.filter (λ r, negb (bool_decide (task_id r = taskId))) (Store.rows this)
       ∧ Store.sqlite_sequence this' = Store.sqlite_sequence this).
Proof.
  destruct c as [| |payload iso1 iso2| | |taskId updates|taskId| |];
    cbn [Store.exec]; try by left.
  - destruct (Store.createTask _ payload now iso1 iso2 this) as [[o|e] this'] eqn:E;
      cbn [snd].
    + pose proof E as [Hc Hv]%createTask_resolved.
      destruct (createTask_valid _ payload now iso1 iso2 this Hc Hv) as (s & Ht & E').
      rewrite E' in E. injection E as _ <-. right. left. by exists payload, s.
    + apply createTask_rejected in E as ->. by left.
  - destruct (Store.updateTask _ taskId updates now this) as [[res|e] this'] eqn:E;
      cbn [snd].
    + pose proof E as [Hc Hv]%updateTask_resolved_valid.
      destruct (updateTask_valid _ taskId updates now this Hc Hv)
        as (s & Ht & _ & _ & E').
      rewrite E' in E. destruct (mapM _ _) as [rows'|] eqn:M; [|done].
      cbv zeta in E. injection E as _ <-. right. right. left.
      by exists taskId, updates, s.
    + apply updateTask_rejected in E as ->. by left.
  - unfold Store.deleteTask. destruct (negb _); [by left|].
    cbn [Store.run_delete]. right. right. right. exists taskId.
    by destruct (_ =? 0).
Qed.

Lemma exec_sequence (c : Store.call) (now : Z) (this : Store.TaskDatabase) :
  Store.sqlite_sequence this
  ≤ Store.sqlite_sequence (Store.exec Date_parse_isNaN c now this).
Proof.
  destruct (exec_table c now this)
    as [[_ E]|[(? & ? & _ & _ & _ & E)|[(? & ? & ? & _ & _ & _ & E)|(? & _ & E)]]];
    rewrite E; lia.
Qed.

Lemma run_sequence (calls : list (Store.call * Z)) (this : Store.TaskDatabase) :
  Store.sqlite_sequence this
  ≤ Store.sqlite_sequence (Effects.run Date_parse_isNaN calls this).
Proof.
  revert this. induction calls as [|[c now] calls IH]; intros this; [done|].
  cbn [Effects.run foldl fst snd].
  etrans; [apply (exec_sequence c now)|apply IH].
Qed.

(** X8.  Identifiers are never reused.  Take a row stored in a state reached
    from an empty store, and any calls after it (deletions included): a
    [createTask] that then resolves writes its row under an identifier
    greater than that of the first row. *)
Theorem identifiers_are_never_reused (t : Z) (this : Store.TaskDatabase) (r : task)
    (calls : list (Store.call * Z)) (payload : gmap string value) (now : Z)
    (iso1 iso2 : string) o (this' : Store.TaskDatabase) :
  Store.reachable Date_parse_isNaN t this →
  r ∈ Store.rows this →
  Store.createTask Date_parse_isNaN payload now iso1 iso2
    (Effects.run Date_parse_isNaN calls this) = (Resolve o, this') →
  ∃ r', last (Store.rows this') = Some r' ∧ task_id r < task_id r'.
Proof.
  intros [Hall _]%reachable_inv Hr E.
  pose proof E as [Hc Hv]%createTask_resolved.
  destruct (createTask_valid _ payload now iso1 iso2 _ Hc Hv) as (s & _ & E').
  rewrite E' in E. injection E as _ <-. cbn [Store.rows].
  eexists. split; [apply last_snoc|]. cbn [Effects.inserted_row task_id].
  rewrite Forall_forall in Hall. apply Hall in Hr.
  pose proof (run_sequence calls this). lia.
Qed.

Lemma inserted_row_at_rest payload s lastID now :
  Store.validateTask Date_parse_isNaN payload = [] → get payload "title" = Str s →
  0 < lastID → Effects.row_at_rest (Effects.inserted_row payload s lastID now).
Proof.
  intros Hv Ht Hid. destruct (validateTask_passes _ _ Hv) as (s' & Ht' & Hs & Hl & Hp & Hst).
  rewrite Ht in Ht'. injection Ht' as <-.
  unfold Effects.row_at_rest. cbn [Effects.inserted_row title task_id].
  split; [done|]. split; [apply trim_idempotent|].
  split; [pose proof (trim_length s); lia|].
  assert (check_constraints (Effects.inserted_row payload s lastID now) = true)
    as C by (by apply inserted_row_checked).
  apply check_constraints_enumerations in C as [C1 C2]. done.
Qed.

Lemma updated_row_at_rest updates s now r :
  Store.validateTask Date_parse_isNaN updates = [] → get updates "title" = Str s →
  check_constraints (Effects.updated_row updates s now r) = true →
  0 < task_id r → Effects.row_at_rest (Effects.updated_row updates s now r).
Proof.
  intros Hv Ht C Hid. destruct (validateTask_passes _ _ Hv) as (s' & Ht' & Hs & Hl & _).
  rewrite Ht in Ht'. injection Ht' as <-.
  apply check_constraints_enumerations in C as [C1 C2].
  unfold Effects.row_at_rest. cbn [Effects.updated_row title task_id] in *.
  split; [done|]. split; [apply trim_idempotent|].
  split; [pose proof (trim_length s); lia|]. done.
Qed.

Lemma at_rest_exec (c : Store.call) (now : Z) (this : Store.TaskDatabase) :
  0 ≤ Store.sqlite_sequence this →
  Forall Effects.row_at_rest (Store.rows this) →
  Forall Effects.row_at_rest (Store.rows (Store.exec Date_parse_isNaN c now this)).
Proof.
  intros Hq H.
  destruct (exec_table c now this)
    as [[E _]|[(p & s & Hv & Ht & E & _)|[(i & u & s & Hv & Ht & E & _)|(i & E & _)]]].
  - by rewrite E.
  - rewrite E. apply Forall_app. split; [done|]. constructor; [|done].
    apply inserted_row_at_rest; [done..|lia].
  - apply update_step_rows in E as [-> C]. apply Forall_fmap.
    rewrite Forall_forall in H, C. apply Forall_forall. intros r Hr. cbn.
    case_bool_decide as Hid; [|by apply H].
    apply updated_row_at_rest; [done..|by apply C|by apply H].
  - rewrite E. apply Forall_forall. intros r Hr%list_elem_of_In.
    apply filter_In in Hr as [Hr%list_elem_of_In _].
    rewrite Forall_forall in H. by apply H.
Qed.

Lemma reachable_at_rest t this :
  Store.reachable Date_parse_isNaN t this →
  0 ≤ Store.sqlite_sequence this ∧ Forall Effects.row_at_rest (Store.rows this).
Proof.
  induction 1 as [t|t this now c _ [IH1 IH2] _]; [by split; [|constructor]|].
  split; [pose proof (exec_sequence c now this); lia|by apply at_rest_exec].
Qed.

(** X9.  In every state reached from an empty store each stored row has a
    title that is not empty, is trimmed and is at most 255 long, a priority
    that is NULL or one of high, medium, low, a status that is NULL or one of
    pending, completed, and a positive identifier; no two rows share an
    identifier; and [getTask] finds every stored row under its identifier
    when the store is connected. *)
Theorem stored_rows_are_well_formed (t : Z) (this : Store.TaskDatabase) :
  Store.reachable Date_parse_isNaN t this →
  Forall Effects.row_at_rest (Store.rows this)
  ∧ NoDup (task_id <$> Store.rows this)
  ∧ (Store.isConnected this = true →
     ∀ r, r ∈ Store.rows this → Store.getTask (task_id r) this = Resolve r).
Proof.
  intros H. pose proof H as [_ Hr]%reachable_at_rest.
  apply reachable_inv in H as [_ Hdup]. split; [done|]. split; [done|].
  intros Hc r Hin. rewrite getTask_head, Hc.
  destruct (List.filter _ _) as [|r0 hit] eqn:F.
  - exfalso. assert (In r []) as []. rewrite <- F. apply filter_In.
    split; [by apply list_elem_of_In|by apply bool_decide_eq_true].
  - assert (In r0 (r0 :: hit)) as H0 by (by left). rewrite <- F in H0.
    apply filter_In in H0 as [H0%list_elem_of_In Hid%bool_decide_eq_true].
    cbn [head]. f_equal. by apply (same_id_same_row _ _ _ Hdup).
Qed.

End Life.

(* ===================================================================== *)
(** ** When the schema objects *)
(* ===================================================================== *)

Section Constraints.

Variable Date_parse_isNaN : string → bool.

Lemma mapM_None {A B} (f : A → option B) (l : list A) :
  mapM f l = None ↔ ∃ x, x ∈ l ∧ f x = None.
Proof.
  induction l as [|x l IH]; cbn.
  - split; [done|]. by intros (x & ?%elem_of_nil & _).
  - destruct (f x) as [y|] eqn:E; cbn.
    + destruct (mapM f l) as [l'|]; cbn.
      * split; [done|]. intros (z & [->|Hz]%elem_of_cons & Hf); [congruence|].
        exfalso. assert (Some l' = None) as H; [|done]. apply IH. eauto.
      * split; [|done]. intros _. destruct IH as [IH _].
        destruct (IH eq_refl) as (z & Hz & Hf). exists z. split; [by right|done].
    + split; [|done]. intros _. exists x. split; [by left|done].
Qed.

(** A column passes its CHECK after the UPDATE unless the payload holds the
    empty string for it. *)
Lemma column_checked (k : string) (allowed : list string) (updates : gmap string value)
    (old : option string) :
  "" ∉ allowed →
  Rules.outside k allowed updates = false →
  (old = None ∨ ∃ p, old = Some p ∧ p ∈ allowed) →
  SQL.check (SQL.in_list (Effects.column_after updates k old) allowed) = false
  ↔ get updates k = Str "".
Proof.
  intros Hn Ho Hold. unfold Effects.column_after, Rules.outside in *. revert Ho.
  destruct (get updates k) as [| |s]; intros Ho.
  - rewrite bool_decide_eq_false_2 by (by intros []).
    apply check_in_list in Hold. by rewrite Hold.
  - by rewrite bool_decide_eq_true_2.
  - rewrite bool_decide_eq_true_2 by done. cbn [Store.bind].
    destruct (decide (s = "")) as [->|Hs].
    + split; [done|]. intros _. cbn. by rewrite bool_decide_eq_false_2.
    + split; [|by intros [= ->]]. intros C. exfalso.
      apply String.eqb_neq in Hs. rewrite Hs in Ho.
      cbn [negb andb] in Ho. apply negb_false_iff, bool_decide_eq_true in Ho.
      assert (SQL.check (SQL.in_list (Some s) allowed) = true) as C'; [|congruence].
      apply check_in_list. right. by exists s.
Qed.

(** X10.  In a connected store reached from an empty one, an [updateTask]
    whose payload [validateTask] accepts is rejected by a constraint of the
    table exactly when a row of that identifier exists and the payload holds
    the empty string as priority or as status, which [validateTask] lets
    through. *)
Theorem updateTask_hits_a_constraint_iff (t taskId : Z) (updates : gmap string value)
    (now : Z) (this : Store.TaskDatabase) :
  Store.reachable Date_parse_isNaN t this →
  Store.isConnected this = true →
  Store.validateTask Date_parse_isNaN updates = [] →
  (∃ msg, (Store.updateTask Date_parse_isNaN taskId updates now this).1
          = Reject (SQLITE_CONSTRAINT msg))
  ↔ (∃ r, r ∈ Store.rows this ∧ task_id r = taskId)
    ∧ (get updates "priority" = Str "" ∨ get updates "status" = Str "").
Proof.
  intros [_ Hrest]%reachable_at_rest Hc Hv.
  destruct (validateTask_passes _ _ Hv) as (s0 & Ht0 & _ & _ & Hp & Hs).
  destruct (updateTask_valid _ taskId updates now this Hc Hv) as (s & Ht & _ & _ & ->).
  assert (∀ r, r ∈ Store.rows this →
            check_constraints (Effects.updated_row updates s now r) = false
            ↔ get updates "priority" = Str "" ∨ get updates "status" = Str "") as Hcheck.
  { intros r Hr. rewrite Forall_forall in Hrest.
    destruct (Hrest r Hr) as (_ & _ & _ & Hpr & Hst & _).
    unfold check_constraints. cbn [Effects.updated_row priority status].
    rewrite andb_false_iff.
    rewrite (column_checked "priority" _ updates (priority r));
      [|by rewrite !elem_of_cons, elem_of_nil; intros [|[|[|]]]|done..].
    rewrite (column_checked "status" _ updates (status r));
      [|by rewrite !elem_of_cons, elem_of_nil; intros [|[|]]|done..].
    done. }
  destruct (mapM _ (Store.rows this)) as [rows'|] eqn:M.
  - split.
    + intros [msg E]. cbv zeta in E. cbn [fst] in E. by destruct (_ =? 0).
    + intros [(r & Hr & Hid) Hempty]. exfalso.
      assert (mapM (Effects.update_step updates s taskId now) (Store.rows this) = None)
        as M'; [|congruence].
      apply mapM_None. exists r. split; [done|].
      unfold Effects.update_step. rewrite bool_decide_eq_true_2 by done.
      apply (Hcheck r Hr) in Hempty. by rewrite Hempty.
  - apply mapM_None in M as (r & Hr & Hstep). split; [|by eauto].
    intros _. unfold Effects.update_step in Hstep.
    case_bool_decide as Hid; [|done].
    destruct (check_constraints _) eqn:C; [done|].
    split; [by eauto|]. by apply (Hcheck r Hr).
Qed.

End Constraints.

(* ===================================================================== *)
(** ** Laws of the queries *)
(* ===================================================================== *)

Section QueryLaws.

Variable Date_parse_isNaN : string → bool.


Lemma like_skip (p s : string) (d : ascii) :
  SQL.like_match p s = true → SQL.like_match (String "%" p) (String d s) = true.
Proof.
  intros H. rewrite like_percent. apply orb_true_iff. right.
  rewrite like_percent, H. reflexivity.
Qed.

Lemma like_covers_prefix (t s : string) :
  Search.prefix_ci t s = true → SQL.like_match (t +:+ "%") s = true.
Proof.
  revert s. induction t as [|c t IH]; intros s; [intros _; apply like_any|].
  destruct s as [|d s]; [done|]. cbn [Search.prefix_ci].
  intros [E H%IH]%andb_true_iff.
  change (String c t +:+ "%") with (String c (t +:+ "%")).
  destruct (Ascii.eqb c "%") eqn:P.
  - apply Ascii.eqb_eq in P as ->. by apply like_skip.
  - cbn [SQL.like_match]. rewrite P, E, H. by rewrite orb_true_r.
Qed.

Lemma like_covers (t s : string) :
  Search.contains_ci t s = true → SQL.like_match ("%" +:+ t +:+ "%") s = true.
Proof.
  change ("%" +:+ t +:+ "%") with (String "%" (t +:+ "%")).
  induction s as [|d s IH]; cbn [Search.contains_ci]; rewrite like_percent.
  - rewrite orb_false_r. intros H%like_covers_prefix. by rewrite H.
  - intros [H%like_covers_prefix|H%IH]%orb_true_iff; [by rewrite H|].
    rewrite H. apply orb_true_r.
Qed.

(** X12.  With or without wildcards in the term, [searchTasks] on a
    connected store resolves for a term that, trimmed, is not empty, holds
    no U+0000 and is at most 49998 bytes long in UTF-8, no stored title or
    description holding U+0000; its result holds every stored row whose title or description contains the
    trimmed term (the case of ASCII letters apart), holds stored rows only,
    and is ordered by [created_at] descending. *)
Theorem searchTasks_never_misses_an_occurrence (s : string) (this : Store.TaskDatabase) :
  Store.isConnected this = true → trim s ≠ "" →
  Domain.term_accepted (trim s) = true →
  Domain.texts_read_whole (Store.rows this) = true →
  ∃ l, Store.searchTasks (Str s) this = Resolve l
     ∧ (∀ r, r ∈ Store.rows this → Search.found (trim s) r = true → r ∈ l)
     ∧ (∀ r, r ∈ l → r ∈ Store.rows this)
     ∧ StronglySorted (λ a b, created_at b ≤ created_at a) l.
Proof.
  intros Hc Hs _ _. unfold Store.searchTasks. rewrite Hc. cbn [negb].
  assert (s ≠ "") as Hs' by (by intros ->).
  rewrite length_zero, (bool_decide_eq_false_2 _ Hs). cbn [truthy].
  apply String.eqb_neq in Hs'. rewrite Hs'. cbn [negb orb].
  eexists. split; [reflexivity|].
  match goal with
  | |- context [SQL.order_by_desc created_at ?x] =>
      destruct (order_by_desc_sorted created_at x) as [S P]
  end.
  split; [|split; [|exact S]].
  - intros r Hr Hf. rewrite P. apply list_elem_of_In, filter_In.
    split; [by apply list_elem_of_In|].
    unfold Search.found in Hf. unfold SQL.like.
    apply orb_true_iff in Hf as [Hf|Hf].
    + rewrite (like_covers _ _ Hf). by destruct (description r).
    + destruct (description r) as [d|]; [|done]. rewrite (like_covers _ _ Hf).
      by destruct (SQL.like_match _ (title r)).
  - intros r Hr. rewrite P in Hr.
    apply list_elem_of_In, filter_In in Hr as [Hr _]. by apply list_elem_of_In.
Qed.

Lemma count_case_when (c : task → option string) (k : string) (l : list task) :
  foldr Z.add 0 ((λ r, SQL.case_when (SQL.eq (c r) (Some k))) <$> l)
  = Z.of_nat (List.length (List.filter (λ r, bool_decide (c r = Some k)) l)).
Proof.
  induction l as [|r l IH]; [done|]. cbn [fmap list_fmap foldr List.filter].
  fold ((λ r, SQL.case_when (SQL.eq (c r) (Some k))) <$> l). rewrite IH.
  destruct (c r) as [x|]; unfold SQL.case_when at 1, SQL.eq, SQL.holds.
  - destruct (String.eqb x k) eqn:E.
    + apply String.eqb_eq in E as ->.
      rewrite bool_decide_eq_true_2 by done. cbn [List.length]. lia.
    + apply String.eqb_neq in E.
      rewrite bool_decide_eq_false_2 by congruence. lia.
  - rewrite bool_decide_eq_false_2 by done. lia.
Qed.

Lemma status_partition (l : list task) :
  Forall Effects.row_at_rest l →
  (List.length (List.filter (λ r, bool_decide (status r = Some "pending")) l)
   + List.length (List.filter (λ r, bool_decide (status r = Some "completed")) l)
   + List.length (List.filter (λ r, bool_decide (status r = None)) l)
   = List.length l)%nat.
Proof.
  induction 1 as [|r l (_ & _ & _ & _ & Hs & _) _ IH]; [done|].
  cbn [List.filter].
  assert (status r = None ∨ status r = Some "pending" ∨ status r = Some "completed")
    as [-> | [-> | ->]].
  { destruct Hs as [->|(s & -> & Hs)]; [by left|]. right.
    apply elem_of_cons in Hs as [->|Hs]; [by left|].
    apply elem_of_cons in Hs as [->|Hs]; [by right|]. by apply elem_of_nil in Hs. }
  all: repeat case_bool_decide; try done; cbn [List.length]; lia.
Qed.

(** X13.  In a connected store reached from an empty one, [getTaskStats]
    accounts for every row: [pending_tasks], [completed_tasks] and the
    number of rows whose status is NULL add up to [total_tasks] (a NULL sum
    counting as 0), and [high_priority_tasks] and [due_today] are the numbers
    of rows with priority "high" and with the due date of today. *)
Theorem getTaskStats_accounts_for_every_row (t : Z) (today : string)
    (this : Store.TaskDatabase) :
  Store.reachable Date_parse_isNaN t this →
  Store.isConnected this = true →
  ∃ st, Store.getTaskStats today this = Resolve st
    ∧ ToNumber (Store.pending_tasks st) + ToNumber (Store.completed_tasks st)
      + Z.of_nat (List.length
          (List.filter (λ r, bool_decide (status r = None)) (Store.rows this)))
      = Store.total_tasks st
    ∧ ToNumber (Store.high_priority_tasks st)
      = Z.of_nat (List.length
          (List.filter (λ r, bool_decide (priority r = Some "high")) (Store.rows this)))
    ∧ ToNumber (Store.due_today st)
      = Z.of_nat (List.length
          (List.filter (λ r, bool_decide (due_date r = Some today)) (Store.rows this))).
Proof.
  intros [_ Hr]%reachable_at_rest Hc. unfold Store.getTaskStats. rewrite Hc.
  cbn [negb]. eexists. split; [reflexivity|].
  cbn [Store.total_tasks Store.pending_tasks Store.completed_tasks
       Store.high_priority_tasks Store.due_today].
  rewrite !ToNumber_sum, !count_case_when. split; [|done].
  unfold SQL.count. pose proof (status_partition _ Hr). lia.
Qed.

End QueryLaws.

(* ===================================================================== *)
(** ** Identifiers across the adapter *)
(* ===================================================================== *)

Section Identifiers.

Lemma digit_of_char (d : N) :
  (d < 10)%N → Builtins.digit_value 10 (pretty_N_char d) = Some d.
Proof.
  intros H.
  assert (d = 0 ∨ d = 1 ∨ d = 2 ∨ d = 3 ∨ d = 4 ∨ d = 5 ∨ d = 6 ∨ d = 7
          ∨ d = 8 ∨ d = 9)%N as Hd by lia.
  repeat (destruct Hd as [->|Hd]; [reflexivity|]). by subst d.
Qed.

Lemma append_nil (s : string) : "" +:+ s = s.
Proof. reflexivity. Qed.

Lemma append_cons (a : ascii) (s t : string) : String a s +:+ t = String a (s +:+ t).
Proof. reflexivity. Qed.

Lemma append_nil_r (s : string) : s +:+ "" = s.
Proof. induction s as [|a s IH]; [done|]. by rewrite append_cons, IH. Qed.

Lemma all_decimal_snoc (ds : string) (c : ascii) (d : N) :
  Builtins.all_decimal ds = true → Builtins.digit_value 10 c = Some d →
  Builtins.all_decimal (ds +:+ String c "") = true.
Proof.
  intros H Hc. induction ds as [|a ds IH].
  - rewrite append_nil. cbn [Builtins.all_decimal]. by rewrite Hc.
  - rewrite append_cons. cbn [Builtins.all_decimal] in *.
    destruct (Builtins.digit_value 10 a); [by apply IH|done].
Qed.

Lemma app_snoc (ds : string) (c : ascii) (s : string) :
  (ds +:+ String c "") +:+ s = ds +:+ String c s.
Proof.
  induction ds as [|a ds IH]; [done|]. by rewrite !append_cons, IH.
Qed.

(** The digits [pretty] writes, read back. *)
Lemma pretty_N_go_read (x : N) (s : string) :
  ∃ ds, pretty_N_go x s = ds +:+ s
      ∧ Builtins.all_decimal ds = true
      ∧ ((0 < x)%N → ds ≠ "")
      ∧ ∃ k, ∀ acc rest,
          Builtins.digits_from 10 acc (ds +:+ rest)
          = Builtins.digits_from 10 (acc * 10 ^ k + x)%N rest.
Proof.
  revert s. induction (N.lt_wf_0 x) as [x _ IH]. intros s.
  destruct (decide (0 < x)%N) as [Hx|Hx].
  - rewrite pretty_N_go_step by done.
    destruct (IH (x `div` 10)%N (N.div_lt x 10 Hx eq_refl)
                 (String (pretty_N_char (x `mod` 10)) s))
      as (ds & E & Hd & _ & k & Hk).
    assert (Hm : (x `mod` 10 < 10)%N) by (by apply N.mod_lt).
    exists (ds +:+ String (pretty_N_char (x `mod` 10)) "").
    rewrite app_snoc. split; [exact E|]. split.
    { eapply all_decimal_snoc; [exact Hd|by apply digit_of_char]. }
    split; [intros _; by destruct ds|].
    exists (k + 1)%N. intros acc rest. rewrite app_snoc, Hk.
    cbn [Builtins.digits_from]. rewrite digit_of_char by done. f_equal.
    rewrite N.pow_add_r, N.pow_1_r.
    pose proof (N.div_mod x 10 ltac:(done)). lia.
  - assert (x = 0%N) as -> by lia. rewrite pretty_N_go_0.
    exists "". split; [done|]. split; [done|]. split; [lia|].
    exists 0%N. intros acc rest. rewrite append_nil. f_equal. lia.
Qed.

Lemma decimal_head (ds : string) :
  Builtins.all_decimal ds = true → ds ≠ "" →
  ∃ c r d, ds = String c r ∧ Builtins.digit_value 10 c = Some d
         ∧ Builtins.all_decimal r = true.
Proof.
  destruct ds as [|c r]; [done|]. cbn [Builtins.all_decimal].
  destruct (Builtins.digit_value 10 c) as [d|] eqn:E; [|done].
  intros H _. by exists c, r, d.
Qed.

Lemma decimal_digit_char (c : ascii) (d : N) :
  Builtins.digit_value 10 c = Some d →
  is_white_space c = false ∧ c ≠ "-"%char ∧ c ≠ "+"%char
  ∧ c ≠ "x"%char ∧ c ≠ "X"%char.
Proof.
  unfold Builtins.digit_value.
  destruct (((48 <=? N_of_ascii c) && (N_of_ascii c <=? 57))%N) eqn:R.
  - intros _. apply andb_true_iff in R as [R1%N.leb_le R2%N.leb_le].
    assert (∀ a : ascii, (N_of_ascii a < 48)%N ∨ (57 < N_of_ascii a)%N → c ≠ a)
      as Hne by (intros a Ha ->; lia).
    split.
    + destruct (is_white_space c) eqn:W; [|done]. exfalso.
      unfold is_white_space in W.
      destruct c as [[] [] [] [] [] [] [] []]; cbn in W; try discriminate;
        cbn in R1, R2; lia.
    + repeat split; apply Hne; cbn; lia.
  - destruct ((97 <=? _) && _)%N eqn:R2.
    + destruct (_ <? 10)%N eqn:L; [|done].
      apply andb_true_iff in R2 as [R2%N.leb_le _]. apply N.ltb_lt in L. lia.
    + destruct ((65 <=? _) && _)%N eqn:R3; [|done].
      destruct (_ <? 10)%N eqn:L; [|done].
      apply andb_true_iff in R3 as [R3%N.leb_le _]. apply N.ltb_lt in L. lia.
Qed.

(** [parseInt] reads a run of decimal digits, with or without a minus sign,
    as the number it writes. *)
Lemma parseInt_decimal (ds : string) :
  Builtins.all_decimal ds = true → ds ≠ "" →
  Builtins.parseInt ds = Some (Z.of_N (Builtins.digits_from 10 0 ds))
  ∧ Builtins.parseInt ("-" +:+ ds) = Some (- Z.of_N (Builtins.digits_from 10 0 ds)).
Proof.
  intros Hd Hn. destruct (decimal_head ds Hd Hn) as (c & r & d & -> & Hc & Hr).
  destruct (decimal_digit_char c d Hc) as (W & Hm & Hp & Hx & HX).
  assert (Hhex : match String c r with
                 | String "0" (String "x" r') => (16%N, r')
                 | String "0" (String "X" r') => (16%N, r')
                 | _ => (10%N, String c r)
                 end = (10%N, String c r)).
  { destruct r as [|c' r']; [by repeat case_match|].
    cbn [Builtins.all_decimal] in Hr.
    destruct (Builtins.digit_value 10 c') as [d'|] eqn:Hc'; [|done].
    destruct (decimal_digit_char c' d' Hc') as (_ & _ & _ & Hx' & HX').
    repeat case_match; simplify_eq; done. }
  split.
  - unfold Builtins.parseInt. cbn [trimStart]. rewrite W.
    assert (match String c r with
            | String "-" r' => (true, r')
            | String "+" r' => (false, r')
            | _ => (false, String c r)
            end = (false, String c r)) as ->.
    { repeat case_match; simplify_eq; done. }
    rewrite Hhex, Hc. reflexivity.
  - unfold Builtins.parseInt. rewrite append_cons, append_nil.
    cbn [trimStart is_white_space]. rewrite Hhex, Hc. reflexivity.
Qed.

Lemma parseInt_pretty (n : Z) : Builtins.parseInt (pretty n) = Some n.
Proof.
  assert (Hpos : ∀ p, ∃ ds, pretty (N.pos p) = ds
                          ∧ Builtins.all_decimal ds = true ∧ ds ≠ ""
                          ∧ Builtins.digits_from 10 0 ds = N.pos p).
  { intros p. unfold pretty, pretty_N. rewrite decide_False by done.
    destruct (pretty_N_go_read (N.pos p) "") as (ds & E & Hd & Hn & k & Hk).
    exists (pretty_N_go (N.pos p) ""). rewrite E.
    pose proof (append_nil_r ds) as Hds. rewrite Hds. split; [done|]. split; [done|]. split; [by apply Hn|].
    specialize (Hk 0%N ""). rewrite Hds in Hk. rewrite Hk. cbn. lia. }
  destruct n as [|p|p].
  - reflexivity.
  - destruct (Hpos p) as (ds & E & Hd & Hn & Hv).
    change (pretty (Z.pos p)) with (pretty (N.pos p)). rewrite E.
    destruct (parseInt_decimal ds Hd Hn) as [-> _]. by rewrite Hv.
  - destruct (Hpos p) as (ds & E & Hd & Hn & Hv).
    change (pretty (Z.neg p)) with ("-" +:+ pretty (N.pos p)). rewrite E.
    destruct (parseInt_decimal ds Hd Hn) as [_ ->]. by rewrite Hv.
Qed.

Lemma strip_prefix_app (p s : string) : Builtins.strip_prefix p (p +:+ s) = Some s.
Proof.
  induction p as [|a p IH]; [by destruct s|].
  rewrite append_cons. cbn [Builtins.strip_prefix]. by rewrite Ascii.eqb_refl.
Qed.

Lemma replace_prefix (p s : string) : Builtins.replace_with_empty p (p +:+ s) = s.
Proof.
  destruct (p +:+ s) eqn:E; cbn [Builtins.replace_with_empty];
    rewrite <- E, strip_prefix_app; reflexivity.
Qed.

(** X14.  The identifier the adapter gives out for a row leads back to the
    row: from ["task-" + task_id], the adapter's [replace] and [parseInt]
    recover [task_id] (for identifiers within the exact range of JavaScript
    numbers). *)
Theorem adapter_identifier_round_trip (datetime_text : Z → string) (iso : string)
    (r : task) :
  - 2 ^ 53 < task_id r < 2 ^ 53 →
  ∃ id, get (Integration.convertToProjectFlowFormat datetime_text iso r) "id" = Str id
      ∧ Builtins.parseInt (Builtins.replace_with_empty "task-" id) = Some (task_id r).
Proof.
  intros _. exists ("task-" +:+ pretty (task_id r)). split.
  - unfold Integration.convertToProjectFlowFormat, get. by simplify_map_eq.
  - rewrite replace_prefix. apply parseInt_pretty.
Qed.

End Identifiers.

(* ===================================================================== *)
(** ** Laws of the adapter *)
(* ===================================================================== *)

Section Adapter.

Variable Date_parse_isNaN : string → bool.
Variable datetime_text : Z → string.

Abbreviation PFI_sync := (ProjectFlowIntegration.syncToLocalStorage datetime_text).

Lemma matches_no_filter (r : task) : Queries.matches Filters.empty r = true.
Proof. reflexivity. Qed.

Lemma filter_all {A} (f : A → bool) (l : list A) :
  (∀ x, f x = true) → List.filter f l = l.
Proof.
  intros H. induction l as [|x l IH]; [done|]. cbn [List.filter]. by rewrite H, IH.
Qed.

Lemma getAllTasks_unfiltered (this : Store.TaskDatabase) :
  Store.isConnected this = true →
  Store.getAllTasks Filters.empty this
  = Resolve (SQL.order_by_desc created_at (Store.rows this)).
Proof.
  intros Hc. rewrite (getAllTasks_connected _ _ Hc). cbv zeta.
  change (Filters.limit Filters.empty) with (@None Z). cbv iota.
  by rewrite (filter_all _ _ matches_no_filter).
Qed.

Lemma getAllTasks_rejected (filters : Filters.t) (this : Store.TaskDatabase) e :
  Store.getAllTasks filters this = Reject e →
  Store.isConnected this = false ∧ e = Store.not_connected.
Proof.
  destruct (Store.isConnected this) eqn:Hc.
  - by rewrite (getAllTasks_connected _ _ Hc).
  - unfold Store.getAllTasks. rewrite Hc. by intros [= <-].
Qed.

(** [syncToLocalStorage] beside a connected store. *)
Lemma sync_connected (iso : nat → string) (st : ProjectFlowIntegration.state) :
  ProjectFlowIntegration.isInitialized st = true →
  Store.isConnected (ProjectFlowIntegration.db st) = true →
  PFI_sync iso st
  = (Resolve (ProjectFlowIntegration.convert_all datetime_text iso
                (SQL.order_by_desc created_at (Store.rows (ProjectFlowIntegration.db st)))),
     {| ProjectFlowIntegration.db := ProjectFlowIntegration.db st;
        ProjectFlowIntegration.isInitialized := true;
        ProjectFlowIntegration.projectflow_tasks :=
          Some (ProjectFlowIntegration.convert_all datetime_text iso
                  (SQL.order_by_desc created_at
                     (Store.rows (ProjectFlowIntegration.db st)))) |}).
Proof.
  intros Hi Hc. unfold ProjectFlowIntegration.syncToLocalStorage.
  by rewrite Hi, (getAllTasks_unfiltered _ Hc).
Qed.

Lemma convertToDbFormat_get (t : gmap string value) :
  get (Integration.convertToDbFormat t) "title" = get t "title"
  ∧ get (Integration.convertToDbFormat t) "description"
    = JS.or (get t "description") (Str "")
  ∧ get (Integration.convertToDbFormat t) "due_date" = JS.or (get t "dueDate") Null
  ∧ get (Integration.convertToDbFormat t) "priority"
    = JS.or (get t "priority") (Str "medium")
  ∧ get (Integration.convertToDbFormat t) "status"
    = if bool_decide (get t "status" = Str "completed")
      then Str "completed" else Str "pending".
Proof.
  unfold Integration.convertToDbFormat. unfold get at 1 3 5 7 9.
  repeat split; by simplify_map_eq.
Qed.

(** The columns a converted task puts into a row. *)
Lemma or_or_null (v : value) : Store.bind (JS.or (JS.or v (Str "")) Null) = Store.bind (JS.or v Null).
Proof. by destruct v as [| |[|a s]]. Qed.

Lemma or_or_default (v : value) (d : string) :
  d ≠ "" → JS.or (JS.or v (Str d)) (Str d) = JS.or v (Str d).
Proof. intros Hd. destruct v as [| |[|a s]]; try done; by destruct d. Qed.

Lemma with_db_same (st : ProjectFlowIntegration.state) :
  ProjectFlowIntegration.with_db st (ProjectFlowIntegration.db st) = st.
Proof. by destruct st. Qed.

(** What [createTask] writes for a converted task. *)
Lemma inserted_converted_row (projectFlowTask : gmap string value) (s : string)
    (lastID now : Z) :
  get (Integration.convertToDbFormat projectFlowTask) "title" = Str s →
  Snapshots.imported_as projectFlowTask
    (Effects.inserted_row (Integration.convertToDbFormat projectFlowTask) s lastID now).
Proof.
  intros Ht.
  destruct (convertToDbFormat_get projectFlowTask) as (Ht' & Hd & Hdd & Hp & Hs).
  unfold Snapshots.imported_as.
  cbn [Effects.inserted_row title status priority description due_date].
  rewrite Hd, Hdd, Hp, Hs. rewrite Ht' in Ht. repeat split.
  - by exists s.
  - by case_bool_decide.
  - by destruct (get projectFlowTask "priority") as [| |[|a x]].
  - apply or_or_null.
  - intros _. by destruct (get projectFlowTask "dueDate") as [| |[|a x]].
Qed.

(** X15.  The status rule of [validateTask] rejects no task that comes out
    of [convertToDbFormat], whatever the task holds.  When [createTask]
    resolves for a converted task, the row is stored with status "completed"
    when the ProjectFlow status is "completed" and "pending" for anything
    else (todo, in-progress, none), with the given priority or "medium",
    with the given description or NULL, and, the due date being absent or of
    the form [YYYY-MM-DD], with that due date or NULL. *)
Theorem converted_task_is_stored_with_defaults (projectFlowTask : gmap string value) :
  ("Status must be pending or completed"
     ∉ Store.validateTask Date_parse_isNaN (Integration.convertToDbFormat projectFlowTask))
  ∧ ∀ now iso1 iso2 this this' o,
      Store.createTask Date_parse_isNaN (Integration.convertToDbFormat projectFlowTask)
        now iso1 iso2 this = (Resolve o, this') →
      ∃ r, last (Store.rows this') = Some r
         ∧ status r = Some (if bool_decide (get projectFlowTask "status" = Str "completed")
                            then "completed" else "pending")
         ∧ priority r = Store.bind (JS.or (get projectFlowTask "priority") (Str "medium"))
         ∧ description r = Store.bind (JS.or (get projectFlowTask "description") Null)
         ∧ (Domain.date_value (get projectFlowTask "dueDate") = true →
            due_date r = Store.bind (JS.or (get projectFlowTask "dueDate") Null)).
Proof.
  split.
  - rewrite validateTask_rules. unfold Rules.rules. cbn [List.filter snd].
    assert (Rules.outside "status" ["pending"; "completed"]
              (Integration.convertToDbFormat projectFlowTask) = false) as ->.
    { unfold Rules.outside.
      destruct (convertToDbFormat_get projectFlowTask) as (_ & _ & _ & _ & ->).
      case_bool_decide; reflexivity. }
    destruct (Rules.title_blank _), (Rules.title_too_long _),
      (Rules.outside "priority" _ _), (Rules.bad_due_date _ _);
      cbn [fmap list_fmap fst];
      rewrite ?elem_of_cons, elem_of_nil; intros H;
      repeat (destruct H as [H|H]; [discriminate|]); exact H.
  - intros now iso1 iso2 this this' o E.
    pose proof E as [Hc Hv]%createTask_resolved.
    destruct (createTask_valid _ _ now iso1 iso2 this Hc Hv) as (s & Ht & E').
    rewrite E' in E. injection E as _ <-. cbn [Store.rows].
    eexists. split; [apply last_snoc|].
    by destruct (inserted_converted_row projectFlowTask s
                   (Store.sqlite_sequence this + 1) now Ht) as (_ & ? & ? & ? & ?).
Qed.


Lemma db_updateTask_resolved numericId dbUpdates now this this' res :
  ProjectFlowIntegration.db_updateTask Date_parse_isNaN numericId dbUpdates now this
    = (Resolve res, this') →
  Store.isConnected this' = true.
Proof.
  destruct numericId as [n|]; cbn [ProjectFlowIntegration.db_updateTask].
  - by intros (? & ? & ? & _ & _ & H & _)%updateTask_resolved_rows.
  - destruct (negb _); [done|]. by destruct (0 <? _).
Qed.

Lemma db_updateTask_rejected numericId dbUpdates now this this' e :
  ProjectFlowIntegration.db_updateTask Date_parse_isNaN numericId dbUpdates now this
    = (Reject e, this') →
  this' = this.
Proof.
  destruct numericId as [n|]; cbn [ProjectFlowIntegration.db_updateTask].
  - apply updateTask_rejected.
  - destruct (negb _); [by intros [= _ <-]|]. by destruct (0 <? _); intros [= _ <-].
Qed.

Lemma db_deleteTask_cases numericId this :
  (∃ e, ProjectFlowIntegration.db_deleteTask numericId this = (Reject e, this))
  ∨ (∃ res this', ProjectFlowIntegration.db_deleteTask numericId this = (Resolve res, this')
                  ∧ Store.isConnected this' = true).
Proof.
  destruct numericId as [n|]; cbn [ProjectFlowIntegration.db_deleteTask].
  - destruct (Store.deleteTask n this) as [[res|e] this'] eqn:E.
    + right. exists res, this'. split; [done|].
      unfold Store.deleteTask in E. destruct (Store.isConnected this) eqn:Hc; [|done].
      cbn [negb Store.run_delete] in E. destruct (_ =? 0); [done|]. by injection E as _ <-.
    + left. apply deleteTask_rejected in E as ->. by eexists.
  - left. destruct (negb _); by eexists.
Qed.

Lemma created_object_converts (iso_last : string) (dbTask : gmap string value)
    (lastID : Z) (iso1 iso2 : string) :
  dbTask !! "task_id" = None →
  ∃ result,
    ProjectFlowIntegration.convertToProjectFlowFormat_object iso_last
      (<["updated_at" := Store.Value (Str iso2)]>
       (<["created_at" := Store.Value (Str iso1)]>
       ((Store.Value <$> dbTask) ∪ {["task_id" := Store.Number lastID]})))
    = inr result
    ∧ result !! "id" = Some (Store.Value (Str ("task-" +:+ pretty lastID)))
    ∧ result !! "title" = Some (Store.Value (get dbTask "title"))
    ∧ result !! "projectId" = Some (Store.Value (Str "default-project"))
    ∧ result !! "status"
      = Some (Store.Value
                (if bool_decide (get dbTask "status" = Str "completed")
                 then Str "completed"
                 else if bool_decide (get dbTask "status" = Str "pending")
                 then Str "todo" else Str "in-progress")).
Proof.
  intros Hk. unfold ProjectFlowIntegration.convertToProjectFlowFormat_object.
  set (o := <["updated_at" := _]> _).
  assert (Hget : ∀ k, k ≠ "updated_at" → k ≠ "created_at" → k ≠ "task_id" →
                      ProjectFlowIntegration.get_field o k = Store.Value (get dbTask k)).
  { intros k H1 H2 H3. unfold ProjectFlowIntegration.get_field, o, get.
    rewrite !lookup_insert_ne by done.
    destruct (dbTask !! k) as [v|] eqn:E.
    - erewrite lookup_union_Some_l; [done|]. by rewrite lookup_fmap, E.
    - rewrite lookup_union_r by (by rewrite lookup_fmap, E).
      by rewrite lookup_singleton_ne. }
  assert (Hid : ProjectFlowIntegration.get_field o "task_id" = Store.Number lastID).
  { unfold ProjectFlowIntegration.get_field, o.
    rewrite !lookup_insert_ne by done.
    rewrite lookup_union_r by (by rewrite lookup_fmap, Hk).
    by rewrite lookup_singleton_eq. }
  assert (Hc : ProjectFlowIntegration.get_field o "created_at" = Store.Value (Str iso1)).
  { unfold ProjectFlowIntegration.get_field, o.
    rewrite lookup_insert_ne by done. by rewrite lookup_insert_eq. }
  rewrite Hc, Hid, !Hget by done.
  assert (∀ v w : value, bool_decide (Store.Value v = Store.Value w) = bool_decide (v = w))
    as Hdec by (intros v w; apply bool_decide_ext; split; congruence).
  rewrite !Hdec.
  destruct (ProjectFlowIntegration.field_truthy (Store.Value (Str iso1)));
    (eexists; split; [reflexivity|]);
    rewrite ?lookup_insert_eq;
    repeat split; simplify_map_eq; try done;
    by repeat case_bool_decide.
Qed.

(** X17.  After the adapter's [createTask], [updateTask] or [deleteTask]
    resolves, the item in [localStorage] mirrors the store as the call left
    it, whatever the item held before: it holds the conversion of every
    stored row, one entry for each row, a row that was created later coming
    first. *)
Theorem adapter_snapshot_mirrors_store (iso : nat → string)
    (st st' : ProjectFlowIntegration.state) :
  ((∃ taskData now iso1 iso2 iso_last result,
      ProjectFlowIntegration.createTask Date_parse_isNaN datetime_text taskData now
        iso1 iso2 iso iso_last st = (Resolve result, st'))
   ∨ (∃ taskId updates now result,
        ProjectFlowIntegration.updateTask Date_parse_isNaN datetime_text taskId updates
          now iso st = (Resolve result, st'))
   ∨ (∃ taskId result,
        ProjectFlowIntegration.deleteTask datetime_text taskId iso st
          = (Resolve result, st'))) →
  ∃ snapshot,
    ProjectFlowIntegration.projectflow_tasks st' = Some snapshot
    ∧ Snapshots.mirrors datetime_text iso
        (Store.rows (ProjectFlowIntegration.db st')) snapshot
    ∧ List.length snapshot = List.length (Store.rows (ProjectFlowIntegration.db st')).
Proof.
  intros H.
  assert (∃ db', Store.isConnected db' = true
                 ∧ ProjectFlowIntegration.isInitialized st = true
                 ∧ (PFI_sync iso (ProjectFlowIntegration.with_db st db')).2 = st')
    as (db' & Hc & Hi & <-).
  { destruct H as [(taskData & now & iso1 & iso2 & iso_last & result & E)
                  |[(taskId & updates & now & result & E)|(taskId & result & E)]].
    - unfold ProjectFlowIntegration.createTask in E.
      destruct (ProjectFlowIntegration.isInitialized st) eqn:Hi; [|done].
      cbn [negb] in E. cbv zeta in E.
      destruct (Store.createTask _ _ now iso1 iso2 _) as [[o|e] db'] eqn:C; [|done].
      pose proof C as [Hc Hv]%createTask_resolved.
      destruct (createTask_valid _ _ now iso1 iso2 _ Hc Hv) as (s & _ & C').
      assert (Store.isConnected db' = true) as Hc'
        by (rewrite C' in C; by injection C as _ <-).
      rewrite sync_connected in E by done.
      destruct (ProjectFlowIntegration.convertToProjectFlowFormat_object _ _); [done|].
      injection E as _ <-. exists db'. by rewrite sync_connected.
    - unfold ProjectFlowIntegration.updateTask in E.
      destruct (ProjectFlowIntegration.isInitialized st) eqn:Hi; [|done].
      cbn [negb] in E. cbv zeta in E.
      destruct (ProjectFlowIntegration.db_updateTask _ _ _ _ _) as [[res|e] db'] eqn:U;
        [|done].
      apply db_updateTask_resolved in U. rewrite sync_connected in E by done.
      injection E as _ <-. exists db'. by rewrite sync_connected.
    - unfold ProjectFlowIntegration.deleteTask in E.
      destruct (ProjectFlowIntegration.isInitialized st) eqn:Hi; [|done].
      cbn [negb] in E. cbv zeta in E.
      destruct (db_deleteTask_cases
                  (Builtins.parseInt (Builtins.replace_with_empty "task-" taskId))
                  (ProjectFlowIntegration.db st)) as [[e D]|(res & db' & D & Hc)];
        rewrite D in E; [done|].
      rewrite sync_connected in E by done.
      injection E as _ <-. exists db'. by rewrite sync_connected. }
  rewrite sync_connected by done. cbn [snd ProjectFlowIntegration.projectflow_tasks
    ProjectFlowIntegration.db ProjectFlowIntegration.with_db].
  destruct (order_by_desc_sorted created_at (Store.rows db')) as [S P].
  eexists. split; [reflexivity|]. split.
  - exists (SQL.order_by_desc created_at (Store.rows db')). by split.
  - unfold ProjectFlowIntegration.convert_all. rewrite length_imap. by rewrite P.
Qed.

Lemma import_rows (clock : nat → Z) (iso1 iso2 : nat → string)
    (tasks : list (gmap string value)) :
  ∀ (i : nat) (this : Store.TaskDatabase),
    Store.isConnected this = true →
    ∃ new,
      Store.rows (ProjectFlowIntegration.import Date_parse_isNaN clock iso1 iso2 i tasks this)
        = Store.rows this ++ new
      ∧ Forall2 Snapshots.imported_as
          (List.filter (Snapshots.importable Date_parse_isNaN) tasks) new
      ∧ (∀ k r, new !! k = Some r →
                task_id r = Store.sqlite_sequence this + 1 + Z.of_nat k).
Proof.
  induction tasks as [|task tasks IH]; intros i this Hc.
  - exists []. split; [by rewrite app_nil_r|]. split; [constructor|done].
  - cbn [ProjectFlowIntegration.import List.filter]. unfold Snapshots.importable at 1.
    destruct (bool_decide_reflect
                (Store.validateTask Date_parse_isNaN (Integration.convertToDbFormat task) = []))
      as [Hv|Hv].
    + destruct (createTask_valid Date_parse_isNaN _ (clock i) (iso1 i) (iso2 i) this Hc Hv)
        as (s & Ht & ->). cbn [snd].
      match goal with
      | |- context [ProjectFlowIntegration.import _ _ _ _ _ _ ?db] =>
          destruct (IH (S i) db eq_refl) as (new & E & F & Hid)
      end.
      cbn [Store.rows Store.sqlite_sequence] in E, Hid.
      eexists (_ :: new). split; [by rewrite E, <- app_assoc|].
      split; [constructor; [by apply inserted_converted_row|exact F]|].
      intros [|k] r; cbn [lookup list_lookup].
      * intros [= <-]. cbn [Effects.inserted_row task_id]. lia.
      * intros Hk. apply Hid in Hk. lia.
    + destruct (Store.createTask _ _ (clock i) (iso1 i) (iso2 i) this)
        as [[o|e] this'] eqn:E.
      * by apply createTask_resolved in E as [_ ?].
      * apply createTask_rejected in E as ->. cbn [snd]. by apply IH.
Qed.

(** X18.  On an initialized adapter beside a connected store, when the item
    in [localStorage] is the JSON text of an array of task objects,
    [syncFromLocalStorage] resolves and leaves the item as it was.  It
    appends one row for each entry whose converted payload [validateTask]
    accepts, in the order of the entries, and skips the others.  Each
    appended row holds the trimmed title of its entry, the status
    "completed" or "pending", the priority or "medium", the description or
    NULL and the due date or NULL, under the identifiers that follow the
    counter of the store. *)
Theorem syncFromLocalStorage_appends_the_valid_entries (clock : nat → Z)
    (iso1 iso2 : nat → string) (st : ProjectFlowIntegration.state)
    (tasks : list (gmap string value)) :
  ProjectFlowIntegration.isInitialized st = true →
  Store.isConnected (ProjectFlowIntegration.db st) = true →
  ProjectFlowIntegration.projectflow_tasks st = Some tasks →
  ∃ st' new,
    ProjectFlowIntegration.syncFromLocalStorage Date_parse_isNaN clock iso1 iso2 st
      = (Resolve tt, st')
    ∧ ProjectFlowIntegration.projectflow_tasks st' = Some tasks
    ∧ Store.rows (ProjectFlowIntegration.db st')
      = Store.rows (ProjectFlowIntegration.db st) ++ new
    ∧ Forall2 Snapshots.imported_as
        (List.filter (Snapshots.importable Date_parse_isNaN) tasks) new
    ∧ (∀ k r, new !! k = Some r →
              task_id r
              = Store.sqlite_sequence (ProjectFlowIntegration.db st) + 1 + Z.of_nat k).
Proof.
  intros Hi Hc Ht. unfold ProjectFlowIntegration.syncFromLocalStorage.
  rewrite Hi, Ht. cbn [negb].
  destruct (import_rows clock iso1 iso2 tasks 0 _ Hc) as (new & E & F & Hid).
  eexists _, new. split; [reflexivity|].
  cbn [ProjectFlowIntegration.with_db ProjectFlowIntegration.projectflow_tasks
       ProjectFlowIntegration.db]. done.
Qed.

(** X19.  When the call that the adapter makes on the store rejects, the
    adapter's [createTask], [updateTask] or [deleteTask] rejects with the
    same error before [localStorage] is touched, and both the store and the
    item are left exactly as they were. *)
Theorem store_rejections_pass_through_the_adapter (st : ProjectFlowIntegration.state) e :
  ProjectFlowIntegration.isInitialized st = true →
  (∀ taskData now iso1 iso2 iso iso_last db',
     Store.createTask Date_parse_isNaN (Integration.convertToDbFormat taskData)
       now iso1 iso2 (ProjectFlowIntegration.db st) = (Reject e, db') →
     ProjectFlowIntegration.createTask Date_parse_isNaN datetime_text taskData now
       iso1 iso2 iso iso_last st = (Reject e, st))
  ∧ (∀ taskId updates now iso db',
       ProjectFlowIntegration.db_updateTask Date_parse_isNaN
         (Builtins.parseInt (Builtins.replace_with_empty "task-" taskId))
         (Integration.convertToDbFormat updates) now (ProjectFlowIntegration.db st)
       = (Reject e, db') →
       ProjectFlowIntegration.updateTask Date_parse_isNaN datetime_text taskId updates
         now iso st = (Reject e, st))
  ∧ (∀ taskId iso db',
       ProjectFlowIntegration.db_deleteTask
         (Builtins.parseInt (Builtins.replace_with_empty "task-" taskId))
         (ProjectFlowIntegration.db st) = (Reject e, db') →
       ProjectFlowIntegration.deleteTask datetime_text taskId iso st = (Reject e, st)).
Proof.
  intros Hi. split; [|split].
  - intros taskData now iso1 iso2 iso iso_last db' C.
    unfold ProjectFlowIntegration.createTask. rewrite Hi. cbn [negb]. cbv zeta.
    rewrite C. apply createTask_rejected in C as ->. by rewrite with_db_same.
  - intros taskId updates now iso db' U.
    unfold ProjectFlowIntegration.updateTask. rewrite Hi. cbn [negb]. cbv zeta.
    rewrite U. apply db_updateTask_rejected in U as ->. by rewrite with_db_same.
  - intros taskId iso db' D.
    unfold ProjectFlowIntegration.deleteTask. rewrite Hi. cbn [negb]. cbv zeta.
    rewrite D.
    destruct (db_deleteTask_cases
                (Builtins.parseInt (Builtins.replace_with_empty "task-" taskId))
                (ProjectFlowIntegration.db st)) as [[e' D']|(res & db'' & D' & _)];
      rewrite D' in D; [|done].
    injection D as _ <-. by rewrite with_db_same.
Qed.

(** X20.  The adapter's [updateTask] needs the title every time: with
    [updates] whose title is missing or blank it rejects with a validation
    error that names the title, whatever the identifier and whatever else
    [updates] holds, and changes nothing. *)
Theorem adapter_updateTask_needs_the_title (taskId : string)
    (updates : gmap string value) (now : Z) (iso : nat → string)
    (st : ProjectFlowIntegration.state) :
  ProjectFlowIntegration.isInitialized st = true →
  Store.isConnected (ProjectFlowIntegration.db st) = true →
  Rules.title_blank updates = true →
  ∃ errors,
    ProjectFlowIntegration.updateTask Date_parse_isNaN datetime_text taskId updates
      now iso st
    = (Reject (Error ("Validation failed: " +:+ join ", " errors)), st)
    ∧ "Title is required" ∈ errors.
Proof.
  intros Hi Hc Hb.
  set (dbUpdates := Integration.convertToDbFormat updates).
  assert (Rules.title_blank dbUpdates = true) as Hb'.
  { unfold Rules.title_blank in *. unfold dbUpdates.
    by destruct (convertToDbFormat_get updates) as (-> & _). }
  assert (He : "Title is required" ∈ Store.validateTask Date_parse_isNaN dbUpdates).
  { rewrite validateTask_rules. unfold Rules.rules. cbn [List.filter snd].
    rewrite Hb'. cbn [fmap list_fmap fst]. left. }
  exists (Store.validateTask Date_parse_isNaN dbUpdates). split; [|exact He].
  unfold ProjectFlowIntegration.updateTask. rewrite Hi. cbn [negb]. cbv zeta.
  fold dbUpdates.
  assert (∀ numericId,
            ProjectFlowIntegration.db_updateTask Date_parse_isNaN numericId dbUpdates now
              (ProjectFlowIntegration.db st)
            = (Reject (Store.validation_failed (Store.validateTask Date_parse_isNaN dbUpdates)),
               ProjectFlowIntegration.db st)) as ->.
  { intros [n|]; cbn [ProjectFlowIntegration.db_updateTask]; [unfold Store.updateTask|];
      rewrite Hc, some_errors; cbn [negb];
      rewrite bool_decide_eq_false_2; try done;
      intros E; rewrite E in He; by apply elem_of_nil in He. }
  by rewrite with_db_same.
Qed.

(** X21.  When the adapter's [createTask] resolves, the object it returns
    names the new row: its [id] is ["task-"] followed by the identifier the
    store assigned, its [projectId] is "default-project", its status is
    "completed" or "todo", and its title is the title as given, not
    trimmed. *)
Theorem adapter_createTask_returns_the_new_task (taskData : gmap string value)
    (now : Z) (iso1 iso2 : string) (iso : nat → string) (iso_last : string)
    (st st' : ProjectFlowIntegration.state) result :
  ProjectFlowIntegration.createTask Date_parse_isNaN datetime_text taskData now
    iso1 iso2 iso iso_last st = (Resolve result, st') →
  result !! "id"
    = Some (Store.Value
              (Str ("task-" +:+ pretty (Store.sqlite_sequence (ProjectFlowIntegration.db st) + 1))))
  ∧ (∃ r, last (Store.rows (ProjectFlowIntegration.db st')) = Some r
        ∧ task_id r = Store.sqlite_sequence (ProjectFlowIntegration.db st) + 1)
  ∧ result !! "projectId" = Some (Store.Value (Str "default-project"))
  ∧ result !! "status"
    = Some (Store.Value (if bool_decide (get taskData "status" = Str "completed")
                         then Str "completed" else Str "todo"))
  ∧ result !! "title" = Some (Store.Value (get taskData "title")).
Proof.
  unfold ProjectFlowIntegration.createTask.
  destruct (ProjectFlowIntegration.isInitialized st) eqn:Hi; [|done].
  cbn [negb]. cbv zeta.
  destruct (Store.createTask _ _ now iso1 iso2 _) as [[o|e] db'] eqn:C; [|done].
  pose proof C as [Hc Hv]%createTask_resolved.
  destruct (createTask_valid _ _ now iso1 iso2 _ Hc Hv) as (s & _ & C').
  rewrite C' in C. injection C as <- <-.
  rewrite sync_connected by done.
  destruct (created_object_converts iso_last (Integration.convertToDbFormat taskData)
              (Store.sqlite_sequence (ProjectFlowIntegration.db st) + 1) iso1 iso2)
    as (res & -> & Hid & Htitle & Hproj & Hstatus).
  { unfold Integration.convertToDbFormat. by simplify_map_eq. }
  intros [= <- <-]. cbn [ProjectFlowIntegration.db ProjectFlowIntegration.with_db Store.rows].
  destruct (convertToDbFormat_get taskData) as (Ht & _ & _ & _ & Hs).
  rewrite Ht in Htitle. rewrite Hs in Hstatus.
  split; [exact Hid|]. split; [eexists; split; [apply last_snoc|done]|].
  split; [exact Hproj|]. split; [|exact Htitle].
  rewrite Hstatus. by case_bool_decide.
Qed.

End Adapter.

(* ===================================================================== *)
(** ** What the adapter lists *)
(* ===================================================================== *)

Section AdapterQueries.

Variable Date_parse_isNaN : string → bool.
Variable datetime_text : Z → string.






Lemma lookup_get_field (o : gmap string Store.field) (k : string) (f : Store.field) :
  o !! k = Some f → ProjectFlowIntegration.get_field o k = f.
Proof. unfold ProjectFlowIntegration.get_field. by intros ->. Qed.

(** X23.  On the object the driver hands over for a stored row,
    [convertToProjectFlowFormat] does not throw, NULL columns included, and
    what it returns is the conversion of the row, property by property; the
    clock is read for [createdDate] only when the stored text of
    [created_at] is empty. *)
Theorem convertToProjectFlowFormat_on_rows (iso : string) (r : task) :
  ProjectFlowIntegration.convertToProjectFlowFormat_object iso
    (ProjectFlowIntegration.row_object datetime_text r)
  = inr (Store.Value <$> Integration.convertToProjectFlowFormat datetime_text iso r).
Proof.
  unfold ProjectFlowIntegration.convertToProjectFlowFormat_object.
  rewrite (lookup_get_field _ "created_at" (Store.Value (Str (datetime_text (created_at r)))))
    by (unfold ProjectFlowIntegration.row_object; by simplify_map_eq).
  rewrite (lookup_get_field _ "task_id" (Store.Number (task_id r)))
    by (unfold ProjectFlowIntegration.row_object; by simplify_map_eq).
  rewrite (lookup_get_field _ "title" (Store.Value (Str (title r))))
    by (unfold ProjectFlowIntegration.row_object; by simplify_map_eq).
  rewrite (lookup_get_field _ "description"
             (Store.Value (Integration.column_value (description r))))
    by (unfold ProjectFlowIntegration.row_object; by simplify_map_eq).
  rewrite (lookup_get_field _ "due_date"
             (Store.Value (Integration.column_value (due_date r))))
    by (unfold ProjectFlowIntegration.row_object; by simplify_map_eq).
  rewrite (lookup_get_field _ "priority"
             (Store.Value (Integration.column_value (priority r))))
    by (unfold ProjectFlowIntegration.row_object; by simplify_map_eq).
  rewrite (lookup_get_field _ "status"
             (Store.Value (Integration.column_value (status r))))
    by (unfold ProjectFlowIntegration.row_object; by simplify_map_eq).
  unfold Integration.convertToProjectFlowFormat.
  cbn [ProjectFlowIntegration.field_truthy ProjectFlowIntegration.ToString].
  rewrite !fmap_insert, fmap_empty.
  assert (∀ v, (if truthy v then Store.Value v else Store.Value (Str ""))
               = Store.Value (JS.or v (Str ""))) as D
    by (intros v; unfold JS.or; by destruct (truthy v)).
  assert (∀ v, (if bool_decide (Store.Value v = Store.Value (Str "completed"))
                then Store.Value (Str "completed")
                else if bool_decide (Store.Value v = Store.Value (Str "pending"))
                then Store.Value (Str "todo") else Store.Value (Str "in-progress"))
               = Store.Value (if bool_decide (v = Str "completed") then Str "completed"
                              else if bool_decide (v = Str "pending")
                              then Str "todo" else Str "in-progress")) as S
    by (intros v; repeat case_bool_decide; congruence).
  rewrite D, S. by destruct (truthy (Str (datetime_text (created_at r)))).
Qed.

(** X24.  After the adapter's [close()] every operation of the adapter
    rejects with "Database not initialized" and touches neither the store
    nor the snapshot; closing loses no row and leaves the snapshot in
    [localStorage] as it was. *)
Theorem closed_adapter_rejects_every_call (st : ProjectFlowIntegration.state) :
  let closed := ProjectFlowIntegration.close st in
  let e := Error "Database not initialized" in
  (∀ taskData now iso1 iso2 iso iso_last,
     ProjectFlowIntegration.createTask Date_parse_isNaN datetime_text taskData now
       iso1 iso2 iso iso_last closed = (Reject e, closed))
  ∧ (∀ taskId updates now iso,
       ProjectFlowIntegration.updateTask Date_parse_isNaN datetime_text taskId updates
         now iso closed = (Reject e, closed))
  ∧ (∀ taskId iso,
       ProjectFlowIntegration.deleteTask datetime_text taskId iso closed
       = (Reject e, closed))
  ∧ (∀ clock iso1 iso2,
       ProjectFlowIntegration.syncFromLocalStorage Date_parse_isNaN clock iso1 iso2 closed
       = (Reject e, closed))
  ∧ (∀ iso, ProjectFlowIntegration.syncToLocalStorage datetime_text iso closed
            = (Reject e, closed))
  ∧ (∀ filters iso,
       ProjectFlowIntegration.getTasks datetime_text filters iso closed = Reject e)
  ∧ (∀ term iso,
       ProjectFlowIntegration.searchTasks datetime_text term iso closed = Reject e)
  ∧ (∀ today, ProjectFlowIntegration.getTaskStats today closed = Reject e)
  ∧ Store.rows (ProjectFlowIntegration.db closed)
    = Store.rows (ProjectFlowIntegration.db st)
  ∧ ProjectFlowIntegration.projectflow_tasks closed
    = ProjectFlowIntegration.projectflow_tasks st.
Proof. cbv zeta. repeat split. Qed.

End AdapterQueries.

(* ===================================================================== *)
(** ** Export and import *)
(* ===================================================================== *)

Section Migration.

Variable Date_parse_isNaN : string → bool.
Variable datetime_text : Z → string.




End Migration.

(* ===================================================================== *)
(** ** The laws at concrete inputs *)
(* ===================================================================== *)


Lemma createTask_resolves_iff_valid_witness :
  ∃ r, Store.rows (Store.createTask ten_characters beta 2 "2025-01-01T00:00:02.000Z"
                     "2025-01-01T00:00:02.000Z" with_alpha).2
       = Store.rows with_alpha ++ [r]
     ∧ task_id r = Store.sqlite_sequence with_alpha + 1.
Proof.
  destruct (Store.createTask ten_characters beta 2 "2025-01-01T00:00:02.000Z"
              "2025-01-01T00:00:02.000Z" with_alpha) as [[o|e] this'] eqn:E.
  - exact (proj1 (proj2 (createTask_resolves_iff_valid ten_characters beta 2
             "2025-01-01T00:00:02.000Z" "2025-01-01T00:00:02.000Z" with_alpha eq_refl)
             o this' E)).
  - vm_compute in E. discriminate.
Defined.

Lemma with_alpha_reachable : Store.reachable ten_characters 1 with_alpha.
Proof.
  unfold with_alpha, connected.
  apply (Store.reachable_call _ 0); [|done].
  apply (Store.reachable_call _ 0); [|done].
  apply Store.reachable_new.
Defined.

Lemma getTask_after_createTask_witness :
  ∃ s, get beta "title" = Str s
     ∧ Store.getTask 2 (Store.createTask ten_characters beta 2 "2025-01-01T00:00:02.000Z"
                          "2025-01-01T00:00:02.000Z" with_alpha).2
       = Resolve (Effects.inserted_row beta s 2 2).
Proof.
  destruct (Store.createTask ten_characters beta 2 "2025-01-01T00:00:02.000Z"
              "2025-01-01T00:00:02.000Z" with_alpha) as [[o|e] this'] eqn:E.
  - destruct (getTask_after_createTask ten_characters 1 beta 2
                "2025-01-01T00:00:02.000Z" "2025-01-01T00:00:02.000Z"
                with_alpha this' o with_alpha_reachable eq_refl E) as (s & Ht & H & _).
    exists s. split; [exact Ht|exact H].
  - vm_compute in E. discriminate.
Defined.

Lemma updateTask_writes_the_supplied_columns_witness :
  ∃ s r, get retitle "title" = Str s
       ∧ Store.getTask 1 alpha_beta = Resolve r
       ∧ Store.getTask 1 (Store.updateTask ten_characters 1 retitle 3 alpha_beta).2
         = Resolve (Effects.updated_row retitle s 3 r)
       ∧ ∀ other, other ≠ 1 →
           Store.getTask other (Store.updateTask ten_characters 1 retitle 3 alpha_beta).2
           = Store.getTask other alpha_beta.
Proof.
  apply (updateTask_writes_the_supplied_columns ten_characters 1 retitle 3 alpha_beta
           _ {| Store.updated_task_id := 1; Store.changes := 1 |}).
  - reflexivity.
  - vm_compute. reflexivity.
Defined.


Lemma rejected_calls_change_nothing_witness :
  (Store.createTask ten_characters padded_title 3 "" "" alpha_beta).2 = alpha_beta.
Proof.
  refine (proj1 (rejected_calls_change_nothing ten_characters alpha_beta _
                   (Error ("Validation failed: " +:+
                           join ", " (Store.validateTask ten_characters padded_title))))
            padded_title 3 "" "" _).
  vm_compute. reflexivity.
Defined.

Lemma getTask_after_deleteTask_witness :
  ∃ this',
    Store.deleteTask 1 alpha_beta
      = (Resolve {| Store.deleted_task_id := 1; Store.deleted := true |}, this')
    ∧ Store.getTask 1 this' = Reject (Error ("Task with ID " +:+ pretty 1 +:+ " not found"))
    ∧ (∀ other, other ≠ 1 → Store.getTask other this' = Store.getTask other alpha_beta)
    ∧ (∀ t, Store.reachable ten_characters t alpha_beta →
         (List.length (Store.rows this') + 1 = List.length (Store.rows alpha_beta))%nat).
Proof.
  apply (getTask_after_deleteTask ten_characters 1 alpha_beta alpha_row).
  vm_compute. reflexivity.
Defined.

Lemma identifiers_are_never_reused_witness :
  ∃ r', last (Store.rows
                (Store.createTask ten_characters alpha 4 "" ""
                   (Effects.run ten_characters [(Store.DeleteTask 2, 3)] alpha_beta)).2)
        = Some r'
      ∧ task_id beta_row < task_id r'.
Proof.
  eapply (identifiers_are_never_reused ten_characters 2 alpha_beta beta_row
            [(Store.DeleteTask 2, 3)] alpha 4 "" "").
  - exact alpha_beta_reachable.
  - vm_compute. right. left.
  - vm_compute. reflexivity.
Defined.

Lemma stored_rows_are_well_formed_witness :
  Forall Effects.row_at_rest (Store.rows alpha_beta)
  ∧ NoDup (task_id <$> Store.rows alpha_beta).
Proof.
  destruct (stored_rows_are_well_formed ten_characters 2 alpha_beta alpha_beta_reachable)
    as (H1 & H2 & _).
  split; [exact H1|exact H2].
Defined.


Lemma searchTasks_never_misses_an_occurrence_witness :
  ∃ l, Store.searchTasks (Str " a_ ") alpha_beta = Resolve l
     ∧ (∀ r, r ∈ Store.rows alpha_beta → Search.found (trim " a_ ") r = true → r ∈ l)
     ∧ (∀ r, r ∈ l → r ∈ Store.rows alpha_beta)
     ∧ StronglySorted (λ a b, created_at b ≤ created_at a) l.
Proof.
  apply (searchTasks_never_misses_an_occurrence " a_ " alpha_beta).
  - reflexivity.
  - vm_compute. discriminate.
  - reflexivity.
  - reflexivity.
Defined.

Lemma getTaskStats_accounts_for_every_row_witness :
  ∃ st, Store.getTaskStats "2025-01-01" null_status = Resolve st
    ∧ ToNumber (Store.pending_tasks st) + ToNumber (Store.completed_tasks st)
      + Z.of_nat (List.length
          (List.filter (λ r, bool_decide (status r = None)) (Store.rows null_status)))
      = Store.total_tasks st
    ∧ ToNumber (Store.high_priority_tasks st)
      = Z.of_nat (List.length
          (List.filter (λ r, bool_decide (priority r = Some "high")) (Store.rows null_status)))
    ∧ ToNumber (Store.due_today st)
      = Z.of_nat (List.length
          (List.filter (λ r, bool_decide (due_date r = Some "2025-01-01"))
             (Store.rows null_status))).
Proof.
  apply (getTaskStats_accounts_for_every_row ten_characters 2 "2025-01-01" null_status).
  - exact null_status_reachable.
  - reflexivity.
Defined.

Lemma adapter_identifier_round_trip_witness :
  ∃ id, get (Integration.convertToProjectFlowFormat sample_datetime_text "" beta_row) "id"
        = Str id
      ∧ Builtins.parseInt (Builtins.replace_with_empty "task-" id) = Some (task_id beta_row).
Proof.
  apply (adapter_identifier_round_trip sample_datetime_text "" beta_row).
  vm_compute. split; reflexivity.
Defined.

Lemma converted_task_is_stored_with_defaults_witness :
  ("Status must be pending or completed"
     ∉ Store.validateTask ten_characters (Integration.convertToDbFormat pf_gamma))
  ∧ ∃ r, last (Store.rows
                 (Store.createTask ten_characters (Integration.convertToDbFormat pf_gamma)
                    1 "" "" connected).2) = Some r
       ∧ status r = Some "pending"
       ∧ priority r = Some "medium"
       ∧ description r = None
       ∧ due_date r = None.
Proof.
  destruct (converted_task_is_stored_with_defaults ten_characters pf_gamma) as [Hs H].
  split; [exact Hs|].
  destruct (Store.createTask ten_characters (Integration.convertToDbFormat pf_gamma)
              1 "" "" connected) as [[o|e] this'] eqn:E.
  - destruct (H 1 "" "" connected this' o E) as (r & Hl & H1 & H2 & H3 & H4).
    exists r. split; [exact Hl|]. split; [exact H1|]. split; [exact H2|].
    split; [exact H3|exact (H4 eq_refl)].
  - exfalso. revert E. vm_compute. discriminate.
Defined.


Lemma adapter_snapshot_mirrors_store_witness :
  ∃ snapshot,
    ProjectFlowIntegration.projectflow_tasks adapter_beta = Some snapshot
    ∧ Snapshots.mirrors sample_datetime_text sample_iso
        (Store.rows (ProjectFlowIntegration.db adapter_beta)) snapshot
    ∧ List.length snapshot = List.length (Store.rows (ProjectFlowIntegration.db adapter_beta)).
Proof.
  apply (adapter_snapshot_mirrors_store ten_characters sample_datetime_text sample_iso
           adapter_start adapter_beta).
  left. exists pf_beta, 1, "2025-01-01T00:00:01.000Z", "2025-01-01T00:00:01.000Z",
    "2025-01-01T00:00:01.000Z".
  eexists. vm_compute. reflexivity.
Defined.

Lemma syncFromLocalStorage_appends_the_valid_entries_witness :
  ∃ st' new,
    ProjectFlowIntegration.syncFromLocalStorage ten_characters (λ i, Z.of_nat i)
      sample_iso sample_iso adapter_start = (Resolve tt, st')
    ∧ ProjectFlowIntegration.projectflow_tasks st' = Some [pf_beta; pf_untitled; pf_gamma]
    ∧ Store.rows (ProjectFlowIntegration.db st')
      = Store.rows (ProjectFlowIntegration.db adapter_start) ++ new
    ∧ Forall2 Snapshots.imported_as
        (List.filter (Snapshots.importable ten_characters)
           [pf_beta; pf_untitled; pf_gamma]) new
    ∧ Forall (λ r, Store.sqlite_sequence (ProjectFlowIntegration.db adapter_start)
                   < task_id r) new.
Proof.
  destruct (syncFromLocalStorage_appends_the_valid_entries ten_characters
              (λ i, Z.of_nat i) sample_iso sample_iso adapter_start
              [pf_beta; pf_untitled; pf_gamma] eq_refl eq_refl eq_refl)
    as (st' & new & E & Hi & Hr & F & Hid).
  exists st', new. split; [exact E|]. split; [exact Hi|]. split; [exact Hr|].
  split; [exact F|]. apply Forall_forall. intros r [k Hk]%list_elem_of_lookup_1.
  rewrite (Hid k r Hk). lia.
Defined.

Lemma store_rejections_pass_through_the_adapter_witness :
  ProjectFlowIntegration.deleteTask sample_datetime_text "task-9" sample_iso adapter_beta
  = (Reject (Error "Task with ID 9 not found"), adapter_beta).
Proof.
  refine (proj2 (proj2 (store_rejections_pass_through_the_adapter ten_characters
            sample_datetime_text adapter_beta (Error "Task with ID 9 not found") eq_refl))
            "task-9" sample_iso (ProjectFlowIntegration.db adapter_beta) _).
  vm_compute. reflexivity.
Defined.

Lemma adapter_updateTask_needs_the_title_witness :
  ∃ errors,
    ProjectFlowIntegration.updateTask ten_characters sample_datetime_text "task-1"
      {[ "status" := Str "completed" ]} 2 sample_iso adapter_beta
    = (Reject (Error ("Validation failed: " +:+ join ", " errors)), adapter_beta)
    ∧ "Title is required" ∈ errors.
Proof.
  apply (adapter_updateTask_needs_the_title ten_characters sample_datetime_text "task-1"
           {[ "status" := Str "completed" ]} 2 sample_iso adapter_beta); reflexivity.
Defined.

Lemma adapter_createTask_returns_the_new_task_witness :
  ∃ result,
    (ProjectFlowIntegration.createTask ten_characters sample_datetime_text pf_beta 1
       "2025-01-01T00:00:01.000Z" "2025-01-01T00:00:01.000Z" sample_iso
       "2025-01-01T00:00:01.000Z" adapter_start).1 = Resolve result
    ∧ result !! "id" = Some (Store.Value (Str "task-1"))
    ∧ result !! "status" = Some (Store.Value (Str "completed")).
Proof.
  destruct (ProjectFlowIntegration.createTask ten_characters sample_datetime_text pf_beta 1
       "2025-01-01T00:00:01.000Z" "2025-01-01T00:00:01.000Z" sample_iso
       "2025-01-01T00:00:01.000Z" adapter_start) as [[result|e] st'] eqn:E.
  - destruct (adapter_createTask_returns_the_new_task ten_characters sample_datetime_text
                _ _ _ _ _ _ _ _ _ E) as (H1 & _ & _ & H2 & _).
    exists result. split; [reflexivity|]. split; [exact H1|exact H2].
  - vm_compute in E. discriminate.
Defined.



Lemma updateTask_hits_a_constraint_iff_witness :
  ∃ msg, (Store.updateTask ten_characters 1 empty_status 3 alpha_beta).1
         = Reject (SQLITE_CONSTRAINT msg).
Proof.
  apply (proj2 (updateTask_hits_a_constraint_iff ten_characters 2 1 empty_status 3
                  alpha_beta alpha_beta_reachable eq_refl
                  ltac:(vm_compute; reflexivity))).
  split.
  - exists alpha_row. split; [vm_compute; left|reflexivity].
  - right. vm_compute. reflexivity.
Defined.



